(** * adb_CLI: the device-session layer of [adb.py], embedded in Rocq

    The program is a menu loop around an external bridge executable
    ([adb]).  Everything it does is input/output: it prompts, launches
    processes, parses their text and prints.  The embedding therefore
    has three layers:

    - [PyStr]: the Python [str] and [int] primitives the source uses
      ([strip], [splitlines], [split], [in], [int(...)], indexing with
      negative indices), on strings of code points below 256 (a text
      with other characters is outside the model), with integers and
      lists of any size;
    - [Shlex]: the tokenizer behind [shlex.split];
    - [Adb]: the functions of [adb.py] in a state-and-exception monad
      over an explicit world (operating-system answers, the user's
      scripted answers, the trace of observable events). *)

From Stdlib Require Import String Ascii List ZArith Lia Bool.
From Stdlib Require Import DecimalString DecimalNat.
Import ListNotations.
Open Scope string_scope.
Open Scope Z_scope.

(* ================================================================= *)
(** ** Python string primitives *)

Module PyStr.

Definition ord (c : ascii) : N := N_of_ascii c.

(** [str.isspace] on one character (code points below 256): TAB..CR,
    FS..US, SPACE, NEL and NBSP. *)
Definition is_space (c : ascii) : bool :=
  let n := ord c in
  ((9 <=? n) && (n <=? 13) || (28 <=? n) && (n <=? 32)
   || (n =? 133) || (n =? 160))%N.

(** The line boundaries of [str.splitlines]: LF, VT, FF, CR, FS, GS,
    RS and NEL (US is white space but no line boundary). *)
Definition is_linebreak (c : ascii) : bool :=
  let n := ord c in
  ((10 <=? n) && (n <=? 13) || (28 <=? n) && (n <=? 30) || (n =? 133))%N.

Definition LF : ascii := ascii_of_N 10.
Definition CR : ascii := ascii_of_N 13.
Definition TAB : ascii := ascii_of_N 9.

(** Truth value of a string: the empty string is false. *)
Definition truthy (s : string) : bool :=
  match s with EmptyString => false | String _ _ => true end.

(** [a or b] on strings. *)
Definition or_else (a b : string) : string := if truthy a then a else b.

Fixpoint lstrip (s : string) : string :=
  match s with
  | String c r => if is_space c then lstrip r else s
  | EmptyString => EmptyString
  end.

(** [rstrip]: a character is kept when it is no white space or when
    something is kept after it. *)
Fixpoint rstrip (s : string) : string :=
  match s with
  | String c r =>
      match rstrip r with
      | EmptyString => if is_space c then EmptyString else String c EmptyString
      | r' => String c r'
      end
  | EmptyString => EmptyString
  end.

(** [s.strip()] *)
Definition strip (s : string) : string := rstrip (lstrip s).

(** [s.splitlines()]: [cur] is the line read so far; a CR directly
    followed by LF is one boundary; no empty line is produced after a
    final boundary. *)
Fixpoint splitlines_from (cur s : string) : list string :=
  match s with
  | EmptyString => if truthy cur then [cur] else []
  | String c r =>
      if is_linebreak c then
        cur :: match r with
               | String d r' =>
                   if (Ascii.eqb c CR && Ascii.eqb d LF)%bool
                   then splitlines_from EmptyString r'
                   else splitlines_from EmptyString r
               | EmptyString => []
               end
      else splitlines_from (cur ++ String c EmptyString) r
  end.

Definition splitlines (s : string) : list string :=
  splitlines_from EmptyString s.

(** [s.split()] without arguments: maximal runs of non-space
    characters. *)
Fixpoint split_ws_from (cur s : string) : list string :=
  match s with
  | EmptyString => if truthy cur then [cur] else []
  | String c r =>
      if is_space c then
        if truthy cur then cur :: split_ws_from EmptyString r
        else split_ws_from EmptyString r
      else split_ws_from (cur ++ String c EmptyString) r
  end.

Definition split_ws (s : string) : list string :=
  split_ws_from EmptyString s.

(** [s.split(maxsplit=1)]: the first token and, when something other
    than white space follows it, the rest of the string from its first
    non-space character to the end (trailing white space kept). *)
Fixpoint split_ws1_from (cur s : string) : list string :=
  match s with
  | EmptyString => if truthy cur then [cur] else []
  | String c r =>
      if is_space c then
        if truthy cur then
          cur :: (if truthy (lstrip r) then [lstrip r] else [])
        else split_ws1_from EmptyString r
      else split_ws1_from (cur ++ String c EmptyString) r
  end.

Definition split_ws1 (s : string) : list string :=
  split_ws1_from EmptyString s.

(** [s.split(sep)] for a one-character separator: never empty. *)
Fixpoint split_on_from (sep : ascii) (cur s : string) : list string :=
  match s with
  | EmptyString => [cur]
  | String c r =>
      if Ascii.eqb c sep then cur :: split_on_from sep EmptyString r
      else split_on_from sep (cur ++ String c EmptyString) r
  end.

Definition split_on (sep : ascii) (s : string) : list string :=
  split_on_from sep EmptyString s.

(** [s.startswith(p)] *)
Definition startswith (p s : string) : bool := String.prefix p s.

(** [needle in hay] *)
Fixpoint contains (needle hay : string) : bool :=
  match hay with
  | EmptyString => String.prefix needle EmptyString
  | String _ r => String.prefix needle hay || contains needle r
  end.

(** *** [int(s)] for a string [s] (base 10) *)

Definition digit_val (c : ascii) : option Z :=
  let n := ord c in
  if ((48 <=? n) && (n <=? 57))%N then Some (Z.of_N n - 48) else None.

(** Digits with single underscores between them; [prev_digit] tells
    whether the previous character was a digit, [acc] is the value of
    the digits read. *)
Fixpoint digits_from (prev_digit : bool) (acc : Z) (s : string) : option Z :=
  match s with
  | EmptyString => if prev_digit then Some acc else None
  | String c r =>
      match digit_val c with
      | Some d => digits_from true (10 * acc + d) r
      | None =>
          if (Ascii.eqb c "_" && prev_digit)%bool
          then match r with
               | EmptyString => None
               | String c' _ =>
                   match digit_val c' with
                   | Some _ => digits_from false acc r
                   | None => None
                   end
               end
          else None
      end
  end.

(** The white space [int] skips around a numeral: TAB..CR and SPACE,
    and NEL and NBSP, which it first turns into SPACE.  FS..US are white
    space for [str.strip] but not here. *)
Definition is_int_space (c : ascii) : bool :=
  let n := ord c in
  ((9 <=? n) && (n <=? 13) || (n =? 32) || (n =? 133) || (n =? 160))%N.

Fixpoint lstrip_by (p : ascii -> bool) (s : string) : string :=
  match s with
  | String c r => if p c then lstrip_by p r else s
  | EmptyString => EmptyString
  end.

Fixpoint rstrip_by (p : ascii -> bool) (s : string) : string :=
  match s with
  | String c r =>
      match rstrip_by p r with
      | EmptyString => if p c then EmptyString else String c EmptyString
      | r' => String c r'
      end
  | EmptyString => EmptyString
  end.

(** [int(s)]: the white space around the numeral is skipped, then an
    optional sign, then the digits.  [None] stands for [ValueError].
    On code points below 256 the only decimal digits are 0..9.  The
    interpreter's limit on the length of a numeral (4300 digits unless
    configured otherwise; beyond it [int] raises [ValueError]) is not
    part of this definition: integers here have any size, so [None]
    here is a [ValueError] there, and a value here is the same value
    there for every numeral within the limit. *)
Definition int_of_str (s : string) : option Z :=
  match rstrip_by is_int_space (lstrip_by is_int_space s) with
  | String "-" r => option_map Z.opp (digits_from false 0 r)
  | String "+" r => digits_from false 0 r
  | r => digits_from false 0 r
  end.

(** [l[i]] with Python's index rule: [0 <= i < len] counts from the
    front, [-len <= i < 0] from the back, anything else is
    [IndexError] ([None]). *)
Definition index {A} (l : list A) (i : Z) : option A :=
  let n := Z.of_nat (List.length l) in
  if (0 <=? i) && (i <? n) then nth_error l (Z.to_nat i)
  else if (- n <=? i) && (i <? 0) then nth_error l (Z.to_nat (n + i))
  else None.

(** [str(n)] for a natural number. *)
Definition str_of_nat (n : nat) : string :=
  NilEmpty.string_of_uint (Nat.to_uint n).

(** [str.lower] on one character (code points below 256): A..Z and the
    capital letters U+00C0..U+00DE, the multiplication sign U+00D7
    apart, move up by 32. *)
Definition lower_char (c : ascii) : ascii :=
  let n := ord c in
  if ((65 <=? n) && (n <=? 90) || (192 <=? n) && (n <=? 222) && negb (n =? 215))%N
  then ascii_of_N (n + 32) else c.

(** [s.lower()] *)
Fixpoint lower (s : string) : string :=
  match s with
  | EmptyString => EmptyString
  | String c r => String (lower_char c) (lower r)
  end.

End PyStr.

(* ================================================================= *)
(** ** [shlex.split] *)

(** The tokenizer of Python's [shlex] as [shlex.split(s)] configures it:
    POSIX mode, [whitespace_split] on, no comment characters, no
    punctuation characters.  At the end of input inside a quotation or
    after an escape character the tokenizer raises [ValueError], with a
    message of its own in either case. *)
Module Shlex.

Definition DQUOTE : ascii := ascii_of_N 34.
Definition SQUOTE : ascii := ascii_of_N 39.
Definition BACKSLASH : ascii := ascii_of_N 92.

(** [whitespace = ' \t\r\n'] *)
Definition is_whitespace (c : ascii) : bool :=
  let n := PyStr.ord c in ((n =? 32) || (n =? 9) || (n =? 13) || (n =? 10))%N.
(** [quotes] holds the single and the double quote. *)
Definition is_quote (c : ascii) : bool :=
  (Ascii.eqb c SQUOTE || Ascii.eqb c DQUOTE)%bool.
(** [escape] holds the backslash. *)
Definition is_escape (c : ascii) : bool := Ascii.eqb c BACKSLASH.
(** [escapedquotes] holds the double quote only. *)
Definition is_escapedquote (c : ascii) : bool := Ascii.eqb c DQUOTE.

(** Where an escape returns to ([escapedstate]): the word state ['a']
    or the quotation it interrupted. *)
Inductive back : Type := BWord | BQuote (q : ascii).

(** The tokenizer's [state]: [' '], ['a'], a quote character, or the
    escape character. *)
Inductive mode : Type :=
| InWs | InWord | InQuote (q : ascii) | InEsc (b : back).

Definition resume (b : back) : mode :=
  match b with BWord => InWord | BQuote q => InQuote q end.

Definition snoc (s : string) (c : ascii) : string := s ++ String c EmptyString.

(** What the tokenizer ends with: the tokens, or one of its two
    errors. *)
Inductive lexed : Type :=
| Tokens (l : list string)
| NoClosingQuotation
| NoEscapedCharacter.

(** Puts an emitted token before the tokens still to come. *)
Definition emitted (tok : string) (o : lexed) : lexed :=
  match o with
  | Tokens l => Tokens (tok :: l)
  | NoClosingQuotation => NoClosingQuotation
  | NoEscapedCharacter => NoEscapedCharacter
  end.

(** One pass over the input: [tok] is [self.token], [quoted] the flag
    of the current [read_token] call; a token is emitted at a [break]
    when it is non-empty or was quoted. *)
Fixpoint lex (m : mode) (quoted : bool) (tok s : string) : lexed :=
  match s with
  | EmptyString =>
      match m with
      | InWs | InWord =>
          Tokens (if (PyStr.truthy tok || quoted)%bool then [tok] else [])
      | InQuote _ => NoClosingQuotation
      | InEsc _ => NoEscapedCharacter
      end
  | String c r =>
      match m with
      | InWs =>
          if is_whitespace c then
            if (PyStr.truthy tok || quoted)%bool
            then emitted tok (lex InWs false EmptyString r)
            else lex InWs quoted tok r
          else if is_escape c then lex (InEsc BWord) quoted tok r
          else if is_quote c then lex (InQuote c) quoted tok r
          else lex InWord quoted (String c EmptyString) r
      | InWord =>
          if is_whitespace c then
            if (PyStr.truthy tok || quoted)%bool
            then emitted tok (lex InWs false EmptyString r)
            else lex InWs quoted tok r
          else if is_quote c then lex (InQuote c) quoted tok r
          else if is_escape c then lex (InEsc BWord) quoted tok r
          else lex InWord quoted (snoc tok c) r
      | InQuote q =>
          if Ascii.eqb c q then lex InWord true tok r
          else if (is_escape c && is_escapedquote q)%bool
               then lex (InEsc (BQuote q)) true tok r
               else lex (InQuote q) true (snoc tok c) r
      | InEsc b =>
          let tok' :=
            match b with
            | BQuote q =>
                if (negb (Ascii.eqb c BACKSLASH) && negb (Ascii.eqb c q))%bool
                then snoc tok BACKSLASH else tok
            | BWord => tok
            end in
          lex (resume b) quoted (snoc tok' c) r
      end
  end.

Definition tokenize (s : string) : lexed := lex InWs false EmptyString s.

(** [shlex.split(s)]; [None] when it raises. *)
Definition split (s : string) : option (list string) :=
  match tokenize s with
  | Tokens l => Some l
  | NoClosingQuotation | NoEscapedCharacter => None
  end.

(** The message of the [ValueError] that [shlex.split(s)] raises, when
    it raises. *)
Definition failure (s : string) : option string :=
  match tokenize s with
  | Tokens _ => None
  | NoClosingQuotation => Some "No closing quotation"
  | NoEscapedCharacter => Some "No escaped character"
  end.

End Shlex.

(* ================================================================= *)
(** ** The world the program runs in *)

Module World.

(** The exceptions that occur in the program or in the library calls
    it makes.  [OtherError] stands for any other exception that derives
    from [Exception], with its text: an error of the operating system
    other than file-not-found, a failed import, a failed download, a
    child that ended with a non-zero code under [check=True]. *)
Inductive exn : Type :=
| FileNotFoundError (msg : string)
| KeyboardInterrupt
| ValueError (msg : string)
| IndexError
| EOFError
| OtherError (msg : string).

(** [except Exception] catches everything but [KeyboardInterrupt],
    which derives from [BaseException] only. *)
Definition is_Exception (e : exn) : bool :=
  match e with KeyboardInterrupt => false | _ => true end.

(** [str(e)] *)
Definition exn_str (e : exn) : string :=
  match e with
  | FileNotFoundError m => m
  | ValueError m => m
  | KeyboardInterrupt => ""
  | IndexError => "list index out of range"
  | EOFError => ""
  | OtherError m => m
  end.

(** What [subprocess.run] does with a command line: the child runs to
    its end, the executable is not found, the launch fails otherwise,
    or the user interrupts the wait. *)
Inductive launch : Type :=
| Exited (rc : Z) (out err : string)
| NotFound (msg : string)
| LaunchFailed (msg : string)
| Interrupted.

(** What the user does at a prompt: type a line (the characters as
    typed, without the line end), press Enter on an empty line, or press
    Ctrl-C.  The end of the script is the end of standard input. *)
Inductive answer : Type :=
| Typed (s : string)
| Enter
| CtrlC.

(** Observable events, in the order they happen. *)
Inductive event : Type :=
| Print (s : string)
| PrintTable (title : string) (rows : list (string * string))
| PrintPanel (title body : string)
| Clear
| Ask (prompt : string)
| Input
| Spawn (cmd : list string) (captured : bool).

(** What the download and unpacking of the mirroring tool ends with:
    done, an exception deriving from [Exception] with its text, or the
    user's interrupt. *)
Inductive fetched : Type :=
| Unpacked
| FetchFailed (msg : string)
| FetchInterrupted.

(** The answers of the operating system.  [spawn n cmd] is the [n]-th
    process launch of the session.  The last seven fields are what the
    installation of the mirroring tool meets: the name of the platform,
    the exception [mkdir] raises on a directory (if any), the exception
    the import of the download libraries raises (if any), the end of the
    download, whether a path exists once the archive is unpacked, the
    search path once the package manager has run, and the way the
    library writes a signal number. *)
Record env : Type := {
  os_nt : bool;
  home : string;
  which : string -> option string;
  path_exists : string -> bool;
  path_isfile : string -> bool;
  spawn : nat -> list string -> launch;
  platform_system : string;
  mkdir : string -> option exn;
  import_error : option exn;
  fetch : fetched;
  exists_unpacked : string -> bool;
  which_installed : string -> option string;
  signal_repr : Z -> string
}.

Record world : Type := {
  inputs : list answer;
  launches : nat;
  trace : list event
}.

Inductive outcome (A : Type) : Type :=
| Ret (a : A)
| Raise (e : exn).
Arguments Ret {A} a.
Arguments Raise {A} e.

(** Computations: state passing over [world], with exceptions. *)
Definition M (A : Type) : Type := world -> outcome A * world.

Definition ret {A} (a : A) : M A := fun w => (Ret a, w).
Definition raise {A} (e : exn) : M A := fun w => (Raise e, w).
Definition bind {A B} (m : M A) (k : A -> M B) : M B :=
  fun w => match m w with
           | (Ret a, w') => k a w'
           | (Raise e, w') => (Raise e, w')
           end.

(** [try: m  except <handles>: h e]; an exception [handles] rejects
    goes on. *)
Definition try_except {A} (m : M A) (handles : exn -> bool) (h : exn -> M A) : M A :=
  fun w => match m w with
           | (Ret a, w') => (Ret a, w')
           | (Raise e, w') => if handles e then h e w' else (Raise e, w')
           end.

Definition emit (e : event) : M unit :=
  fun w => (Ret tt, {| inputs := inputs w; launches := launches w;
                       trace := trace w ++ [e] |}).

Definition lift {A} (o : option A) (e : exn) : M A :=
  match o with Some a => ret a | None => raise e end.

(** Reads the next answer of the script. *)
Definition next_answer : M answer :=
  fun w => match inputs w with
           | [] => (Raise EOFError, w)
           | a :: rest =>
               (match a with CtrlC => Raise KeyboardInterrupt | _ => Ret a end,
                {| inputs := rest; launches := launches w; trace := trace w |})
           end.

(** [subprocess.run(cmd, ...)] *)
Definition run_process (E : env) (cmd : list string) (captured : bool) : M launch :=
  fun w => (Ret (spawn E (launches w) cmd),
            {| inputs := inputs w; launches := S (launches w);
               trace := trace w ++ [Spawn cmd captured] |}).

End World.

Declare Scope adb_scope.
Delimit Scope adb_scope with adb.
Notation "x <- m ;; k" := (World.bind m (fun x => k))
  (at level 61, m at next level, right associativity) : adb_scope.
Notation "' p <- m ;; k" := (World.bind m (fun x => match x with p => k end))
  (at level 61, p pattern, m at next level, right associativity) : adb_scope.
Notation "m ;; k" := (World.bind m (fun _ => k))
  (at level 61, right associativity) : adb_scope.

(* ================================================================= *)
(** ** The functions of [adb.py] *)

Module Adb.
Import PyStr World.
Local Open Scope adb_scope.

Definition nl : string := String LF EmptyString.

(** The message [run_adb] puts into its [FileNotFoundError]. *)
Definition adb_missing_msg : string :=
  "ADB tidak ditemukan. Pastikan adb terpasang atau unduh otomatis.".

(** [console.print(...)] of a string whose markup is balanced.  The
    console reads square brackets as markup and raises on a closing tag
    that closes nothing; that can only come from text between the fixed
    tags of a message, and is outside this definition: where a message
    holds text the user typed, the statements below ask that this text
    has no opening square bracket. *)
Definition console_print (s : string) : M unit := emit (Print s).

(** What [Prompt.ask] makes of a typed line: the default for the empty
    line (the empty string when there is none), the line without the
    white space around it otherwise. *)
Definition prompt_value (line : string) (default : option string) : string :=
  if truthy line then strip line
  else match default with Some d => d | None => EmptyString end.

(** [Prompt.ask(prompt, default=...)] *)
Definition Prompt_ask (prompt : string) (default : option string) : M string :=
  emit (Ask prompt) ;;
  a <- next_answer ;;
  match a with
  | Typed line => ret (prompt_value line default)
  | Enter => ret (prompt_value EmptyString default)
  | CtrlC => raise KeyboardInterrupt
  end.

(** [Confirm.ask(prompt)]: the answer is trimmed and put in lower case;
    it asks again until that is [y] or [n]. *)
Fixpoint confirm_from (prompt : string) (ins : list answer) (n : nat)
         (tr : list event) : outcome bool * world :=
  match ins with
  | [] => (Raise EOFError, {| inputs := []; launches := n; trace := tr ++ [Ask prompt] |})
  | a :: rest =>
      let w' := {| inputs := rest; launches := n; trace := tr ++ [Ask prompt] |} in
      match a with
      | Typed line =>
          if (lower (strip line) =? "y")%string then (Ret true, w')
          else if (lower (strip line) =? "n")%string then (Ret false, w')
          else confirm_from prompt rest n (tr ++ [Ask prompt])
      | Enter => confirm_from prompt rest n (tr ++ [Ask prompt])
      | CtrlC => (Raise KeyboardInterrupt, w')
      end
  end.

Definition Confirm_ask (prompt : string) : M bool :=
  fun w => confirm_from prompt (inputs w) (launches w) (trace w).

(** The built-in [input()]. *)
Definition input : M unit := emit Input ;; _ <- next_answer ;; ret tt.

(** [if not serial] for an optional string. *)
Definition falsy (o : option string) : bool :=
  match o with Some s => negb (truthy s) | None => true end.

(** The filter of the selector's comprehension:
    [line.strip() and "device" in line]. *)
Definition ready_line (line : string) : bool :=
  (truthy (strip line) && contains "device" line)%bool.

(** [[line.split()[0] for line in lines if line.strip() and "device" in line]];
    [None] would be the [IndexError] of [[0]] on an empty split. *)
Fixpoint ready_serials (lines : list string) : option (list string) :=
  match lines with
  | [] => Some []
  | line :: rest =>
      if ready_line line then
        match split_ws line with
        | [] => None
        | s :: _ => option_map (cons s) (ready_serials rest)
        end
      else ready_serials rest
  end.

(** The rows [list_devices] adds to its table. *)
Fixpoint device_rows (lines : list string) : option (list (string * string)) :=
  match lines with
  | [] => Some []
  | line :: rest =>
      if negb (truthy (strip line)) then device_rows rest
      else match split_ws1 line with
           | [] => None
           | serial :: more =>
               option_map (cons (serial, match more with i :: _ => i | [] => EmptyString end))
                          (device_rows rest)
           end
  end.

(** [for idx, s in enumerate(serials, start=idx): console.print(f"{idx}. {s}")] *)
Fixpoint print_enumerated (idx : nat) (serials : list string) : M unit :=
  match serials with
  | [] => ret tt
  | s :: rest =>
      console_print (str_of_nat idx ++ ". " ++ s) ;;
      print_enumerated (S idx) rest
  end.

(** Why the session loop stopped. *)
Inductive ended : Type := Returned | OutOfFuel.

(** [get_os_tag], as a function of what [platform.system()] returns. *)
Definition get_os_tag (platform_system : string) : string :=
  let system := lower platform_system in
  if startswith "win" system then "windows"
  else if (system =? "darwin")%string then "darwin"
  else if (system =? "linux")%string then "linux"
  else system.

(** [repr] of a list of words without quotes and backslashes. *)
Fixpoint repr_words (l : list string) : string :=
  match l with
  | [] => EmptyString
  | [s] => "'" ++ s ++ "'"
  | s :: r => "'" ++ s ++ "', " ++ repr_words r
  end.

Definition repr_list (l : list string) : string := "[" ++ repr_words l ++ "]".

Section WithEnv.
Variable E : env.

Definition exe_name (base : string) : string :=
  if os_nt E then base ++ ".exe" else base.

(** [a / b] on paths, as a string. *)
Definition pjoin (a b : string) : string :=
  a ++ (if os_nt E then "\" else "/") ++ b.

Definition APP_ROOT : string := pjoin (home E) ".adb_cli".

(** [which_adb], for a file system that answers the two look-ups (a
    look-up that ends with an error of the operating system, such as a
    directory that may not be read, is outside this definition). *)
Definition which_adb : string :=
  let exe := exe_name "adb" in
  match which E exe with
  | Some found => if truthy found then found
                  else let adb_path := pjoin (pjoin APP_ROOT "platform-tools") exe in
                       if path_exists E adb_path then adb_path else exe
  | None =>
      let adb_path := pjoin (pjoin APP_ROOT "platform-tools") exe in
      if path_exists E adb_path then adb_path else exe
  end.

Definition run_adb (args : list string) : M (Z * string * string) :=
  let adb := which_adb in
  r <- run_process E (adb :: args) true ;;
  match r with
  | Exited rc out err => ret (rc, strip out, strip err)
  | NotFound _ => raise (FileNotFoundError adb_missing_msg)
  | LaunchFailed msg => ret (1, EmptyString, msg)
  | Interrupted => raise KeyboardInterrupt
  end.

Definition ensure_adb : M string :=
  let exe := which_adb in
  if falsy (which E exe) then
    let adb_path := pjoin (pjoin APP_ROOT "platform-tools") (exe_name "adb") in
    if path_exists E adb_path then ret adb_path
    else
      console_print "[yellow]ADB tidak ditemukan. Silakan pasang manual (platform-tools).[/yellow]" ;;
      ret exe
  else ret exe.

Definition list_devices : M unit :=
  '(rc, out, err) <- run_adb ["devices"; "-l"] ;;
  if rc =? 0 then
    rows <- lift (device_rows (tl (splitlines out))) IndexError ;;
    emit (PrintTable "ADB Devices" rows)
  else console_print ("[red]Error: " ++ or_else err out ++ "[/red]").

Definition start_server : M unit :=
  '(rc, out, err) <- run_adb ["start-server"] ;;
  console_print (if rc =? 0 then "[green]" ++ or_else out "Server started" ++ "[/green]"
                 else "[red]" ++ err ++ "[/red]").

Definition stop_server : M unit :=
  '(rc, out, err) <- run_adb ["kill-server"] ;;
  console_print (if rc =? 0 then "[green]" ++ or_else out "Server stopped" ++ "[/green]"
                 else "[red]" ++ err ++ "[/red]").

Definition _pick_serial_interactive : M (option string) :=
  '(rc, out, err) <- run_adb ["devices"] ;;
  if negb (rc =? 0) then
    console_print ("[red]Error: " ++ or_else err out ++ "[/red]") ;;
    ret None
  else
    let lines := tl (splitlines out) in
    serials <- lift (ready_serials lines) IndexError ;;
    match serials with
    | [] => console_print "[red]Tidak ada device tersedia.[/red]" ;; ret None
    | [s] => ret (Some s)
    | _ =>
        print_enumerated 1 serials ;;
        choice <- Prompt_ask "Pilih device" (Some "1") ;;
        try_except
          (k <- lift (int_of_str choice) (ValueError "invalid literal for int()") ;;
           s <- lift (index serials (k - 1)) IndexError ;;
           ret (Some s))
          is_Exception
          (fun _ => s <- lift (index serials 0) IndexError ;; ret (Some s))
    end.

Definition pair_device : M unit :=
  hostport <- Prompt_ask "Masukkan ip:port untuk pair (contoh 192.168.0.5:37099)" None ;;
  pin <- Prompt_ask "Masukkan kode PIN" None ;;
  '(rc, out, err) <- run_adb ["pair"; hostport; pin] ;;
  if ((rc =? 0) && contains "Successfully" out)%bool then
    console_print ("[green]" ++ out ++ "[/green]") ;;
    host <- lift (index (split_on ":" hostport) 0) IndexError ;;
    '(rc2, out2, err2) <- run_adb ["connect"; host ++ ":5555"] ;;
    if rc2 =? 0 then console_print ("[green]" ++ out2 ++ "[/green]")
    else console_print ("[yellow]Pair ok, tapi connect gagal:[/yellow] " ++ or_else err2 out2)
  else console_print ("[red]Pair gagal:[/red] " ++ or_else err out).

Definition connect_device : M unit :=
  hostport <- Prompt_ask "Masukkan host/IP:port" None ;;
  '(rc, out, err) <- run_adb ["connect"; hostport] ;;
  if rc =? 0 then console_print ("[green]" ++ out ++ "[/green]")
  else console_print ("[red]Connect gagal:[/red] " ++ or_else err out).

Definition enable_tcpip : M unit :=
  port <- Prompt_ask "Masukkan port tcpip (default 5555)" (Some "5555") ;;
  '(rc, out, err) <- run_adb ["tcpip"; port] ;;
  if rc =? 0 then console_print ("[green]" ++ out ++ "[/green]")
  else console_print ("[red]Gagal set tcpip:[/red] " ++ or_else err out).

Definition open_shell : M unit :=
  serial <- _pick_serial_interactive ;;
  match serial with
  | None => ret tt
  | Some serial =>
      if negb (truthy serial) then ret tt else
      console_print ("[green]Opening interactive shell to " ++ serial
                     ++ ". Ketik 'exit' untuk keluar.[/green]") ;;
      let adb := which_adb in
      r <- run_process E [adb; "-s"; serial; "shell"] false ;;
      match r with
      | Exited _ _ _ => ret tt
      | Interrupted => console_print (nl ++ "[yellow]Shell interrupted by user.[/yellow]")
      | NotFound msg | LaunchFailed msg =>
          console_print ("[red]Error starting shell:[/red] " ++ msg)
      end
  end.

Definition run_command_on_device : M unit :=
  serial <- _pick_serial_interactive ;;
  match serial with
  | None => ret tt
  | Some serial =>
      if negb (truthy serial) then ret tt else
      command <- Prompt_ask "Masukkan perintah shell (contoh: ls /sdcard)" None ;;
      if negb (truthy command) then console_print "[red]Perintah kosong.[/red]"
      else
        match Shlex.tokenize command with
        | Shlex.Tokens args =>
            '(rc, out, err) <- run_adb (["-s"; serial; "shell"] ++ args) ;;
            if rc =? 0 then emit (PrintPanel "Output" (or_else out "(no output)"))
            else console_print ("[red]Error:[/red] " ++ or_else err out)
        | Shlex.NoClosingQuotation => raise (ValueError "No closing quotation")
        | Shlex.NoEscapedCharacter => raise (ValueError "No escaped character")
        end
  end.

Definition install_apk : M unit :=
  apk_path <- Prompt_ask "Masukkan path ke file APK (lokal)" None ;;
  if (negb (truthy apk_path) || negb (path_isfile E apk_path))%bool then
    console_print "[red]File APK tidak ditemukan.[/red]"
  else
    serial <- _pick_serial_interactive ;;
    match serial with
    | None => ret tt
    | Some serial =>
        if negb (truthy serial) then ret tt else
        console_print ("[green]Installing " ++ apk_path ++ " to " ++ serial ++ " ...[/green]") ;;
        '(rc, out, err) <- run_adb ["-s"; serial; "install"; "-r"; apk_path] ;;
        if rc =? 0 then console_print ("[green]Install success:[/green]" ++ nl ++ out)
        else console_print ("[red]Install failed:[/red] " ++ or_else err out)
    end.

Definition push_file : M unit :=
  src <- Prompt_ask "Path file sumber (PC)" None ;;
  if (negb (truthy src) || negb (path_exists E src))%bool then
    console_print "[red]File sumber tidak ditemukan.[/red]"
  else
    dst <- Prompt_ask "Path tujuan di device (contoh: /sdcard/Download/)" None ;;
    serial <- _pick_serial_interactive ;;
    match serial with
    | None => ret tt
    | Some serial =>
        if negb (truthy serial) then ret tt else
        console_print ("[green]Pushing " ++ src ++ " -> " ++ serial ++ ":" ++ dst ++ "[/green]") ;;
        '(rc, out, err) <- run_adb ["-s"; serial; "push"; src; dst] ;;
        if rc =? 0 then console_print ("[green]Push success:[/green]" ++ nl ++ out)
        else console_print ("[red]Push failed:[/red] " ++ or_else err out)
    end.

Definition pull_file : M unit :=
  remote <- Prompt_ask "Path file di device (contoh: /sdcard/Download/file.txt)" None ;;
  if negb (truthy remote) then console_print "[red]Path remote kosong.[/red]"
  else
    dst <- Prompt_ask "Path tujuan di PC (lokal)" None ;;
    if negb (truthy dst) then console_print "[red]Path tujuan kosong.[/red]"
    else
      serial <- _pick_serial_interactive ;;
      match serial with
      | None => ret tt
      | Some serial =>
          if negb (truthy serial) then ret tt else
          console_print ("[green]Pulling " ++ serial ++ ":" ++ remote ++ " -> " ++ dst ++ "[/green]") ;;
          '(rc, out, err) <- run_adb ["-s"; serial; "pull"; remote; dst] ;;
          if rc =? 0 then console_print ("[green]Pull success:[/green]" ++ nl ++ out)
          else console_print ("[red]Pull failed:[/red] " ++ or_else err out)
      end.

Definition reboot_device : M unit :=
  serial <- _pick_serial_interactive ;;
  match serial with
  | None => ret tt
  | Some serial =>
      if negb (truthy serial) then ret tt else
      mode <- Prompt_ask "Mode reboot? (normal/bootloader/recovery)" (Some "normal") ;;
      let args := ["-s"; serial; "reboot"] in
      let args := if (truthy mode && negb (mode =? "normal")%string)%bool
                  then (args ++ [mode])%list else args in
      '(rc, out, err) <- run_adb args ;;
      if rc =? 0 then console_print "[green]Reboot command sent.[/green]"
      else console_print ("[red]Reboot failed:[/red] " ++ or_else err out)
  end.

Definition disconnect_device : M unit :=
  host <- Prompt_ask "Masukkan host/IP:port untuk disconnect (atau kosong untuk all)"
                     (Some EmptyString) ;;
  '(rc, out, err) <- (if truthy host then run_adb ["disconnect"; host]
                      else run_adb ["disconnect"]) ;;
  if rc =? 0 then console_print ("[green]" ++ or_else out "Disconnected." ++ "[/green]")
  else console_print ("[red]Disconnect failed:[/red] " ++ or_else err out).

(** [show_help] prints a panel with a fixed text (its first line is
    kept here). *)
Definition show_help : M unit :=
  emit (PrintPanel "Help Menu" "Panduan Penggunaan Menu ADB").

(** Raises the exception a library call ended with, if any. *)
Definition raise_if (o : option exn) : M unit :=
  match o with Some e => raise e | None => ret tt end.

(** [str(e)] of the [CalledProcessError] for a command that ended with
    the code [rc]; a negative code is a signal. *)
Definition called_process_text (cmd : list string) (rc : Z) : string :=
  if 0 <=? rc
  then "Command '" ++ repr_list cmd ++ "' returned non-zero exit status "
       ++ str_of_nat (Z.to_nat rc) ++ "."
  else "Command '" ++ repr_list cmd ++ "' died with " ++ signal_repr E (- rc) ++ ".".

(** [subprocess.run(cmd, check=check)], attached to the terminal, the
    result dropped: with [check] a non-zero code raises
    [CalledProcessError]; a launch that fails raises. *)
Definition run_checked (cmd : list string) (check : bool) : M unit :=
  r <- run_process E cmd false ;;
  match r with
  | Exited rc _ _ =>
      if (check && negb (rc =? 0))%bool then raise (OtherError (called_process_text cmd rc))
      else ret tt
  | NotFound msg => raise (FileNotFoundError msg)
  | LaunchFailed msg => raise (OtherError msg)
  | Interrupted => raise KeyboardInterrupt
  end.

(** The download of the archive and its unpacking (the [with] blocks of
    the Windows branch). *)
Definition download_and_unpack : M unit :=
  match fetch E with
  | Unpacked => ret tt
  | FetchFailed msg => raise (OtherError msg)
  | FetchInterrupted => raise KeyboardInterrupt
  end.

(** [ensure_scrcpy]: the search path, then the cache directory, then
    the installation for the platform.  The path checks are those of a
    file system that answers (see [which_adb]). *)
Definition ensure_scrcpy : M (option string) :=
  let exe := exe_name "scrcpy" in
  if negb (falsy (which E exe)) then ret (which E exe) else
  let scrcpy_dir := pjoin APP_ROOT "scrcpy" in
  let exe_path := if os_nt E then pjoin (pjoin scrcpy_dir "scrcpy-win64-v2.7") "scrcpy.exe"
                  else pjoin scrcpy_dir "scrcpy" in
  if path_exists E exe_path then ret (Some exe_path) else
  console_print "[yellow]scrcpy tidak ditemukan, mencoba menginstall...[/yellow]" ;;
  let os_tag := get_os_tag (platform_system E) in
  raise_if (mkdir E scrcpy_dir) ;;
  if (os_tag =? "windows")%string then
    raise_if (import_error E) ;;
    console_print "[cyan]Mengunduh scrcpy untuk Windows...[/cyan]" ;;
    try_except
      (download_and_unpack ;;
       let exe_path := pjoin (pjoin scrcpy_dir "scrcpy-win64-v2.7") "scrcpy.exe" in
       if exists_unpacked E exe_path then ret (Some exe_path) else ret None)
      is_Exception
      (fun e => console_print ("[red]Gagal download scrcpy: " ++ exn_str e ++ "[/red]") ;;
                ret None)
  else if (os_tag =? "linux")%string then
    console_print "[cyan]Mencoba install scrcpy via apt...[/cyan]" ;;
    try_except
      (run_checked ["sudo"; "apt-get"; "update"] false ;;
       run_checked ["sudo"; "apt-get"; "install"; "-y"; "scrcpy"] true ;;
       ret (which_installed E "scrcpy"))
      is_Exception
      (fun e => console_print ("[red]Gagal install scrcpy di Linux: " ++ exn_str e ++ "[/red]") ;;
                ret None)
  else if (os_tag =? "darwin")%string then
    console_print "[cyan]Mencoba install scrcpy via brew...[/cyan]" ;;
    try_except
      (run_checked ["brew"; "install"; "scrcpy"] true ;;
       ret (which_installed E "scrcpy"))
      is_Exception
      (fun e => console_print ("[red]Gagal install scrcpy di macOS: " ++ exn_str e ++ "[/red]") ;;
                ret None)
  else ret None.

Definition try_screen_mirroring : M unit :=
  scrcpy_path <- ensure_scrcpy ;;
  match scrcpy_path with
  | None => console_print "[red]scrcpy tidak tersedia.[/red]"
  | Some scrcpy_path =>
      if negb (truthy scrcpy_path) then console_print "[red]scrcpy tidak tersedia.[/red]"
      else
        '(rc, out, _) <- run_adb ["devices"] ;;
        let lines := tl (splitlines out) in
        let devices :=
          filter (fun line => (contains "device" line && negb (startswith "*" line))%bool)
                 lines in
        match devices with
        | [] => console_print "[red]Tidak ada device ADB terhubung.[/red]"
        | _ =>
            console_print "[green]Menjalankan scrcpy...[/green]" ;;
            r <- run_process E [scrcpy_path] false ;;
            match r with
            | Exited _ _ _ => ret tt
            | Interrupted => raise KeyboardInterrupt
            | NotFound msg | LaunchFailed msg =>
                console_print ("[red]Gagal menjalankan scrcpy: " ++ msg ++ "[/red]")
            end
        end
  end.

Definition menu_options : list (string * string) :=
  [ ("[cyan]1[/cyan]", "List devices");
    ("[cyan]2[/cyan]", "Start ADB server");
    ("[cyan]3[/cyan]", "Stop ADB server");
    ("[cyan]4[/cyan]", "Pair device");
    ("[cyan]5[/cyan]", "Connect device");
    ("[cyan]6[/cyan]", "Enable tcpip");
    ("[cyan]7[/cyan]", "Open shell");
    ("[cyan]8[/cyan]", "Run command");
    ("[cyan]9[/cyan]", "Install APK");
    ("[cyan]10[/cyan]", "Push file");
    ("[cyan]11[/cyan]", "Pull file");
    ("[cyan]12[/cyan]", "Reboot device");
    ("[cyan]13[/cyan]", "Disconnect device");
    ("[cyan]14[/cyan]", "try screen mirroring");
    ("[cyan]15[/cyan]", "[cyan]Help[/cyan]");
    ("[cyan]0[/cyan]", "[bold red]Exit[/bold red]") ].

Definition show_menu : M unit :=
  emit (PrintTable "[green]ADB Pairing CLI[/green]" menu_options).

(** The [if]/[elif] chain of [main_loop]; the result tells whether
    the loop is left by [break]. *)
Definition dispatch (choice : string) : M bool :=
  if (choice =? "1")%string then list_devices ;; ret false
  else if (choice =? "2")%string then start_server ;; ret false
  else if (choice =? "3")%string then stop_server ;; ret false
  else if (choice =? "4")%string then pair_device ;; ret false
  else if (choice =? "5")%string then connect_device ;; ret false
  else if (choice =? "6")%string then enable_tcpip ;; ret false
  else if (choice =? "7")%string then open_shell ;; ret false
  else if (choice =? "8")%string then run_command_on_device ;; ret false
  else if (choice =? "9")%string then install_apk ;; ret false
  else if (choice =? "10")%string then push_file ;; ret false
  else if (choice =? "11")%string then pull_file ;; ret false
  else if (choice =? "12")%string then reboot_device ;; ret false
  else if (choice =? "13")%string then disconnect_device ;; ret false
  else if (choice =? "14")%string then try_screen_mirroring ;; ret false
  else if (choice =? "15")%string then show_help ;; ret false
  else if (choice =? "0")%string then
    yes <- Confirm_ask "Yakin mau keluar?" ;;
    if yes then console_print "[bold]Sampai jumpa![/bold]" ;; ret true
    else ret false
  else console_print "[red]Pilihan tidak dikenal.[/red]" ;; ret false.

(** The two [except] clauses around the dispatch. *)
Definition loop_handles (e : exn) : bool :=
  match e with
  | FileNotFoundError _ | KeyboardInterrupt => true
  | _ => false
  end.

Definition loop_handler (e : exn) : M bool :=
  match e with
  | FileNotFoundError _ => console_print ("[red]" ++ exn_str e ++ "[/red]") ;; ret true
  | _ => console_print (nl ++ "[yellow]Dibatalkan oleh user.[/yellow]") ;; ret true
  end.

(** One pass of the [while True] body; [true] when it ends in
    [break]. *)
Definition loop_body : M bool :=
  emit Clear ;;
  show_menu ;;
  choice <- Prompt_ask (nl ++ "[bold]Pilih nomor aksi[/bold]") (Some "1") ;;
  stop <- try_except (dispatch choice) loop_handles loop_handler ;;
  if stop then ret true else
  console_print (nl ++ "[dim]Tekan Enter untuk kembali ke menu...[/dim]") ;;
  try_except (input ;; ret false)
             (fun e => match e with KeyboardInterrupt => true | _ => false end)
             (fun _ => console_print (nl ++ "[yellow]Interrupted. Keluar.[/yellow]") ;;
                       ret true).

Fixpoint loop (fuel : nat) : M ended :=
  match fuel with
  | O => ret OutOfFuel
  | S fuel' =>
      stop <- loop_body ;;
      if stop then ret Returned else loop fuel'
  end.

Definition main_loop (fuel : nat) : M ended :=
  _ <- ensure_adb ;;
  loop fuel.

End WithEnv.

End Adb.

(* ================================================================= *)
(** ** Notions used in the statements *)

Module Obs.
Import PyStr World Adb.

(** The command lines launched by a list of events, in order. *)
Fixpoint spawned (evs : list event) : list (list string) :=
  match evs with
  | [] => []
  | Spawn cmd _ :: r => cmd :: spawned r
  | _ :: r => spawned r
  end.

(** The prompts shown by a list of events. *)
Fixpoint asked (evs : list event) : list string :=
  match evs with
  | [] => []
  | Ask p :: r => p :: asked r
  | _ :: r => asked r
  end.

(** The bridge executable is entirely absent: not on the search path,
    not in the cache directory, and launching its bare name fails with
    executable-not-found at any time. *)
Definition bridge_absent (E : env) : Prop :=
  which E (exe_name E "adb") = None /\
  path_exists E (pjoin E (pjoin E (APP_ROOT E) "platform-tools") (exe_name E "adb")) = false /\
  forall n args, exists msg, spawn E n (exe_name E "adb" :: args) = NotFound msg.

(** The value [Prompt.ask] returns for an answer: the typed line
    without the white space around it, the default for an empty line. *)
Definition answer_value (a : answer) (default : string) : string :=
  match a with
  | Typed line => prompt_value line (Some default)
  | _ => default
  end.

(** The serials the selector works with, from the raw standard output
    of the listing. *)
Definition listed_serials (out : string) : option (list string) :=
  ready_serials (tl (splitlines (strip out))).

(** The serials of the ready lines of a listing: the first token of
    every line after the first that [ready_line] accepts. *)
Definition ready_devices (out : string) : list string :=
  map (fun l => hd EmptyString (split_ws l))
      (filter ready_line (tl (splitlines (strip out)))).

(** The world after more answers were read, processes launched and
    events emitted. *)
Definition advance (w : world) (ins : list answer) (n : nat) (evs : list event) : world :=
  {| inputs := ins; launches := n + launches w; trace := trace w ++ evs |}.

(** The world right after the bridge was launched with [args]. *)
Definition launched (E : env) (w : world) (args : list string) : world :=
  advance w (inputs w) 1 [Spawn (which_adb E :: args) true].

(** What the selector makes of the user's choice among the serials
    [l]: the entry at [int(choice) - 1], and the first entry when the
    conversion or the indexing raises. *)
Definition resolve (l : list string) (choice : string) : option string :=
  match int_of_str choice with
  | Some k =>
      match index l (k - 1) with
      | Some s => Some s
      | None => index l 0
      end
  | None => index l 0
  end.

(** A host with [adb] on the search path whose process launches are
    answered by [resp]; a fresh session with the scripted answers
    [ins]. *)
Definition host_with (resp : nat -> list string -> launch) : env :=
  {| os_nt := false;
     home := "/home/user";
     which := fun exe => if ((exe =? "adb") || (exe =? "/usr/bin/adb"))%string
                         then Some "/usr/bin/adb" else None;
     path_exists := fun p => (p =? "/tmp/app.apk")%string;
     path_isfile := fun p => (p =? "/tmp/app.apk")%string;
     spawn := resp;
     platform_system := "Linux";
     mkdir := fun _ => None;
     import_error := None;
     fetch := FetchFailed "HTTPSConnectionPool: Max retries exceeded";
     exists_unpacked := fun _ => false;
     which_installed := fun _ => None;
     signal_repr := fun _ => "<Signals.SIGKILL: 9>" |}.

Definition session (ins : list answer) : world :=
  {| inputs := ins; launches := 0; trace := [] |}.

(** A bridge that answers [adb devices] with [out] and everything else
    with success and no text. *)
Definition listing (out : string) : nat -> list string -> launch :=
  fun _ cmd =>
    match cmd with
    | [_; "devices"] => Exited 0 out EmptyString
    | _ => Exited 0 EmptyString EmptyString
    end.

Definition header : string := "List of devices attached".

(** A listing with the header and one line per entry. *)
Fixpoint listing_text (entries : list string) : string :=
  match entries with
  | [] => EmptyString
  | e :: r => String LF e ++ listing_text r
  end.

Definition tabbed (serial state : string) : string :=
  serial ++ String TAB state.

(** The report of the missing bridge that ends the session. *)
Definition tool_missing_report : event :=
  Print ("[red]" ++ adb_missing_msg ++ "[/red]").

(** A computation that, from any world, launches one process and
    raises the missing-bridge error. *)
Definition always_missing {A} (m : M A) : Prop :=
  forall w, fst (m w) = Raise (FileNotFoundError adb_missing_msg) /\
            launches (snd (m w)) = S (launches w).

(** A computation that either launches nothing, or launches one
    process and raises the missing-bridge error. *)
Definition launch_free_or_missing {A} (m : M A) : Prop :=
  forall w, launches (snd (m w)) = launches w \/
            (fst (m w) = Raise (FileNotFoundError adb_missing_msg) /\
             launches (snd (m w)) = S (launches w)).

(** A host without the bridge: nothing on the search path, nothing in
    the cache directory, every launch fails with file-not-found. *)
Definition host_without_bridge : env :=
  {| os_nt := false;
     home := "/home/user";
     which := fun _ => None;
     path_exists := fun _ => false;
     path_isfile := fun _ => false;
     spawn := fun _ _ => NotFound "[Errno 2] No such file or directory: 'adb'";
     platform_system := "Linux";
     mkdir := fun _ => None;
     import_error := None;
     fetch := FetchFailed "HTTPSConnectionPool: Max retries exceeded";
     exists_unpacked := fun _ => false;
     which_installed := fun _ => None;
     signal_repr := fun _ => "<Signals.SIGKILL: 9>" |}.

(** A bridge for the pairing scenario: [pair] succeeds with the usual
    message, the follow-up [connect] fails. *)
Definition pairs_but_no_connect : nat -> list string -> launch :=
  fun _ cmd =>
    match cmd with
    | [_; "pair"; _; _] => Exited 0 "Successfully paired to 192.168.0.5:37099" EmptyString
    | [_; "connect"; _] => Exited 1 EmptyString "failed to connect to 192.168.0.5:5555"
    | _ => Exited 0 EmptyString EmptyString
    end.

(** The command [echo] followed by a double quote and [hi]: the
    quotation is never closed. *)
Definition open_quote_command : string :=
  "echo " ++ String Shlex.DQUOTE "hi".

(** No character of [s] satisfies [p]. *)
Fixpoint none_of (p : ascii -> bool) (s : string) : bool :=
  match s with
  | EmptyString => true
  | String c r => (negb (p c) && none_of p r)%bool
  end.

(** Some character of [s] is no white space. *)
Fixpoint has_nonspace (s : string) : bool :=
  match s with
  | EmptyString => false
  | String c r => (negb (is_space c) || has_nonspace r)%bool
  end.

(** The lines [1. s1], [2. s2], ... that the selector prints. *)
Fixpoint enumerated (idx : nat) (serials : list string) : list event :=
  match serials with
  | [] => []
  | s :: r => Print (str_of_nat idx ++ ". " ++ s) :: enumerated (S idx) r
  end.

(** The value of a decimal numeral read after the value [acc]. *)
Fixpoint uint_val (acc : Z) (d : Decimal.uint) : Z :=
  match d with
  | Decimal.Nil => acc
  | Decimal.D0 d => uint_val (10 * acc + 0) d
  | Decimal.D1 d => uint_val (10 * acc + 1) d
  | Decimal.D2 d => uint_val (10 * acc + 2) d
  | Decimal.D3 d => uint_val (10 * acc + 3) d
  | Decimal.D4 d => uint_val (10 * acc + 4) d
  | Decimal.D5 d => uint_val (10 * acc + 5) d
  | Decimal.D6 d => uint_val (10 * acc + 6) d
  | Decimal.D7 d => uint_val (10 * acc + 7) d
  | Decimal.D8 d => uint_val (10 * acc + 8) d
  | Decimal.D9 d => uint_val (10 * acc + 9) d
  end.

End Obs.

(* ================================================================= *)
(** ** Further functions and notions *)

Module More.
Import PyStr World Adb Obs.

(** The filter of the comprehension in [try_screen_mirroring]:
    ["device" in line and not line.startswith("*")]. *)
Definition mirror_line (line : string) : bool :=
  (contains "device" line && negb (startswith "*" line))%bool.

(** The cache location of the bridge executable. *)
Definition adb_cache_path (E : env) : string :=
  pjoin E (pjoin E (APP_ROOT E) "platform-tools") (exe_name E "adb").

(** A computation that never gives answers back: it leaves at most as
    many answers unread as it found. *)
Definition input_bounded {A} (m : M A) : Prop :=
  forall w, (List.length (inputs (snd (m w))) <= List.length (inputs w))%nat.

(** The maximal runs of characters outside [shlex]'s white space, [cur]
    being the run read so far. *)
Fixpoint words_from (cur s : string) : list string :=
  match s with
  | EmptyString => if truthy cur then [cur] else []
  | String c r =>
      if Shlex.is_whitespace c then
        if truthy cur then cur :: words_from EmptyString r
        else words_from EmptyString r
      else words_from (cur ++ String c EmptyString) r
  end.

(** All entries of a list of strings satisfy [p]. *)
Definition all_strings (p : string -> bool) (l : list string) : Prop :=
  forall s, In s l -> p s = true.

(** What every cycle of the loop shows before it reads the selection. *)
Definition menu_events : list event :=
  [Clear; PrintTable "[green]ADB Pairing CLI[/green]" menu_options;
   Ask (nl ++ "[bold]Pilih nomor aksi[/bold]")].

(** The pause after an operation. *)
Definition pause_events : list event :=
  [Print (nl ++ "[dim]Tekan Enter untuk kembali ke menu...[/dim]"); Input].

(** What [loop_body] does after the selection was read: the guarded
    dispatch, then the pause unless the loop is left. *)
Definition after_selection (E : env) (choice : string) : M bool :=
  bind (try_except (dispatch E choice) loop_handles loop_handler)
       (fun stop =>
          if stop then ret true else
          bind (console_print (nl ++ "[dim]Tekan Enter untuk kembali ke menu...[/dim]"))
               (fun _ =>
                  try_except (bind input (fun _ => ret false))
                    (fun e => match e with KeyboardInterrupt => true | _ => false end)
                    (fun _ => bind (console_print (nl ++ "[yellow]Interrupted. Keluar.[/yellow]"))
                                   (fun _ => ret true)))).

(** The notice [ensure_adb] prints when it cannot resolve the bridge. *)
Definition manual_install_notice : event :=
  Print "[yellow]ADB tidak ditemukan. Silakan pasang manual (platform-tools).[/yellow]".

(** A host whose bridge lists one ready emulator. *)
Definition one_device_host : env :=
  host_with (listing (header ++ listing_text [tabbed "emulator-5554" "device"])).

(** The same host with the mirroring tool on the search path. *)
Definition mirror_host : env :=
  {| os_nt := false;
     home := "/home/user";
     which := fun exe =>
                if ((exe =? "adb") || (exe =? "/usr/bin/adb"))%string then Some "/usr/bin/adb"
                else if (exe =? "scrcpy")%string then Some "/usr/bin/scrcpy"
                else None;
     path_exists := fun _ => false;
     path_isfile := fun _ => false;
     spawn := listing (header ++ listing_text [tabbed "emulator-5554" "device"]);
     platform_system := "Linux";
     mkdir := fun _ => None;
     import_error := None;
     fetch := FetchFailed "HTTPSConnectionPool: Max retries exceeded";
     exists_unpacked := fun _ => false;
     which_installed := fun _ => None;
     signal_repr := fun _ => "<Signals.SIGKILL: 9>" |}.

(** The sixteen selections the menu knows. *)
Definition known_choices : list string :=
  ["1"; "2"; "3"; "4"; "5"; "6"; "7"; "8"; "9"; "10"; "11"; "12"; "13"; "14"; "15"; "0"].

(** The line a user typed at a prompt (empty for the empty line). *)
Definition typed_line (a : answer) : string :=
  match a with Typed line => line | _ => EmptyString end.

(** A text without an opening square bracket: the console finds no
    markup in it and prints it as it is. *)
Definition markup_free (s : string) : bool := none_of (Ascii.eqb "[") s.

(** The lines of a listing the selector looks at: those after the
    first. *)
Definition device_lines (out : string) : list string :=
  tl (splitlines (strip out)).

(** The state the bridge prints on a listing line: the token after the
    serial (empty when the line has fewer than two tokens). *)
Definition line_state (line : string) : string :=
  match split_ws line with
  | _ :: state :: _ => state
  | _ => EmptyString
  end.

(** A line of a device in the ready state as the specification means
    it: the state is [device].  It is there to be compared with
    [ready_line], the test the code applies. *)
Definition state_ready_line (line : string) : bool :=
  (line_state line =? "device")%string.

(** The serials of the devices in the ready state, in the order of the
    listing. *)
Definition state_ready_devices (out : string) : list string :=
  map (fun l => hd EmptyString (split_ws l)) (filter state_ready_line (device_lines out)).

(** The line the bridge prints for a device it is not allowed to
    open. *)
Definition no_permissions_line : string :=
  tabbed "????????????"
    "no permissions (user in plugdev group; are your udev rules wrong?); see [http://developer.android.com/tools/device.html]".

(** A network device that went offline; its serial is a host name with
    [device] in it. *)
Definition offline_line : string := tabbed "mydevice.local:5555" "offline".

(** A diagnostic line of the bridge. *)
Definition banner_line : string := "* failed to start daemon; no device list".

(** A bridge that is there for the [pair] call and gone afterwards. *)
Definition pairs_then_vanishes : nat -> list string -> launch :=
  fun _ cmd =>
    match cmd with
    | [_; "pair"; _; _] => Exited 0 "Successfully paired to 192.168.0.5:37099" EmptyString
    | _ => NotFound "[Errno 2] No such file or directory: 'adb'"
    end.

(** A bridge for which [pair] succeeds and the user interrupts the
    follow-up. *)
Definition pairs_then_interrupted : nat -> list string -> launch :=
  fun _ cmd =>
    match cmd with
    | [_; "pair"; _; _] => Exited 0 "Successfully paired to 192.168.0.5:37099" EmptyString
    | _ => Interrupted
    end.

(** The cache location of the mirroring tool. *)
Definition scrcpy_cache_path (E : env) : string :=
  let scrcpy_dir := pjoin E (APP_ROOT E) "scrcpy" in
  if os_nt E then pjoin E (pjoin E scrcpy_dir "scrcpy-win64-v2.7") "scrcpy.exe"
  else pjoin E scrcpy_dir "scrcpy".

(** The computation, started in [w], launches one process and raises
    the missing-bridge error. *)
Definition stops_at {A} (m : M A) (w : world) : Prop :=
  fst (m w) = Raise (FileNotFoundError adb_missing_msg) /\
  launches (snd (m w)) = S (launches w).

(** The cycle of the loop that starts in [w] launched one process,
    printed the missing-bridge report last and ended the session. *)
Definition ends_on_missing_bridge (E : env) (fuel : nat) (w : world) : Prop :=
  launches (snd (loop_body E w)) = S (launches w) /\
  last (trace (snd (loop_body E w))) Clear = tool_missing_report /\
  loop E (S fuel) w = (Ret Returned, snd (loop_body E w)).

End More.

(** Brings the worlds of a goal to the form
    [{| inputs := _; launches := _; trace := trace w ++ events |}]. *)
Ltac world_norm :=
  unfold Adb.console_print;
  unfold Obs.launched, Obs.advance, World.emit, World.ret, World.raise;
  cbn [World.inputs World.launches World.trace fst snd];
  repeat rewrite <- app_assoc; cbn [app Nat.add].

(* ================================================================= *)
(** ** Facts about the string primitives *)

Section StringFacts.
Import PyStr Obs.

Lemma append_nil_r (s : string) : s ++ "" = s.
Proof. induction s; simpl; congruence. Qed.

Lemma append_assoc (a b c : string) : (a ++ b) ++ c = a ++ (b ++ c).
Proof. induction a; simpl; congruence. Qed.

Lemma prefix_iff (p s : string) :
  String.prefix p s = true <-> exists t, s = p ++ t.
Proof.
  revert s; induction p as [|c p IH]; intros s.
  - destruct s; simpl; split; eauto.
  - destruct s as [|d s]; simpl.
    + split; [discriminate | intros [t H]; discriminate].
    + destruct (ascii_dec c d) as [->|Hne].
      * rewrite IH. split; intros [t H]; exists t; congruence.
      * split; [discriminate | intros [t H]; congruence].
Qed.

(** [needle in hay] is the substring relation. *)
Lemma contains_iff (n h : string) :
  contains n h = true <-> exists pre post, h = pre ++ n ++ post.
Proof.
  induction h as [|c h IH]; cbn [contains].
  - rewrite prefix_iff. split.
    + intros [t H]. exists "", t. exact H.
    + intros [pre [post H]]. destruct pre; simpl in H.
      * eauto.
      * discriminate.
  - rewrite orb_true_iff, IH, prefix_iff. split.
    + intros [[t H] | [pre [post H]]].
      * exists "", t. exact H.
      * exists (String c pre), post. simpl. congruence.
    + intros [pre [post H]]. destruct pre as [|d pre]; simpl in H.
      * left. eauto.
      * right. exists pre, post. congruence.
Qed.

Lemma truthy_lstrip (s : string) : truthy (lstrip s) = has_nonspace s.
Proof.
  induction s as [|c s IH]; simpl; [reflexivity|].
  destruct (is_space c); simpl; auto.
Qed.

Lemma truthy_rstrip (s : string) : truthy (rstrip s) = has_nonspace s.
Proof.
  induction s as [|c s IH]; simpl; [reflexivity|].
  destruct (rstrip s); simpl in *; rewrite <- IH.
  - destruct (is_space c); reflexivity.
  - destruct (is_space c); reflexivity.
Qed.

Lemma has_nonspace_lstrip (s : string) : has_nonspace (lstrip s) = has_nonspace s.
Proof.
  induction s as [|c s IH]; simpl; [reflexivity|].
  destruct (is_space c) eqn:Hc; simpl; [exact IH | rewrite Hc; reflexivity].
Qed.

(** [line.strip()] is true exactly for a line with a character other
    than white space. *)
Lemma truthy_strip (s : string) : truthy (strip s) = has_nonspace s.
Proof. unfold strip. rewrite truthy_rstrip. apply has_nonspace_lstrip. Qed.

Lemma split_ws_from_nonempty (cur s : string) :
  (truthy cur || has_nonspace s)%bool = true -> split_ws_from cur s <> [].
Proof.
  revert cur; induction s as [|c s IH]; intros cur H; simpl in *.
  - rewrite orb_false_r in H. rewrite H. discriminate.
  - destruct (is_space c); simpl in *.
    + destruct (truthy cur); [discriminate|]. apply IH. exact H.
    + apply IH. destruct cur; reflexivity.
Qed.

Lemma split_ws_nonempty (s : string) :
  truthy (strip s) = true -> split_ws s <> [].
Proof.
  rewrite truthy_strip. intros H. apply split_ws_from_nonempty.
  simpl. exact H.
Qed.

(** The comprehension of the selector never raises: it is the map of
    the first token over the ready lines. *)
Lemma ready_serials_filter (lines : list string) :
  Adb.ready_serials lines =
  Some (map (fun l => hd "" (split_ws l)) (filter Adb.ready_line lines)).
Proof.
  induction lines as [|l lines IH]; simpl; [reflexivity|].
  destruct (Adb.ready_line l) eqn:Hr; [|exact IH].
  unfold Adb.ready_line in Hr. apply andb_true_iff in Hr as [Hs _].
  pose proof (split_ws_nonempty l Hs) as Hne.
  destruct (split_ws l) as [|t ts] eqn:Hsp; [congruence|].
  rewrite IH. simpl. rewrite Hsp. reflexivity.
Qed.

(** *** Lines *)

Lemma splitlines_from_header (cur h rest : string) :
  none_of is_linebreak h = true ->
  splitlines_from cur (h ++ String LF rest) = (cur ++ h) :: splitlines rest.
Proof.
  revert cur; induction h as [|c h IH]; intros cur Hh.
  - simpl. rewrite append_nil_r. destruct rest; reflexivity.
  - simpl in Hh. apply andb_true_iff in Hh as [Hc Hh].
    apply negb_true_iff in Hc. cbn [append splitlines_from]. rewrite Hc.
    rewrite IH by exact Hh. rewrite append_assoc. reflexivity.
Qed.

(** A first line without line boundary, ended by a line feed, is the
    first element of [splitlines]; the rest is split on its own. *)
Lemma splitlines_header (h rest : string) :
  none_of is_linebreak h = true ->
  splitlines (h ++ String LF rest) = h :: splitlines rest.
Proof. intros H. unfold splitlines at 1. now rewrite splitlines_from_header. Qed.

(** *** Substrings across a separator *)

Lemma prefix_app_sep (n a b : string) (c : ascii) :
  none_of (Ascii.eqb c) n = true ->
  String.prefix n (a ++ String c b) = String.prefix n a.
Proof.
  revert a; induction n as [|x n IH]; intros a Hn.
  - destruct a; reflexivity.
  - simpl in Hn. apply andb_true_iff in Hn as [Hx Hn].
    apply negb_true_iff, Ascii.eqb_neq in Hx.
    destruct a as [|y a]; simpl.
    + destruct (ascii_dec x c); congruence.
    + destruct (ascii_dec x y); auto.
Qed.

Lemma contains_app_sep (n a b : string) (c : ascii) :
  none_of (Ascii.eqb c) n = true -> n <> "" ->
  contains n (a ++ String c b) = (contains n a || contains n b)%bool.
Proof.
  intros Hn Hne. induction a as [|y a IH].
  - pose proof (prefix_app_sep n "" b c Hn) as Hp.
    cbn [append] in Hp. cbn [append contains]. rewrite Hp.
    destruct n; [congruence | reflexivity].
  - change (String y a ++ String c b) with (String y (a ++ String c b)).
    cbn [contains]. rewrite IH.
    change (String y (a ++ String c b)) with (String y a ++ String c b).
    rewrite prefix_app_sep by exact Hn. now rewrite orb_assoc.
Qed.

(** *** Trimming does not change what a word without white space finds *)

Lemma rstrip_cons (c : ascii) (r : string) :
  is_space c = false -> rstrip (String c r) = String c (rstrip r).
Proof. intros Hc. cbn [rstrip]. rewrite Hc. destruct (rstrip r); reflexivity. Qed.

Lemma prefix_space_head (n : string) (c : ascii) (r : string) :
  none_of is_space n = true -> n <> "" -> is_space c = true ->
  String.prefix n (String c r) = false.
Proof.
  intros Hn Hne Hc. destruct n as [|x n]; [congruence|].
  cbn [none_of] in Hn. apply andb_true_iff in Hn as [Hx _].
  apply negb_true_iff in Hx. cbn [String.prefix].
  destruct (ascii_dec x c) as [->|]; [congruence | reflexivity].
Qed.

Lemma prefix_rstrip (n s : string) :
  none_of is_space n = true -> String.prefix n (rstrip s) = String.prefix n s.
Proof.
  revert n; induction s as [|c r IH]; intros n Hn; [reflexivity|].
  destruct n as [|x n]; [destruct (rstrip (String c r)); reflexivity|].
  cbn [none_of] in Hn. apply andb_true_iff in Hn as [Hx Hn].
  apply negb_true_iff in Hx.
  destruct (ascii_dec x c) as [<-|Hne].
  - rewrite (rstrip_cons x r Hx). cbn [String.prefix].
    destruct (ascii_dec x x); [apply IH, Hn | congruence].
  - cbn [rstrip String.prefix].
    destruct (ascii_dec x c); [congruence|].
    destruct (rstrip r); [destruct (is_space c)|]; cbn [String.prefix];
      try reflexivity; destruct (ascii_dec x c); congruence.
Qed.

Lemma contains_lstrip (n s : string) :
  none_of is_space n = true -> n <> "" -> contains n (lstrip s) = contains n s.
Proof.
  intros Hn Hne. induction s as [|c r IH]; [reflexivity|].
  cbn [lstrip]. destruct (is_space c) eqn:Hc; [|reflexivity].
  rewrite IH. cbn [contains]. now rewrite (prefix_space_head n c r Hn Hne Hc).
Qed.

Lemma contains_rstrip (n s : string) :
  none_of is_space n = true -> n <> "" -> contains n (rstrip s) = contains n s.
Proof.
  intros Hn Hne. induction s as [|c r IH]; [reflexivity|].
  pose proof (prefix_rstrip n (String c r) Hn) as Hp.
  cbn [contains]. rewrite <- IH, <- Hp.
  destruct (is_space c) eqn:Hc.
  - cbn [rstrip] in *. rewrite Hc in *. destruct (rstrip r) as [|d r'].
    + cbn [contains]. destruct n; [congruence | reflexivity].
    + reflexivity.
  - rewrite (rstrip_cons c r Hc). reflexivity.
Qed.

(** [n in s.strip()] is [n in s] for a non-empty [n] without white
    space. *)
Lemma contains_strip (n s : string) :
  none_of is_space n = true -> n <> "" -> contains n (strip s) = contains n s.
Proof.
  intros Hn Hne. unfold strip.
  now rewrite contains_rstrip, contains_lstrip.
Qed.

(** *** Splitting at a character *)

Lemma split_on_from_hd (sep : ascii) (cur s : string) :
  exists host rest,
    split_on_from sep cur s = (cur ++ host) :: rest /\
    none_of (Ascii.eqb sep) host = true /\
    (s = host \/ exists tail, s = host ++ String sep tail).
Proof.
  revert cur; induction s as [|c s IH]; intros cur.
  - exists "", []. simpl. rewrite append_nil_r. auto.
  - simpl. destruct (Ascii.eqb c sep) eqn:Hc.
    + apply Ascii.eqb_eq in Hc. subst c.
      exists "", (split_on_from sep "" s). simpl. rewrite append_nil_r.
      repeat split. right. exists s. reflexivity.
    + destruct (IH (cur ++ String c "")) as (host & rest & H1 & H2 & H3).
      exists (String c host), rest. rewrite H1, append_assoc. simpl.
      rewrite Ascii.eqb_sym, Hc, H2. repeat split.
      destruct H3 as [-> | [tail ->]]; [left | right; exists tail]; reflexivity.
Qed.

(** [s.split(sep)[0]] is the part of [s] before its first [sep] (all
    of [s] when it has none). *)
Lemma split_on_first (sep : ascii) (s : string) :
  exists host,
    index (split_on sep s) 0 = Some host /\
    none_of (Ascii.eqb sep) host = true /\
    (s = host \/ exists tail, s = host ++ String sep tail).
Proof.
  destruct (split_on_from_hd sep "" s) as (host & rest & H1 & H2 & H3).
  exists host. unfold split_on. rewrite H1. simpl. unfold index. simpl.
  repeat split; auto.
Qed.

(** *** Indexing *)

Lemma index_front {A} (l : list A) (i : nat) (x : A) :
  nth_error l i = Some x -> index l (Z.of_nat i) = Some x.
Proof.
  intros H. unfold index.
  assert (i < List.length l)%nat by (apply nth_error_Some; congruence).
  replace (0 <=? Z.of_nat i) with true by (symmetry; apply Z.leb_le; lia).
  replace (Z.of_nat i <? Z.of_nat (List.length l)) with true
    by (symmetry; apply Z.ltb_lt; lia).
  simpl. now rewrite Nat2Z.id.
Qed.

Lemma index_back {A} (l : list A) (j : nat) :
  (j < List.length l)%nat ->
  index l (- Z.of_nat j - 1) = nth_error l (List.length l - j - 1).
Proof.
  intros H. unfold index.
  replace (0 <=? - Z.of_nat j - 1) with false by (symmetry; apply Z.leb_gt; lia).
  replace (- Z.of_nat (List.length l) <=? - Z.of_nat j - 1) with true
    by (symmetry; apply Z.leb_le; lia).
  replace (- Z.of_nat j - 1 <? 0) with true by (symmetry; apply Z.ltb_lt; lia).
  simpl. f_equal. lia.
Qed.

Lemma index_out {A} (l : list A) (i : Z) :
  i >= Z.of_nat (List.length l) \/ i < - Z.of_nat (List.length l) ->
  index l i = None.
Proof.
  intros H. unfold index.
  destruct (0 <=? i) eqn:H0; destruct (i <? Z.of_nat (List.length l)) eqn:H1;
    destruct (- Z.of_nat (List.length l) <=? i) eqn:H2; destruct (i <? 0) eqn:H3;
    simpl; try reflexivity;
    rewrite ?Z.leb_le, ?Z.ltb_lt, ?Z.leb_gt, ?Z.ltb_ge in *; lia.
Qed.

End StringFacts.

(* ================================================================= *)
(** ** [int(str(n))] *)

Section IntFacts.
Import PyStr Obs.

Lemma lstrip_id (s : string) : none_of is_space s = true -> lstrip s = s.
Proof.
  destruct s as [|c s]; simpl; [reflexivity|].
  intros H. apply andb_true_iff in H as [Hc _].
  apply negb_true_iff in Hc. now rewrite Hc.
Qed.

Lemma rstrip_id (s : string) : none_of is_space s = true -> rstrip s = s.
Proof.
  induction s as [|c s IH]; simpl; [reflexivity|].
  intros H. apply andb_true_iff in H as [Hc Hs].
  apply negb_true_iff in Hc. rewrite (IH Hs), Hc. destruct s; reflexivity.
Qed.

Lemma strip_id (s : string) : none_of is_space s = true -> strip s = s.
Proof. intros H. unfold strip. rewrite (lstrip_id s H). now apply rstrip_id. Qed.

Lemma lstrip_by_id (p : ascii -> bool) (s : string) :
  none_of p s = true -> lstrip_by p s = s.
Proof.
  destruct s as [|c s]; simpl; [reflexivity|].
  intros H. apply andb_true_iff in H as [Hc _].
  apply negb_true_iff in Hc. now rewrite Hc.
Qed.

Lemma rstrip_by_id (p : ascii -> bool) (s : string) :
  none_of p s = true -> rstrip_by p s = s.
Proof.
  induction s as [|c s IH]; simpl; [reflexivity|].
  intros H. apply andb_true_iff in H as [Hc Hs].
  apply negb_true_iff in Hc. rewrite (IH Hs), Hc. destruct s; reflexivity.
Qed.

Lemma digits_no_space (d : Decimal.uint) :
  none_of is_space (NilEmpty.string_of_uint d) = true.
Proof. induction d; simpl; auto. Qed.

Lemma digits_no_int_space (d : Decimal.uint) :
  none_of is_int_space (NilEmpty.string_of_uint d) = true.
Proof. induction d; simpl; auto. Qed.

(** A non-empty line without white space is the value the prompt
    returns for it. *)
Lemma prompt_value_plain (line : string) (default : option string) :
  truthy line = true -> none_of is_space line = true ->
  Adb.prompt_value line default = line.
Proof.
  intros Ht Hn. unfold Adb.prompt_value. rewrite Ht. now apply strip_id.
Qed.

Lemma digits_from_uint (pd : bool) (acc : Z) (d : Decimal.uint) :
  d <> Decimal.Nil \/ pd = true ->
  digits_from pd acc (NilEmpty.string_of_uint d) = Some (uint_val acc d).
Proof.
  revert pd acc; induction d; intros pd acc H;
    try (cbn [NilEmpty.string_of_uint digits_from uint_val];
         match goal with
         | |- context [digit_val ?c] =>
             change (digit_val c) with (Some (Z.of_N (ord c) - 48))
         end;
         cbn; apply IHd; right; reflexivity).
  destruct H as [H | ->]; [congruence | reflexivity].
Qed.

Lemma uint_val_of_uint_acc (d : Decimal.uint) (acc : nat) :
  uint_val (Z.of_nat acc) d = Z.of_nat (Nat.of_uint_acc d acc).
Proof.
  revert acc; induction d; intros acc; cbn [uint_val Nat.of_uint_acc];
    [reflexivity | ..];
    rewrite <- IHd; f_equal; rewrite Nat.tail_mul_spec; lia.
Qed.

Lemma to_uint_nonnil (n : nat) : Nat.to_uint n <> Decimal.Nil.
Proof.
  rewrite <- (DecimalNat.Unsigned.of_to n) at 1.
  rewrite DecimalNat.Unsigned.to_of. apply DecimalFacts.unorm_nonnil.
Qed.

Lemma digits_from_str_of_nat (n : nat) :
  digits_from false 0 (str_of_nat n) = Some (Z.of_nat n).
Proof.
  unfold str_of_nat. rewrite digits_from_uint by (left; apply to_uint_nonnil).
  change 0 with (Z.of_nat 0). rewrite uint_val_of_uint_acc.
  change (Nat.of_uint_acc (Nat.to_uint n) 0) with (Nat.of_uint (Nat.to_uint n)).
  now rewrite DecimalNat.Unsigned.of_to.
Qed.

(** [int(str(n)) == n] *)
Lemma int_of_str_of_nat (n : nat) : int_of_str (str_of_nat n) = Some (Z.of_nat n).
Proof.
  unfold int_of_str.
  rewrite lstrip_by_id, rstrip_by_id by apply digits_no_int_space.
  pose proof (digits_from_str_of_nat n) as H.
  unfold str_of_nat in *. destruct (Nat.to_uint n); exact H.
Qed.

(** [int("-" + str(n)) == -n] *)
Lemma int_of_str_minus (n : nat) :
  int_of_str ("-" ++ str_of_nat n) = Some (- Z.of_nat n).
Proof.
  assert (H : none_of is_int_space ("-" ++ str_of_nat n) = true).
  { cbn [append none_of]. unfold str_of_nat. now rewrite digits_no_int_space. }
  unfold int_of_str. rewrite lstrip_by_id, rstrip_by_id by exact H.
  cbn [append]. now rewrite digits_from_str_of_nat.
Qed.

Lemma str_of_nat_truthy (n : nat) : truthy (str_of_nat n) = true.
Proof.
  unfold str_of_nat. pose proof (to_uint_nonnil n) as H.
  destruct (Nat.to_uint n); try reflexivity. congruence.
Qed.

Lemma answer_str_of_nat (n : nat) (d : string) :
  answer_value (World.Typed (str_of_nat n)) d = str_of_nat n.
Proof.
  cbn [answer_value]. apply prompt_value_plain; [apply str_of_nat_truthy|].
  apply digits_no_space.
Qed.

Lemma answer_minus_str_of_nat (n : nat) (d : string) :
  answer_value (World.Typed ("-" ++ str_of_nat n)) d = "-" ++ str_of_nat n.
Proof.
  cbn [answer_value]. apply prompt_value_plain; [reflexivity|].
  cbn [append none_of]. unfold str_of_nat. now rewrite digits_no_space.
Qed.

End IntFacts.

(* ================================================================= *)
(** ** The bridge invoker and the device selector *)

Section Selector.
Import PyStr World Adb Obs.
Variable E : env.

Lemma world_eta (w : world) :
  {| inputs := inputs w; launches := launches w; trace := trace w |} = w.
Proof. destruct w; reflexivity. Qed.

(** [run_adb] launches the bridge once and turns what happened into a
    result or an exception. *)
Lemma run_adb_eq (args : list string) (w : world) :
  run_adb E args w =
  (match spawn E (launches w) (which_adb E :: args) with
   | Exited rc out err => Ret (rc, strip out, strip err)
   | NotFound _ => Raise (FileNotFoundError adb_missing_msg)
   | LaunchFailed msg => Ret (1, EmptyString, msg)
   | Interrupted => Raise KeyboardInterrupt
   end, launched E w args).
Proof.
  unfold run_adb, bind, run_process, launched, advance.
  destruct (spawn E (launches w) (which_adb E :: args)); reflexivity.
Qed.

Lemma print_enumerated_eq (idx : nat) (l : list string) (w : world) :
  print_enumerated idx l w = (Ret tt, advance w (inputs w) 0 (enumerated idx l)).
Proof.
  revert idx w; induction l as [|s l IH]; intros idx w.
  - unfold advance. simpl. unfold ret. rewrite app_nil_r, world_eta. reflexivity.
  - cbn [print_enumerated enumerated]. unfold bind, console_print, emit.
    rewrite IH. unfold advance. cbn [inputs launches trace].
    rewrite <- app_assoc. reflexivity.
Qed.

Lemma pick_listing_failed (w : world) (rc : Z) (out err : string) :
  spawn E (launches w) [which_adb E; "devices"] = Exited rc out err ->
  rc <> 0 ->
  _pick_serial_interactive E w =
  (Ret None,
   advance w (inputs w) 1
     [Spawn [which_adb E; "devices"] true;
      Print ("[red]Error: " ++ or_else (strip err) (strip out) ++ "[/red]")]).
Proof.
  intros Hs Hrc. unfold _pick_serial_interactive, bind. rewrite run_adb_eq, Hs.
  apply Z.eqb_neq in Hrc. rewrite Hrc. cbn. world_norm. reflexivity.
Qed.

(** The selector up to the point where the number of ready devices
    decides. *)
Lemma pick_listing_ok (w : world) (out err : string) :
  spawn E (launches w) [which_adb E; "devices"] = Exited 0 out err ->
  _pick_serial_interactive E w =
  match ready_devices out with
  | [] => (Ret None,
           advance w (inputs w) 1
             [Spawn [which_adb E; "devices"] true;
              Print "[red]Tidak ada device tersedia.[/red]"])
  | [s] => (Ret (Some s), launched E w ["devices"])
  | l =>
      (print_enumerated 1 l ;;
       choice <- Prompt_ask "Pilih device" (Some "1") ;;
       try_except
         (k <- lift (int_of_str choice) (ValueError "invalid literal for int()") ;;
          s <- lift (index l (k - 1)) IndexError ;;
          ret (Some s))
         is_Exception
         (fun _ => s <- lift (index l 0) IndexError ;; ret (Some s)))%adb
        (launched E w ["devices"])
  end.
Proof.
  intros Hs. unfold _pick_serial_interactive. unfold bind at 1.
  rewrite run_adb_eq, Hs. cbn [Z.eqb negb]. unfold bind at 1.
  rewrite ready_serials_filter. fold (ready_devices out).
  cbn [lift]. unfold ret at 1.
  destruct (ready_devices out) as [|s [|s' l]]; try reflexivity.
  cbn. world_norm. reflexivity.
Qed.

(** With several ready devices the selector lists them, asks once and
    resolves the answer. *)
Lemma pick_prompted (w : world) (out err : string) (a : answer) (rest : list answer)
      (s1 s2 : string) (more : list string) :
  spawn E (launches w) [which_adb E; "devices"] = Exited 0 out err ->
  ready_devices out = s1 :: s2 :: more ->
  inputs w = a :: rest ->
  a <> CtrlC ->
  _pick_serial_interactive E w =
  (Ret (resolve (s1 :: s2 :: more) (answer_value a "1")),
   advance w rest 1
     (Spawn [which_adb E; "devices"] true
      :: enumerated 1 (s1 :: s2 :: more) ++ [Ask "Pilih device"])).
Proof.
  intros Hs Hl Hin Ha. rewrite (pick_listing_ok w out err Hs), Hl.
  set (l := s1 :: s2 :: more).
  unfold bind at 1. rewrite print_enumerated_eq.
  unfold bind at 1. unfold Prompt_ask, bind, emit, next_answer.
  world_norm. rewrite Hin. unfold resolve, try_except, lift.
  assert (H0 : index l 0 = Some s1) by reflexivity.
  destruct a as [v| |]; [| |congruence]; cbn [answer_value];
    (destruct (int_of_str _) as [k|]; cbn;
     [destruct (index l (k - 1)) as [x|]; cbn | ]; rewrite ?H0; reflexivity).
Qed.

End Selector.

(* ================================================================= *)
(** ** The device selector: which lines count, and which serial is returned *)

Section SelectorClaims.
Import PyStr World Adb Obs More.

Lemma has_nonspace_app (a b : string) :
  has_nonspace (a ++ b) = (has_nonspace a || has_nonspace b)%bool.
Proof. induction a as [|c a IH]; simpl; [reflexivity|]. now rewrite IH, orb_assoc. Qed.

Lemma nth_error_last {A} (l : list A) (d : A) :
  l <> [] -> nth_error l (List.length l - 1) = Some (last l d).
Proof.
  induction l as [|x l IH]; intros H; [congruence|].
  destruct l as [|y l]; [reflexivity|].
  replace (List.length (x :: y :: l) - 1)%nat with (S (List.length (y :: l) - 1))
    by (cbn [List.length]; lia).
  cbn [nth_error]. rewrite IH by discriminate. reflexivity.
Qed.

Lemma contains_has_nonspace (n line : string) :
  has_nonspace n = true -> contains n line = true -> has_nonspace line = true.
Proof.
  intros Hn H. apply contains_iff in H as (pre & post & ->).
  rewrite !has_nonspace_app, Hn. now rewrite orb_true_r.
Qed.

Lemma contains_app_l (n a b : string) :
  contains n a = true -> contains n (a ++ b) = true.
Proof.
  intros H. apply contains_iff in H as (pre & post & ->).
  apply contains_iff. exists pre, (post ++ b). now rewrite !append_assoc.
Qed.

(** The non-blank test of the filter is implied by the substring
    test. *)
Lemma ready_line_contains (line : string) : ready_line line = contains "device" line.
Proof.
  unfold ready_line. rewrite truthy_strip.
  destruct (contains "device" line) eqn:Hc; [|apply andb_false_r].
  now rewrite (contains_has_nonspace "device" line eq_refl Hc).
Qed.

(** C2.  The filter of the selector accepts a line after the first
    exactly when [device] occurs in it as a substring, anywhere: it
    does not look at the state and does not look for a leading [*].
    So every line whose serial contains [device] is accepted whatever
    its state, and so is every line that begins with [*] and contains
    [device], which the filter of [try_screen_mirroring] rejects.
    Run on listings with an offline device, a device without
    permissions and a diagnostic line, the selector returns the first
    token of that line as the serial of a ready device. *)
Theorem selector_filter_ignores_state :
  (forall h rest,
      none_of is_linebreak h = true ->
      tl (splitlines (h ++ String LF rest)) = splitlines rest) /\
  (forall line, ready_line line = contains "device" line) /\
  (forall serial c state,
      contains "device" serial = true ->
      ready_line (serial ++ String c state) = true) /\
  (forall line,
      startswith "*" line = true ->
      contains "device" line = true ->
      ready_line line = true /\ mirror_line line = false) /\
  (line_state offline_line = "offline" /\
   line_state no_permissions_line = "no" /\
   startswith "*" banner_line = true) /\
  (forall line,
      In line [offline_line; no_permissions_line; banner_line] ->
      let E := host_with (listing (header ++ listing_text [line])) in
      state_ready_devices (header ++ listing_text [line]) = [] /\
      _pick_serial_interactive E (session [])
      = (Ret (Some (hd "" (split_ws line))), launched E (session []) ["devices"])).
Proof.
  split; [|split; [|split; [|split; [|split]]]].
  - intros h rest Hh. now rewrite splitlines_header.
  - exact ready_line_contains.
  - intros serial c state H. rewrite ready_line_contains. now apply contains_app_l.
  - intros line Hstar Hc. unfold mirror_line.
    now rewrite ready_line_contains, Hc, Hstar.
  - repeat split.
  - intros line Hin. cbn [In] in Hin.
    destruct Hin as [<- | [<- | [<- | []]]]; vm_compute; split; reflexivity.
Qed.

Lemma selector_filter_ignores_state_witness :
  ready_line ("mydevice.local:5555" ++ String TAB "unauthorized") = true /\
  (ready_line banner_line = true /\ mirror_line banner_line = false) /\
  _pick_serial_interactive (host_with (listing (header ++ listing_text [offline_line])))
    (session [])
  = (Ret (Some (hd "" (split_ws offline_line))),
     launched (host_with (listing (header ++ listing_text [offline_line])))
       (session []) ["devices"]).
Proof.
  destruct selector_filter_ignores_state as (_ & _ & H3 & H4 & _ & H6).
  split; [apply H3; reflexivity|].
  split; [apply H4; reflexivity|].
  apply (H6 offline_line). cbn [In]. auto.
Defined.

End SelectorClaims.

Section SelectorChoice.
Import PyStr World Adb Obs.
Variable E : env.

(** Whatever the user does at the prompt, the selector has listed the
    serials from 1 and asked once by then. *)
Lemma pick_prompt_trace (w : world) (out err : string) :
  spawn E (launches w) [which_adb E; "devices"] = Exited 0 out err ->
  (2 <= List.length (ready_devices out))%nat ->
  exists r w',
    _pick_serial_interactive E w = (r, w') /\
    trace w' = (trace w ++ Spawn [which_adb E; "devices"] true
                 :: enumerated 1 (ready_devices out) ++ [Ask "Pilih device"])%list.
Proof.
  intros Hs Hn.
  destruct (ready_devices out) as [|s1 [|s2 more]] eqn:Hl;
    try (cbn [List.length] in Hn; lia).
  destruct (inputs w) as [|a rest] eqn:Hin.
  - rewrite (pick_listing_ok E w out err Hs), Hl.
    unfold bind at 1. rewrite print_enumerated_eq.
    unfold bind at 1. unfold Prompt_ask, bind, emit, next_answer.
    world_norm. rewrite Hin. eexists _, _. split; [reflexivity|].
    cbn [trace]. reflexivity.
  - destruct a as [v| |].
    + eexists _, _. split.
      * eapply pick_prompted; eauto. discriminate.
      * reflexivity.
    + eexists _, _. split.
      * eapply pick_prompted; eauto. discriminate.
      * reflexivity.
    + rewrite (pick_listing_ok E w out err Hs), Hl.
      unfold bind at 1. rewrite print_enumerated_eq.
      unfold bind at 1. unfold Prompt_ask, bind, emit, next_answer.
      world_norm. rewrite Hin. eexists _, _. split; [reflexivity|].
      cbn [trace]. reflexivity.
Qed.

(** After a successful listing the selector goes by the number of
    lines its filter accepted: with one it returns that serial without
    asking (no input read, no event but the launch); with none it
    prints the absence message and returns nothing; with several it
    prints them numbered from 1, asks once, and the answer [k] with
    [1 <= k <= n] gives the [k]-th. *)
Lemma pick_by_filtered_count (w : world) (out err : string) :
  spawn E (launches w) [which_adb E; "devices"] = Exited 0 out err ->
  (forall s, ready_devices out = [s] ->
     _pick_serial_interactive E w = (Ret (Some s), launched E w ["devices"])) /\
  (ready_devices out = [] ->
     _pick_serial_interactive E w =
     (Ret None,
      advance w (inputs w) 1
        [Spawn [which_adb E; "devices"] true;
         Print "[red]Tidak ada device tersedia.[/red]"])) /\
  ((2 <= List.length (ready_devices out))%nat ->
     (exists r w',
        _pick_serial_interactive E w = (r, w') /\
        trace w' = (trace w ++ Spawn [which_adb E; "devices"] true
                     :: enumerated 1 (ready_devices out) ++ [Ask "Pilih device"])%list) /\
     (forall k rest,
        (1 <= k <= List.length (ready_devices out))%nat ->
        inputs w = Typed (str_of_nat k) :: rest ->
        exists s,
          nth_error (ready_devices out) (k - 1) = Some s /\
          _pick_serial_interactive E w =
          (Ret (Some s),
           advance w rest 1
             (Spawn [which_adb E; "devices"] true
              :: enumerated 1 (ready_devices out) ++ [Ask "Pilih device"])))).
Proof.
  intros Hs. split; [|split].
  - intros s Hl. now rewrite (pick_listing_ok E w out err Hs), Hl.
  - intros Hl. now rewrite (pick_listing_ok E w out err Hs), Hl.
  - intros Hn. split; [now apply pick_prompt_trace with (err := err)|].
    intros k rest Hk Hin.
    destruct (nth_error (ready_devices out) (k - 1)) as [s|] eqn:Hnth.
    2:{ apply nth_error_None in Hnth. lia. }
    exists s. split; [reflexivity|].
    destruct (ready_devices out) as [|s1 [|s2 more]] eqn:Hl;
      try (cbn [List.length] in Hn; lia).
    rewrite (pick_prompted E w out err _ rest s1 s2 more Hs Hl Hin) by discriminate.
    f_equal. f_equal. unfold resolve.
    rewrite answer_str_of_nat, int_of_str_of_nat.
    replace (Z.of_nat k - 1) with (Z.of_nat (k - 1)) by lia.
    now rewrite (index_front _ _ _ Hnth).
Qed.

(** C7.  With several serials listed, an answer that [int] rejects, or
    whose index [int(answer) - 1] lies outside the list on both sides,
    makes the selector return the first listed serial: it has launched
    the listing, printed the numbered list and asked once, it has read
    that one answer, and nothing is raised.  (The answer is a line of
    code points below 256.  What [int_of_str] rejects, [int] rejects;
    a numeral [int_of_str] accepts is read by [int] as the same number,
    or refused for its length, and a refusal leads to the first serial
    as well.) *)
Theorem selector_defaults_to_first (w : world) (out err : string)
        (a : answer) (rest : list answer) :
  spawn E (launches w) [which_adb E; "devices"] = Exited 0 out err ->
  (2 <= List.length (ready_devices out))%nat ->
  inputs w = a :: rest ->
  a <> CtrlC ->
  (int_of_str (answer_value a "1") = None \/
   exists k, int_of_str (answer_value a "1") = Some k /\
             (k - 1 >= Z.of_nat (List.length (ready_devices out)) \/
              k - 1 < - Z.of_nat (List.length (ready_devices out)))) ->
  exists first,
    nth_error (ready_devices out) 0 = Some first /\
    _pick_serial_interactive E w =
    (Ret (Some first),
     advance w rest 1
       (Spawn [which_adb E; "devices"] true
        :: enumerated 1 (ready_devices out) ++ [Ask "Pilih device"])).
Proof.
  intros Hs Hn Hin Ha Hbad.
  destruct (ready_devices out) as [|s1 [|s2 more]] eqn:Hl;
    try (cbn [List.length] in Hn; lia).
  exists s1. split; [reflexivity|].
  rewrite (pick_prompted E w out err a rest s1 s2 more Hs Hl Hin Ha).
  f_equal. f_equal. unfold resolve.
  destruct Hbad as [-> | (k & -> & Hk)]; [reflexivity|].
  now rewrite (index_out _ _ Hk).
Qed.

(** C10.  With [n >= 2] ready devices the answer [-k] with [k < n]
    gives the serial at position [n - k] of the numbered list (index
    [n - k - 1] from 0), and the answer [0] gives the last listed
    serial: the index [int(choice) - 1] is negative and counts from
    the end. *)
Theorem selector_negative_index (w : world) (out err : string) (rest : list answer)
        (k : nat) (choice : string) :
  spawn E (launches w) [which_adb E; "devices"] = Exited 0 out err ->
  (2 <= List.length (ready_devices out))%nat ->
  (k < List.length (ready_devices out))%nat ->
  choice = "-" ++ str_of_nat k \/ (k = 0%nat /\ choice = "0") ->
  inputs w = Typed choice :: rest ->
  exists s w',
    nth_error (ready_devices out) (List.length (ready_devices out) - k - 1) = Some s /\
    (k = 0%nat -> s = last (ready_devices out) "") /\
    _pick_serial_interactive E w = (Ret (Some s), w').
Proof.
  intros Hs Hn Hk Hch Hin.
  destruct (ready_devices out) as [|s1 [|s2 more]] eqn:Hl;
    try (cbn [List.length] in Hn; lia).
  set (l := s1 :: s2 :: more) in *.
  destruct (nth_error l (List.length l - k - 1)) as [s|] eqn:Hnth.
  2:{ apply nth_error_None in Hnth. lia. }
  assert (Hint : int_of_str choice = Some (- Z.of_nat k)).
  { destruct Hch as [-> | [-> ->]]; [apply int_of_str_minus | reflexivity]. }
  assert (Hval : answer_value (Typed choice) "1" = choice).
  { destruct Hch as [-> | [-> ->]]; [apply answer_minus_str_of_nat | reflexivity]. }
  exists s. eexists. split; [reflexivity|]. split.
  - intros ->. rewrite Nat.sub_0_r, (nth_error_last l "") in Hnth by discriminate.
    congruence.
  - rewrite (pick_prompted E w out err _ rest s1 s2 more Hs Hl Hin) by discriminate.
    f_equal. f_equal. unfold resolve.
    rewrite Hval, Hint. fold l. rewrite (index_back l k Hk), Hnth.
    reflexivity.
Qed.

End SelectorChoice.

Section SelectorWitnesses.
Import PyStr World Adb Obs More.

(** C4.  The selector counts the lines its filter accepted, not the
    devices in the ready state.  Where the two agree on every line of
    the listing, it behaves as specified: the sole ready serial is
    returned without asking, no ready device gives the absence message
    and nothing, several are printed numbered from 1 and asked for.
    Where they differ it does not: with one ready device and one
    offline device whose serial contains [device] it asks, and the
    answer [2] returns the offline device; with that offline device
    alone it returns its serial instead of reporting that there is
    none. *)
Theorem selector_counts_filtered_lines :
  (forall (E : env) (w : world) (out err : string),
      spawn E (launches w) [which_adb E; "devices"] = Exited 0 out err ->
      (forall line, In line (device_lines out) -> ready_line line = state_ready_line line) ->
      (forall s, state_ready_devices out = [s] ->
         _pick_serial_interactive E w = (Ret (Some s), launched E w ["devices"])) /\
      (state_ready_devices out = [] ->
         _pick_serial_interactive E w =
         (Ret None,
          advance w (inputs w) 1
            [Spawn [which_adb E; "devices"] true;
             Print "[red]Tidak ada device tersedia.[/red]"])) /\
      ((2 <= List.length (state_ready_devices out))%nat ->
         (exists r w',
            _pick_serial_interactive E w = (r, w') /\
            trace w' = (trace w ++ Spawn [which_adb E; "devices"] true
                         :: enumerated 1 (state_ready_devices out)
                         ++ [Ask "Pilih device"])%list) /\
         (forall k rest,
            (1 <= k <= List.length (state_ready_devices out))%nat ->
            inputs w = Typed (str_of_nat k) :: rest ->
            exists s,
              nth_error (state_ready_devices out) (k - 1) = Some s /\
              _pick_serial_interactive E w =
              (Ret (Some s),
               advance w rest 1
                 (Spawn [which_adb E; "devices"] true
                  :: enumerated 1 (state_ready_devices out) ++ [Ask "Pilih device"]))))) /\
  (let out := header ++ listing_text [tabbed "emulator-5554" "device"; offline_line] in
   let E := host_with (listing out) in
   state_ready_devices out = ["emulator-5554"] /\
   _pick_serial_interactive E (session [Typed "2"])
   = (Ret (Some "mydevice.local:5555"),
      advance (session [Typed "2"]) [] 1
        [Spawn ["/usr/bin/adb"; "devices"] true;
         Print "1. emulator-5554"; Print "2. mydevice.local:5555";
         Ask "Pilih device"])) /\
  (let out := header ++ listing_text [offline_line] in
   let E := host_with (listing out) in
   state_ready_devices out = [] /\
   _pick_serial_interactive E (session [])
   = (Ret (Some "mydevice.local:5555"), launched E (session []) ["devices"])).
Proof.
  split; [|split; [vm_compute; split; reflexivity | vm_compute; split; reflexivity]].
  intros E w out err Hs Hagree.
  assert (Heq : state_ready_devices out = ready_devices out).
  { unfold state_ready_devices, ready_devices, device_lines in *. f_equal.
    apply filter_ext_in. intros line Hl. symmetry. now apply Hagree. }
  rewrite Heq. exact (pick_by_filtered_count E w out err Hs).
Qed.

Lemma selector_counts_filtered_lines_witness :
  let one := header ++ listing_text ["emulator-5554    device product:sdk"] in
  let two := header ++ listing_text [tabbed "emulator-5554" "device";
                                     tabbed "R58M12ABCDE" "device"] in
  _pick_serial_interactive (host_with (listing one)) (session [])
  = (Ret (Some "emulator-5554"), launched (host_with (listing one)) (session []) ["devices"]) /\
  _pick_serial_interactive (host_with (listing header)) (session [])
  = (Ret None,
     advance (session []) [] 1
       [Spawn ["/usr/bin/adb"; "devices"] true;
        Print "[red]Tidak ada device tersedia.[/red]"]) /\
  exists s,
    nth_error (state_ready_devices two) (2 - 1) = Some s /\
    _pick_serial_interactive (host_with (listing two)) (session [Typed (str_of_nat 2)])
    = (Ret (Some s),
       advance (session [Typed (str_of_nat 2)]) [] 1
         (Spawn ["/usr/bin/adb"; "devices"] true
          :: enumerated 1 (state_ready_devices two) ++ [Ask "Pilih device"])).
Proof.
  intros one two.
  assert (Hone : forall line, In line (device_lines one) ->
                              ready_line line = state_ready_line line).
  { intros line H. vm_compute in H. destruct H as [<- | []]. reflexivity. }
  assert (Hnone : forall line, In line (device_lines header) ->
                               ready_line line = state_ready_line line).
  { intros line H. vm_compute in H. destruct H. }
  assert (Htwo : forall line, In line (device_lines two) ->
                              ready_line line = state_ready_line line).
  { intros line H. vm_compute in H. destruct H as [<- | [<- | []]]; reflexivity. }
  split; [|split].
  - apply (proj1 (proj1 selector_counts_filtered_lines (host_with (listing one))
                    (session []) one "" eq_refl Hone)).
    reflexivity.
  - apply (proj1 (proj2 (proj1 selector_counts_filtered_lines (host_with (listing header))
                           (session []) header "" eq_refl Hnone))).
    reflexivity.
  - apply (proj2 (proj2 (proj2 (proj1 selector_counts_filtered_lines (host_with (listing two))
                           (session [Typed (str_of_nat 2)]) two "" eq_refl Htwo))
                    ltac:(vm_compute; lia))).
    + vm_compute. lia.
    + reflexivity.
Defined.

Lemma selector_defaults_to_first_witness :
  let two := header ++ listing_text [tabbed "emulator-5554" "device";
                                     tabbed "R58M12ABCDE" "device"] in
  exists first,
    nth_error (ready_devices two) 0 = Some first /\
    _pick_serial_interactive (host_with (listing two)) (session [Typed "second"])
    = (Ret (Some first),
       advance (session [Typed "second"]) [] 1
         (Spawn [which_adb (host_with (listing two)); "devices"] true
          :: enumerated 1 (ready_devices two) ++ [Ask "Pilih device"])).
Proof.
  intros two.
  apply (selector_defaults_to_first (host_with (listing two)) (session [Typed "second"])
           two "" (Typed "second") []).
  - reflexivity.
  - vm_compute. lia.
  - reflexivity.
  - discriminate.
  - left. reflexivity.
Defined.

Lemma selector_negative_index_witness :
  let three := header ++ listing_text [tabbed "emulator-5554" "device";
                                       tabbed "R58M12ABCDE" "device";
                                       tabbed "192.168.0.5:5555" "device"] in
  exists s w',
    nth_error (ready_devices three) (List.length (ready_devices three) - 1 - 1) = Some s /\
    (1%nat = 0%nat -> s = last (ready_devices three) "") /\
    _pick_serial_interactive (host_with (listing three)) (session [Typed "-1"])
    = (Ret (Some s), w').
Proof.
  intros three.
  apply (selector_negative_index (host_with (listing three)) (session [Typed "-1"])
           three "" [] 1 "-1").
  - reflexivity.
  - vm_compute. lia.
  - vm_compute. lia.
  - left. reflexivity.
  - reflexivity.
Defined.

End SelectorWitnesses.

(* ================================================================= *)
(** ** The operations of the catalog *)

Section Operations.
Import PyStr World Adb Obs More.
Variable E : env.

Lemma prompt_ask_eq (p : string) (d : option string) (w : world)
      (a : answer) (rest : list answer) :
  inputs w = a :: rest ->
  a <> CtrlC ->
  Prompt_ask p d w =
  (Ret (answer_value a (match d with Some v => v | None => "" end)),
   advance w rest 0 [Ask p]).
Proof.
  intros Hin Ha. unfold Prompt_ask, bind, emit, next_answer. world_norm.
  rewrite Hin. destruct a; [reflexivity | reflexivity | congruence].
Qed.

(** [pair_device], case by case on what the two launches do. *)
Lemma pair_device_eq (w : world) (a1 a2 : answer) (rest : list answer) (host : string) :
  inputs w = a1 :: a2 :: rest ->
  a1 <> CtrlC ->
  a2 <> CtrlC ->
  let hostport := answer_value a1 "" in
  let pin := answer_value a2 "" in
  let pair_cmd := [which_adb E; "pair"; hostport; pin] in
  let connect_cmd := [which_adb E; "connect"; host ++ ":5555"] in
  let asks := [Ask "Masukkan ip:port untuk pair (contoh 192.168.0.5:37099)";
               Ask "Masukkan kode PIN"; Spawn pair_cmd true] in
  index (split_on ":" hostport) 0 = Some host ->
  pair_device E w =
  match spawn E (launches w) pair_cmd with
  | Exited rc out err =>
      if ((rc =? 0) && contains "Successfully" (strip out))%bool then
        let evs := (asks ++ [Print ("[green]" ++ strip out ++ "[/green]");
                             Spawn connect_cmd true])%list in
        match spawn E (S (launches w)) connect_cmd with
        | Exited rc2 out2 err2 =>
            (Ret tt,
             advance w rest 2
               (evs ++ [Print (if rc2 =? 0 then "[green]" ++ strip out2 ++ "[/green]"
                               else "[yellow]Pair ok, tapi connect gagal:[/yellow] "
                                    ++ or_else (strip err2) (strip out2))]))
        | NotFound _ => (Raise (FileNotFoundError adb_missing_msg), advance w rest 2 evs)
        | LaunchFailed msg =>
            (Ret tt,
             advance w rest 2
               (evs ++ [Print ("[yellow]Pair ok, tapi connect gagal:[/yellow] "
                               ++ or_else msg "")]))
        | Interrupted => (Raise KeyboardInterrupt, advance w rest 2 evs)
        end
      else
        (Ret tt,
         advance w rest 1
           (asks ++ [Print ("[red]Pair gagal:[/red] " ++ or_else (strip err) (strip out))]))
  | NotFound _ => (Raise (FileNotFoundError adb_missing_msg), advance w rest 1 asks)
  | LaunchFailed msg =>
      (Ret tt, advance w rest 1 (asks ++ [Print ("[red]Pair gagal:[/red] " ++ or_else msg "")]))
  | Interrupted => (Raise KeyboardInterrupt, advance w rest 1 asks)
  end.
Proof.
  intros Hin Ha1 Ha2 hostport pin pair_cmd connect_cmd asks Hidx.
  unfold pair_device. unfold bind at 1.
  rewrite (prompt_ask_eq _ None w a1 (a2 :: rest) Hin Ha1).
  unfold bind at 1.
  rewrite (prompt_ask_eq _ None _ a2 rest) by (reflexivity || assumption).
  unfold bind at 1. rewrite run_adb_eq. world_norm.
  fold hostport pin pair_cmd.
  destruct (spawn E (launches w) pair_cmd) as [rc out err|m|m|] eqn:Hp;
    try (subst asks; cbn [Z.eqb andb]; world_norm; reflexivity).
  destruct ((rc =? 0) && contains "Successfully" (strip out))%bool eqn:Hok;
    [|subst asks; world_norm; reflexivity].
  unfold bind at 1. world_norm. unfold bind at 1. fold hostport.
  rewrite Hidx. cbn [lift]. world_norm.
  unfold bind at 1. rewrite run_adb_eq. world_norm. fold connect_cmd.
  destruct (spawn E (S (launches w)) connect_cmd) as [rc2 out2 err2|m|m|];
    try (subst asks; cbn [Z.eqb andb]; world_norm; reflexivity).
  destruct (rc2 =? 0); subst asks; world_norm; reflexivity.
Qed.

(** C3 (as amended).  [pair_device] launches [connect <host>:5555]
    after the [pair] call exactly when that call ended with exit code 0
    and its standard output contains [Successfully]; [host] is the part
    before the first colon of the [host:port] the prompt returned (the
    typed line without the white space around it).  In that case the
    green pair message is printed and the red failure message is not,
    whatever the follow-up does.  A follow-up that ends with a non-zero
    code, or cannot be launched for another reason than a missing
    executable, is reported by the yellow warning and the operation
    returns normally.  A follow-up that finds the bridge executable
    missing raises the missing-bridge error, and an interrupt during
    the follow-up is raised as such: no warning is printed then. *)
Theorem pair_follow_up (w : world) (a1 a2 : answer) (rest : list answer) :
  inputs w = a1 :: a2 :: rest ->
  a1 <> CtrlC ->
  a2 <> CtrlC ->
  let hostport := answer_value a1 "" in
  let pin := answer_value a2 "" in
  let pair_cmd := [which_adb E; "pair"; hostport; pin] in
  exists host r w' evs,
    (hostport = host \/ exists tail, hostport = host ++ String ":" tail) /\
    none_of (Ascii.eqb ":") host = true /\
    pair_device E w = (r, w') /\
    trace w' = (trace w ++ evs)%list /\
    let connect_cmd := [which_adb E; "connect"; host ++ ":5555"] in
    (In connect_cmd (spawned evs) <->
     exists out err, spawn E (launches w) pair_cmd = Exited 0 out err /\
                     contains "Successfully" out = true) /\
    (forall out err,
        spawn E (launches w) pair_cmd = Exited 0 out err ->
        contains "Successfully" out = true ->
        spawned evs = [pair_cmd; connect_cmd] /\
        In (Print ("[green]" ++ strip out ++ "[/green]")) evs /\
        (forall m, ~ In (Print ("[red]Pair gagal:[/red] " ++ m)) evs) /\
        (forall rc2 out2 err2,
            spawn E (S (launches w)) connect_cmd = Exited rc2 out2 err2 ->
            rc2 <> 0 ->
            r = Ret tt /\
            last evs Clear = Print ("[yellow]Pair ok, tapi connect gagal:[/yellow] "
                                    ++ or_else (strip err2) (strip out2))) /\
        (forall msg,
            spawn E (S (launches w)) connect_cmd = LaunchFailed msg ->
            r = Ret tt /\
            last evs Clear = Print ("[yellow]Pair ok, tapi connect gagal:[/yellow] "
                                    ++ or_else msg "")) /\
        (forall out2 err2,
            spawn E (S (launches w)) connect_cmd = Exited 0 out2 err2 ->
            r = Ret tt /\
            last evs Clear = Print ("[green]" ++ strip out2 ++ "[/green]")) /\
        (forall msg,
            spawn E (S (launches w)) connect_cmd = NotFound msg ->
            r = Raise (FileNotFoundError adb_missing_msg) /\
            last evs Clear = Spawn connect_cmd true) /\
        (spawn E (S (launches w)) connect_cmd = Interrupted ->
         r = Raise KeyboardInterrupt /\
         last evs Clear = Spawn connect_cmd true)).
Proof.
  intros Hin Ha1 Ha2 hostport pin pair_cmd.
  destruct (split_on_first ":" hostport) as (host & Hidx & Hnone & Hshape).
  exists host.
  rewrite (pair_device_eq w a1 a2 rest host Hin Ha1 Ha2 Hidx).
  fold hostport pin pair_cmd.
  set (connect_cmd := [which_adb E; "connect"; host ++ ":5555"]).
  assert (Hcmd : pair_cmd <> connect_cmd) by (unfold pair_cmd, connect_cmd; discriminate).
  assert (Hnot : ~ In connect_cmd [pair_cmd]) by (intros [H|[]]; congruence).
  destruct (spawn E (launches w) pair_cmd) as [rc out err|m|m|] eqn:Hp.
  1: rewrite (contains_strip "Successfully" out) by (reflexivity || discriminate).
  2,3,4: (eexists _, _, _; split; [exact Hshape|]; split; [exact Hnone|];
          split; [reflexivity|]; split; [reflexivity|]; cbn [app spawned]; split;
          [split; [intros H; contradiction | intros (o & e & H & _); discriminate H]
          | intros o e H; discriminate H]).
  destruct ((rc =? 0) && contains "Successfully" out)%bool eqn:Hok.
  - apply andb_true_iff in Hok as [Hrc Hc]. apply Z.eqb_eq in Hrc. subst rc.
    destruct (spawn E (S (launches w)) connect_cmd) as [rc2 out2 err2|m|m|] eqn:Hc2;
      (eexists _, _, _; split; [exact Hshape|]; split; [exact Hnone|];
       split; [reflexivity|]; split; [reflexivity|]; cbn [app spawned]; split;
       [split; [intros _; eauto | intros _; right; left; reflexivity]
       | intros o e Ho _; injection Ho as <- <-;
         split; [reflexivity|];
         split; [cbn [In]; auto 8|];
         split; [intros mm Hm; cbn [In] in Hm;
                 repeat (destruct Hm as [Hm|Hm];
                         [try discriminate Hm;
                          try (destruct (rc2 =? 0); discriminate Hm)|]);
                 exact Hm|];
         split;
         [ intros r2 o2 e2 Hx Hr2; rewrite Hc2 in Hx; try discriminate Hx;
           injection Hx as <- <- <-;
           apply Z.eqb_neq in Hr2; rewrite Hr2; split; reflexivity |];
         split;
         [ intros mm Hx; rewrite Hc2 in Hx; try discriminate Hx;
           injection Hx as <-; split; reflexivity |];
         split;
         [ intros o2 e2 Hx; rewrite Hc2 in Hx; try discriminate Hx;
           injection Hx as -> <- <-; split; reflexivity |];
         split;
         [ intros mm Hx; rewrite Hc2 in Hx; try discriminate Hx; split; reflexivity
         | intros Hx; rewrite Hc2 in Hx; try discriminate Hx; split; reflexivity ]]).
  - eexists _, _, _; split; [exact Hshape|]; split; [exact Hnone|].
    split; [reflexivity|]. split; [reflexivity|].
    cbn [app spawned]. split.
    + split; [intros H; contradiction|].
      intros (o & e & H & Hc). injection H as -> <- <-.
      cbn [Z.eqb andb] in Hok. congruence.
    + intros o e H Hc. injection H as -> <- <-.
      cbn [Z.eqb andb] in Hok. congruence.
Qed.

Lemma truthy_false (s : string) : truthy s = false <-> s = "".
Proof. destruct s; simpl; split; congruence. Qed.

(** The three transfer operations when the check of their paths
    fails. *)
Lemma local_path_cases (w : world) (a : answer) (rest : list answer) :
  inputs w = a :: rest ->
  a <> CtrlC ->
  let p := answer_value a "" in
  (p = "" \/ path_isfile E p = false ->
   install_apk E w =
   (Ret tt, advance w rest 0 [Ask "Masukkan path ke file APK (lokal)";
                              Print "[red]File APK tidak ditemukan.[/red]"])) /\
  (p = "" \/ path_exists E p = false ->
   push_file E w =
   (Ret tt, advance w rest 0 [Ask "Path file sumber (PC)";
                              Print "[red]File sumber tidak ditemukan.[/red]"])) /\
  (p = "" ->
   pull_file E w =
   (Ret tt, advance w rest 0
              [Ask "Path file di device (contoh: /sdcard/Download/file.txt)";
               Print "[red]Path remote kosong.[/red]"])) /\
  (forall a2 rest2,
      p <> "" -> rest = a2 :: rest2 -> a2 <> CtrlC -> answer_value a2 "" = "" ->
      pull_file E w =
      (Ret tt, advance w rest2 0
                 [Ask "Path file di device (contoh: /sdcard/Download/file.txt)";
                  Ask "Path tujuan di PC (lokal)";
                  Print "[red]Path tujuan kosong.[/red]"])).
Proof.
  intros Hin Ha p. repeat split.
  - intros Hbad. unfold install_apk. unfold bind at 1.
    rewrite (prompt_ask_eq _ None w a rest Hin Ha). fold p.
    replace (negb (truthy p) || negb (path_isfile E p))%bool with true.
    + world_norm. reflexivity.
    + symmetry. apply orb_true_iff.
      destruct Hbad as [-> | ->]; [left | right]; reflexivity.
  - intros Hbad. unfold push_file. unfold bind at 1.
    rewrite (prompt_ask_eq _ None w a rest Hin Ha). fold p.
    replace (negb (truthy p) || negb (path_exists E p))%bool with true.
    + world_norm. reflexivity.
    + symmetry. apply orb_true_iff.
      destruct Hbad as [-> | ->]; [left | right]; reflexivity.
  - intros Hp. unfold pull_file. unfold bind at 1.
    rewrite (prompt_ask_eq _ None w a rest Hin Ha). fold p. rewrite Hp.
    cbn [truthy negb]. world_norm. reflexivity.
  - intros a2 rest2 Hp Hrest Ha2 Hdst. unfold pull_file. unfold bind at 1.
    rewrite (prompt_ask_eq _ None w a rest Hin Ha). fold p.
    destruct (truthy p) eqn:Htp; [|apply truthy_false in Htp; congruence].
    cbn [negb]. unfold bind at 1.
    rewrite (prompt_ask_eq _ None _ a2 rest2) by (assumption || exact Hrest).
    rewrite Hdst. cbn [truthy negb]. world_norm. reflexivity.
Qed.

(** C5 (as amended).  [install_apk] and [push_file] report the failure
    and launch nothing when the typed local path is empty or is no
    file (install) or does not exist (push).  [pull_file] reports the
    failure and launches nothing when the remote path or the local
    destination is empty; it does not look whether the local
    destination exists. *)
Theorem local_path_checked_first (w : world) (a : answer) (rest : list answer) :
  inputs w = a :: rest ->
  a <> CtrlC ->
  let p := answer_value a "" in
  (p = "" \/ path_isfile E p = false ->
   install_apk E w =
   (Ret tt, advance w rest 0 [Ask "Masukkan path ke file APK (lokal)";
                              Print "[red]File APK tidak ditemukan.[/red]"])) /\
  (p = "" \/ path_exists E p = false ->
   push_file E w =
   (Ret tt, advance w rest 0 [Ask "Path file sumber (PC)";
                              Print "[red]File sumber tidak ditemukan.[/red]"])) /\
  (p = "" ->
   pull_file E w =
   (Ret tt, advance w rest 0
              [Ask "Path file di device (contoh: /sdcard/Download/file.txt)";
               Print "[red]Path remote kosong.[/red]"])) /\
  (forall a2 rest2,
      p <> "" -> rest = a2 :: rest2 -> a2 <> CtrlC -> answer_value a2 "" = "" ->
      pull_file E w =
      (Ret tt, advance w rest2 0
                 [Ask "Path file di device (contoh: /sdcard/Download/file.txt)";
                  Ask "Path tujuan di PC (lokal)";
                  Print "[red]Path tujuan kosong.[/red]"])).
Proof. exact (local_path_cases w a rest). Qed.

(** C8.  Once a serial is selected, [reboot_device] launches the bridge
    with the three tokens [-s <serial> reboot] when the mode is empty
    or [normal], and with the four tokens [-s <serial> reboot <mode>]
    for every other mode; nothing else is launched. *)
Theorem reboot_arguments (w w1 : world) (serial : string) (a : answer)
        (rest : list answer) :
  _pick_serial_interactive E w = (Ret (Some serial), w1) ->
  truthy serial = true ->
  inputs w1 = a :: rest ->
  a <> CtrlC ->
  let mode := answer_value a "normal" in
  exists args r evs,
    reboot_device E w =
    (r, advance w1 rest 1
          (Ask "Mode reboot? (normal/bootloader/recovery)"
           :: Spawn (which_adb E :: args) true :: evs)) /\
    spawned evs = [] /\
    (mode = "" \/ mode = "normal" ->
     args = ["-s"; serial; "reboot"] /\ List.length args = 3%nat) /\
    (mode <> "" -> mode <> "normal" ->
     args = ["-s"; serial; "reboot"; mode] /\ List.length args = 4%nat).
Proof.
  intros Hpick Hser Hin Ha mode.
  unfold reboot_device. unfold bind at 1. rewrite Hpick, Hser. cbn [negb].
  unfold bind at 1. rewrite (prompt_ask_eq _ (Some "normal") w1 a rest Hin Ha).
  fold mode.
  set (args := if (truthy mode && negb (mode =? "normal")%string)%bool
               then (["-s"; serial; "reboot"] ++ [mode])%list
               else ["-s"; serial; "reboot"]).
  exists args.
  unfold bind at 1. rewrite run_adb_eq. world_norm.
  assert (Hargs : (mode = "" \/ mode = "normal" ->
                   args = ["-s"; serial; "reboot"] /\ List.length args = 3%nat) /\
                  (mode <> "" -> mode <> "normal" ->
                   args = ["-s"; serial; "reboot"; mode] /\ List.length args = 4%nat)).
  { unfold args. split.
    - intros [-> | ->]; split; reflexivity.
    - intros H1 H2. destruct (truthy mode) eqn:Ht;
        [|apply truthy_false in Ht; congruence].
      apply String.eqb_neq in H2. rewrite H2. split; reflexivity. }
  destruct (spawn E (launches w1) (which_adb E :: args)) as [rc out err|m|m|];
    [destruct (rc =? 0) | | destruct (1 =? 0) eqn:H10; [discriminate H10|] | ].
  1,2,4: (eexists _, [Print _]; split; [world_norm; reflexivity|];
          split; [reflexivity | exact Hargs]).
  all: (eexists _, []; split; [world_norm; reflexivity|];
        split; [reflexivity | exact Hargs]).
Qed.

Lemma answer_value_trimmed (a : answer) : answer_value a "" = strip (typed_line a).
Proof.
  destruct a as [line| |]; [|reflexivity..].
  cbn [answer_value typed_line]. unfold prompt_value. now destruct line.
Qed.

(** C9 (as amended).  The host [disconnect_device] works with is the
    typed line without the white space around it.  When that is empty
    (an empty or blank line) the bridge is launched with the single
    token [disconnect]; otherwise with [disconnect <host>], the trimmed
    host as one argument; nothing else is launched. *)
Theorem disconnect_arguments (w : world) (a : answer) (rest : list answer) :
  inputs w = a :: rest ->
  a <> CtrlC ->
  let host := strip (typed_line a) in
  exists args r evs,
    disconnect_device E w =
    (r, advance w rest 1
          (Ask "Masukkan host/IP:port untuk disconnect (atau kosong untuk all)"
           :: Spawn (which_adb E :: args) true :: evs)) /\
    spawned evs = [] /\
    (host = "" -> args = ["disconnect"]) /\
    (host <> "" -> args = ["disconnect"; host]).
Proof.
  intros Hin Ha host.
  unfold disconnect_device. unfold bind at 1.
  rewrite (prompt_ask_eq _ (Some "") w a rest Hin Ha), answer_value_trimmed. fold host.
  exists (if truthy host then ["disconnect"; host] else ["disconnect"]).
  assert (Hargs : (host = "" ->
                   (if truthy host then ["disconnect"; host] else ["disconnect"])
                   = ["disconnect"]) /\
                  (host <> "" ->
                   (if truthy host then ["disconnect"; host] else ["disconnect"])
                   = ["disconnect"; host])).
  { split; [intros ->; reflexivity|].
    intros H. destruct (truthy host) eqn:Ht; [reflexivity|].
    apply truthy_false in Ht. congruence. }
  unfold bind at 1.
  destruct (truthy host); rewrite run_adb_eq;
    match goal with
    | |- context [spawn E ?n ?c] =>
        destruct (spawn E n c) as [rc out err|m|m|];
        [destruct (rc =? 0) | | destruct (1 =? 0) eqn:H10; [discriminate H10|] | ]
    end.
  all: first
         [ eexists _, [Print _]; split; [world_norm; reflexivity|];
           split; [reflexivity | exact Hargs]
         | eexists _, []; split; [world_norm; reflexivity|];
           split; [reflexivity | exact Hargs] ].
Qed.

End Operations.

(* ================================================================= *)
(** ** The session without the bridge executable *)

Section BridgeAbsent.
Import PyStr World Adb Obs.
Variable E : env.
Hypothesis HA : bridge_absent E.

Lemma which_adb_absent : which_adb E = exe_name E "adb".
Proof.
  destruct HA as (Hw & Hc & _). unfold which_adb. now rewrite Hw, Hc.
Qed.

Lemma run_adb_missing (args : list string) : always_missing (run_adb E args).
Proof.
  intros w. rewrite run_adb_eq, which_adb_absent.
  destruct HA as (_ & _ & Hs). destruct (Hs (launches w) args) as [msg ->].
  split; reflexivity.
Qed.

Lemma missing_bind {A B} (m : M A) (k : A -> M B) :
  always_missing m -> always_missing (bind m k).
Proof.
  intros Hm w. specialize (Hm w). unfold bind.
  destruct (m w) as [[a|e] w1]; cbn [fst snd] in *; destruct Hm as [H1 H2];
    [discriminate H1|]. injection H1 as ->. split; [reflexivity | assumption].
Qed.

Lemma missing_ok {A} (m : M A) : always_missing m -> launch_free_or_missing m.
Proof. intros Hm w. right. apply Hm. Qed.

Lemma ok_bind {A B} (m : M A) (k : A -> M B) :
  launch_free_or_missing m -> (forall a, launch_free_or_missing (k a)) ->
  launch_free_or_missing (bind m k).
Proof.
  intros Hm Hk w. specialize (Hm w). unfold bind.
  destruct (m w) as [[a|e] w1]; cbn [fst snd] in *.
  - destruct Hm as [Hm | [Hm _]]; [|discriminate Hm].
    specialize (Hk a w1). rewrite Hm in Hk. exact Hk.
  - destruct Hm as [Hm | [Hm Hl]]; [left; exact Hm|].
    right. injection Hm as ->. split; [reflexivity | exact Hl].
Qed.

Lemma ok_ret {A} (a : A) : launch_free_or_missing (ret a).
Proof. intros w. left. reflexivity. Qed.

Lemma ok_emit (e : event) : launch_free_or_missing (emit e).
Proof. intros w. left. reflexivity. Qed.

Lemma ok_print (s : string) : launch_free_or_missing (console_print s).
Proof. apply ok_emit. Qed.

Lemma ok_lift {A} (o : option A) (e : exn) : launch_free_or_missing (lift o e).
Proof. intros w. left. destruct o; reflexivity. Qed.

Lemma prompt_launches (p : string) (d : option string) (w : world) :
  launches (snd (Prompt_ask p d w)) = launches w.
Proof.
  unfold Prompt_ask, bind, emit, next_answer. cbn [inputs].
  destruct (inputs w) as [|[v| |] rest]; reflexivity.
Qed.

Lemma ok_prompt (p : string) (d : option string) : launch_free_or_missing (Prompt_ask p d).
Proof. intros w. left. apply prompt_launches. Qed.

Lemma confirm_from_launches (p : string) (ins : list answer) (n : nat) (tr : list event) :
  launches (snd (confirm_from p ins n tr)) = n.
Proof.
  revert tr; induction ins as [|a ins IH]; intros tr; [reflexivity|].
  cbn [confirm_from]. destruct a as [v| |]; try apply IH; try reflexivity.
  destruct (lower (strip v) =? "y")%string; [reflexivity|].
  destruct (lower (strip v) =? "n")%string; [reflexivity | apply IH].
Qed.

Lemma ok_confirm (p : string) : launch_free_or_missing (Confirm_ask p).
Proof. intros w. left. apply confirm_from_launches. Qed.

Lemma pick_missing : always_missing (_pick_serial_interactive E).
Proof. apply missing_bind, run_adb_missing. Qed.

(** Composes the facts above along the structure of an operation. *)
Ltac absent_steps :=
  repeat first
    [ apply ok_ret | apply ok_print | apply ok_emit | apply ok_lift
    | apply ok_prompt | apply ok_confirm
    | apply missing_ok; apply missing_bind;
      first [apply run_adb_missing | apply pick_missing]
    | match goal with
      | |- launch_free_or_missing (bind (if ?b then _ else _) _) => destruct b
      | |- launch_free_or_missing (if ?b then _ else _) => destruct b
      | |- launch_free_or_missing (match ?x with _ => _ end) => destruct x
      end
    | apply ok_bind; [ | intros ? ] ].

(** Whatever is chosen from the menu, screen mirroring apart, the
    operation either launches nothing or stops at its first launch with
    the missing-bridge error. *)
Lemma dispatch_ok (choice : string) :
  choice <> "14" -> launch_free_or_missing (dispatch E choice).
Proof.
  intros H14. unfold dispatch.
  repeat match goal with
         | |- launch_free_or_missing (if (choice =? ?k)%string then _ else _) =>
             destruct (String.eqb_spec choice k); [try congruence|]
         end;
    unfold list_devices, start_server, stop_server, pair_device,
      connect_device, enable_tcpip, open_shell, run_command_on_device, install_apk,
      push_file, pull_file, reboot_device, disconnect_device, show_help;
    absent_steps.
Qed.

Lemma handled_dispatch (choice : string) (w : world) :
  choice <> "14" ->
  let rw := try_except (dispatch E choice) loop_handles loop_handler w in
  launches (snd rw) = launches w \/
  (fst rw = Ret true /\ launches (snd rw) = S (launches w) /\
   last (trace (snd rw)) Clear = tool_missing_report).
Proof.
  intros H14. unfold try_except. pose proof (dispatch_ok choice H14 w) as H.
  destruct (dispatch E choice w) as [[b|e] w1]; cbn [fst snd] in *.
  - destruct H as [H | [H _]]; [left; exact H | discriminate H].
  - destruct H as [H | [H1 H2]].
    + left. destruct e; cbn; exact H.
    + injection H1 as ->. right. cbn. rewrite last_last. auto.
Qed.

(** One cycle of the loop with another selection than screen
    mirroring: when it launched anything, it ended in [break] after the
    report of the missing bridge. *)
Lemma loop_body_absent (w : world) (a : answer) (rest : list answer) :
  inputs w = a :: rest ->
  a <> CtrlC ->
  answer_value a "1" <> "14" ->
  launches (snd (loop_body E w)) = launches w \/
  (fst (loop_body E w) = Ret true /\
   launches (snd (loop_body E w)) = S (launches w) /\
   last (trace (snd (loop_body E w))) Clear = tool_missing_report).
Proof.
  intros Hin Ha H14.
  remember (loop_body E w) as rw eqn:Hrw.
  unfold loop_body, show_menu in Hrw. unfold bind at 1 in Hrw. unfold emit at 1 in Hrw.
  unfold bind at 1 in Hrw. unfold emit at 1 in Hrw. cbn [inputs launches trace] in Hrw.
  unfold bind at 1 in Hrw.
  rewrite (prompt_ask_eq _ (Some "1") _ a rest) in Hrw by (exact Hin || exact Ha).
  set (w1 := advance _ rest 0 _) in Hrw.
  assert (Hp : launches w1 = launches w) by reflexivity.
  unfold bind at 1 in Hrw.
  pose proof (handled_dispatch (answer_value a "1") w1 H14) as Hd. cbv zeta in Hd.
  destruct (try_except (dispatch E (answer_value a "1")) loop_handles loop_handler w1)
    as [[stop|e] w2]; cbn [fst snd] in *.
  - destruct stop.
    + subst rw. rewrite Hp in Hd. exact Hd.
    + destruct Hd as [Hd | [Hd _]]; [|discriminate Hd].
      left. rewrite <- Hp, <- Hd. subst rw.
      unfold bind, console_print, emit, try_except, input, next_answer.
      cbn [inputs launches trace].
      destruct (inputs w2) as [|[v| |] rest2]; reflexivity.
  - destruct Hd as [Hd | [Hd _]]; [|discriminate Hd].
    left. subst rw. cbn [snd]. congruence.
Qed.

Lemma direct_operations_launch (w : world) (choice : string) (rest : list answer) :
  In choice ["1"; "2"; "3"; "7"; "8"; "12"] ->
  inputs w = Typed choice :: rest ->
  launches (snd (loop_body E w)) = S (launches w).
Proof.
  intros Hc Hin.
  unfold loop_body, show_menu. unfold bind at 1. unfold emit at 1.
  unfold bind at 1. unfold emit at 1. cbn [inputs launches trace].
  unfold bind at 1.
  rewrite (prompt_ask_eq _ _ _ (Typed choice) rest) by (exact Hin || discriminate).
  cbn [answer_value]. unfold bind at 1. unfold try_except.
  cbn [In] in Hc.
  repeat (destruct Hc as [<- | Hc]); try contradiction;
    match goal with
    | |- context [prompt_value ?s ?d] =>
        let v := eval vm_compute in (prompt_value s d) in
        change (prompt_value s d) with v
    end;
    cbn [dispatch String.eqb Ascii.eqb Bool.eqb andb];
    unfold list_devices, start_server, stop_server, open_shell,
      run_command_on_device, reboot_device;
    match goal with
    | |- context [bind (bind ?m ?k) ?k' ?w0] =>
        let H := fresh in
        assert (H : always_missing (bind (bind m k) k'))
          by (apply missing_bind, missing_bind;
              first [apply run_adb_missing | apply pick_missing]);
        destruct (H w0) as [H1 H2];
        destruct (bind (bind m k) k' w0) as [r0 w1]; cbn [fst snd] in H1, H2;
        subst r0; cbn; exact H2
    end.
Qed.

Lemma main_loop_absent (fuel : nat) (w : world) :
  main_loop E fuel w =
  loop E fuel
    (advance w (inputs w) 0
       [Print "[yellow]ADB tidak ditemukan. Silakan pasang manual (platform-tools).[/yellow]"]).
Proof.
  unfold main_loop, ensure_adb. rewrite which_adb_absent.
  destruct HA as (Hw & Hc & _). rewrite Hw, Hc. cbn [falsy].
  unfold bind at 1. unfold bind at 1. world_norm. reflexivity.
Qed.

End BridgeAbsent.

(* ================================================================= *)
(** ** Scenarios *)

Section Scenarios.
Import PyStr World Adb Obs More.

Lemma host_without_bridge_absent : bridge_absent host_without_bridge.
Proof.
  split; [reflexivity|]. split; [reflexivity|].
  intros n args. eexists. reflexivity.
Qed.

(** C1 as stated fails: Help is an operation of the catalog, and on a
    host without the bridge it prints its panel, nothing is launched,
    no missing-bridge report appears and the loop goes on (the cycle
    does not end in [break]). *)
Lemma help_without_bridge_continues :
  let rw := loop_body host_without_bridge (session [Typed "15"; Enter]) in
  fst rw = Ret false /\
  spawned (trace (snd rw)) = [] /\
  ~ In tool_missing_report (trace (snd rw)) /\
  loop host_without_bridge 2 (session [Typed "15"; Enter; Typed "0"; Typed "y"])
  = (Ret Returned,
     {| inputs := []; launches := 0;
        trace := [Clear; PrintTable "[green]ADB Pairing CLI[/green]" menu_options;
                  Ask (nl ++ "[bold]Pilih nomor aksi[/bold]");
                  PrintPanel "Help Menu" "Panduan Penggunaan Menu ADB";
                  Print (nl ++ "[dim]Tekan Enter untuk kembali ke menu...[/dim]");
                  Input;
                  Clear; PrintTable "[green]ADB Pairing CLI[/green]" menu_options;
                  Ask (nl ++ "[bold]Pilih nomor aksi[/bold]");
                  Ask "Yakin mau keluar?";
                  Print "[bold]Sampai jumpa![/bold]"] |}).
Proof.
  cbv zeta. split; [reflexivity|]. split; [reflexivity|]. split; [|reflexivity].
  vm_compute. intros H.
  repeat (destruct H as [H|H]; [discriminate H|]). exact H.
Qed.

Lemma pair_follow_up_witness :
  let w := session [Typed "192.168.0.5:37099"; Typed "123456"] in
  let E := host_with pairs_but_no_connect in
  exists host r w' evs,
    ("192.168.0.5:37099" = host \/ exists tail, "192.168.0.5:37099" = host ++ String ":" tail) /\
    none_of (Ascii.eqb ":") host = true /\
    pair_device E w = (r, w') /\
    trace w' = (trace w ++ evs)%list /\
    let connect_cmd := [which_adb E; "connect"; host ++ ":5555"] in
    (In connect_cmd (spawned evs) <->
     exists out err,
       spawn E (launches w) [which_adb E; "pair"; "192.168.0.5:37099"; "123456"]
       = Exited 0 out err /\
       contains "Successfully" out = true) /\
    (forall out err,
        spawn E (launches w) [which_adb E; "pair"; "192.168.0.5:37099"; "123456"]
        = Exited 0 out err ->
        contains "Successfully" out = true ->
        spawned evs = [[which_adb E; "pair"; "192.168.0.5:37099"; "123456"]; connect_cmd] /\
        In (Print ("[green]" ++ strip out ++ "[/green]")) evs /\
        (forall m, ~ In (Print ("[red]Pair gagal:[/red] " ++ m)) evs) /\
        (forall rc2 out2 err2,
            spawn E (S (launches w)) connect_cmd = Exited rc2 out2 err2 ->
            rc2 <> 0 ->
            r = Ret tt /\
            last evs Clear = Print ("[yellow]Pair ok, tapi connect gagal:[/yellow] "
                                    ++ or_else (strip err2) (strip out2))) /\
        (forall msg,
            spawn E (S (launches w)) connect_cmd = LaunchFailed msg ->
            r = Ret tt /\
            last evs Clear = Print ("[yellow]Pair ok, tapi connect gagal:[/yellow] "
                                    ++ or_else msg "")) /\
        (forall out2 err2,
            spawn E (S (launches w)) connect_cmd = Exited 0 out2 err2 ->
            r = Ret tt /\
            last evs Clear = Print ("[green]" ++ strip out2 ++ "[/green]")) /\
        (forall msg,
            spawn E (S (launches w)) connect_cmd = NotFound msg ->
            r = Raise (FileNotFoundError adb_missing_msg) /\
            last evs Clear = Spawn connect_cmd true) /\
        (spawn E (S (launches w)) connect_cmd = Interrupted ->
         r = Raise KeyboardInterrupt /\
         last evs Clear = Spawn connect_cmd true)).
Proof.
  intros w E.
  apply (pair_follow_up E w (Typed "192.168.0.5:37099") (Typed "123456") []).
  - reflexivity.
  - discriminate.
  - discriminate.
Defined.

(** The pairing scenario, run: the follow-up goes to
    [192.168.0.5:5555], its failure is a warning. *)
Example pair_scenario_trace :
  pair_device (host_with pairs_but_no_connect)
              (session [Typed "192.168.0.5:37099"; Typed "123456"])
  = (Ret tt,
     {| inputs := []; launches := 2;
        trace := [Ask "Masukkan ip:port untuk pair (contoh 192.168.0.5:37099)";
                  Ask "Masukkan kode PIN";
                  Spawn ["/usr/bin/adb"; "pair"; "192.168.0.5:37099"; "123456"] true;
                  Print "[green]Successfully paired to 192.168.0.5:37099[/green]";
                  Spawn ["/usr/bin/adb"; "connect"; "192.168.0.5:5555"] true;
                  Print "[yellow]Pair ok, tapi connect gagal:[/yellow] failed to connect to 192.168.0.5:5555"] |}).
Proof. vm_compute. reflexivity. Qed.

(** C3 as stated fails: the pair call succeeded and the bridge
    executable is gone when the follow-up is launched.  The operation
    raises the missing-bridge error after the green pair message, no
    warning is printed, and the session ends on the report. *)
Lemma pair_follow_up_missing_bridge :
  let E := host_with pairs_then_vanishes in
  pair_device E (session [Typed "192.168.0.5:37099"; Typed "123456"])
  = (Raise (FileNotFoundError adb_missing_msg),
     {| inputs := []; launches := 2;
        trace := [Ask "Masukkan ip:port untuk pair (contoh 192.168.0.5:37099)";
                  Ask "Masukkan kode PIN";
                  Spawn ["/usr/bin/adb"; "pair"; "192.168.0.5:37099"; "123456"] true;
                  Print "[green]Successfully paired to 192.168.0.5:37099[/green]";
                  Spawn ["/usr/bin/adb"; "connect"; "192.168.0.5:5555"] true] |}) /\
  loop E 1 (session [Typed "4"; Typed "192.168.0.5:37099"; Typed "123456"])
  = (Ret Returned,
     {| inputs := []; launches := 2;
        trace := [Clear; PrintTable "[green]ADB Pairing CLI[/green]" menu_options;
                  Ask (nl ++ "[bold]Pilih nomor aksi[/bold]");
                  Ask "Masukkan ip:port untuk pair (contoh 192.168.0.5:37099)";
                  Ask "Masukkan kode PIN";
                  Spawn ["/usr/bin/adb"; "pair"; "192.168.0.5:37099"; "123456"] true;
                  Print "[green]Successfully paired to 192.168.0.5:37099[/green]";
                  Spawn ["/usr/bin/adb"; "connect"; "192.168.0.5:5555"] true;
                  tool_missing_report] |}) /\
  fst (pair_device (host_with pairs_then_interrupted)
         (session [Typed "192.168.0.5:37099"; Typed "123456"]))
  = Raise KeyboardInterrupt.
Proof. vm_compute. repeat split. Qed.

Lemma local_path_checked_first_witness :
  let E := host_with (listing header) in
  let w := session [Typed "/tmp/missing.apk"] in
  install_apk E w =
  (Ret tt, advance w [] 0 [Ask "Masukkan path ke file APK (lokal)";
                           Print "[red]File APK tidak ditemukan.[/red]"]) /\
  push_file E w =
  (Ret tt, advance w [] 0 [Ask "Path file sumber (PC)";
                           Print "[red]File sumber tidak ditemukan.[/red]"]) /\
  pull_file E (session [Enter]) =
  (Ret tt, advance (session [Enter]) [] 0
             [Ask "Path file di device (contoh: /sdcard/Download/file.txt)";
              Print "[red]Path remote kosong.[/red]"]).
Proof.
  intros E w.
  destruct (local_path_checked_first E w (Typed "/tmp/missing.apk") [] eq_refl
              ltac:(discriminate)) as (H1 & H2 & _ & _).
  destruct (local_path_checked_first E (session [Enter]) Enter [] eq_refl
              ltac:(discriminate)) as (_ & _ & H3 & _).
  split; [apply H1; right; reflexivity|].
  split; [apply H2; right; reflexivity|].
  apply H3. reflexivity.
Defined.

(** C5 as stated fails for Pull: the local destination does not exist
    on disk, and the bridge is launched twice (the listing, then the
    pull). *)
Lemma pull_with_missing_local_path_launches :
  let E := host_with (listing (header ++ listing_text [tabbed "emulator-5554" "device"])) in
  let w := session [Typed "/sdcard/Download/file.txt"; Typed "/nonexistent/out.txt"] in
  path_exists E "/nonexistent/out.txt" = false /\
  spawned (trace (snd (pull_file E w)))
  = [["/usr/bin/adb"; "devices"];
     ["/usr/bin/adb"; "-s"; "emulator-5554"; "pull";
      "/sdcard/Download/file.txt"; "/nonexistent/out.txt"]].
Proof. vm_compute. split; reflexivity. Qed.

Lemma reboot_arguments_witness :
  let E := host_with (listing (header ++ listing_text [tabbed "emulator-5554" "device"])) in
  let w := session [Typed "bootloader"] in
  exists args r evs,
    reboot_device E w =
    (r, advance (launched E w ["devices"]) [] 1
          (Ask "Mode reboot? (normal/bootloader/recovery)"
           :: Spawn (which_adb E :: args) true :: evs)) /\
    spawned evs = [] /\
    ("bootloader" = "" \/ "bootloader" = "normal" ->
     args = ["-s"; "emulator-5554"; "reboot"] /\ List.length args = 3%nat) /\
    ("bootloader" <> "" -> "bootloader" <> "normal" ->
     args = ["-s"; "emulator-5554"; "reboot"; "bootloader"] /\ List.length args = 4%nat).
Proof.
  intros E w.
  apply (reboot_arguments E w (launched E w ["devices"]) "emulator-5554"
           (Typed "bootloader") []).
  - vm_compute. reflexivity.
  - reflexivity.
  - reflexivity.
  - discriminate.
Defined.

Lemma disconnect_arguments_witness :
  let E := host_with (listing header) in
  let w := session [Typed "  192.168.0.5:5555 "] in
  exists args r evs,
    disconnect_device E w =
    (r, advance w [] 1
          (Ask "Masukkan host/IP:port untuk disconnect (atau kosong untuk all)"
           :: Spawn (which_adb E :: args) true :: evs)) /\
    spawned evs = [] /\
    ("192.168.0.5:5555" = "" -> args = ["disconnect"]) /\
    ("192.168.0.5:5555" <> "" -> args = ["disconnect"; "192.168.0.5:5555"]).
Proof.
  intros E w.
  apply (disconnect_arguments E w (Typed "  192.168.0.5:5555 ") []).
  - reflexivity.
  - discriminate.
Defined.

(** C9 as stated fails: a host typed with blanks around it is not
    passed on as typed, and a line of blanks, which is not empty, gives
    the bare [disconnect]. *)
Lemma disconnect_host_not_verbatim :
  let E := host_with (listing header) in
  spawned (trace (snd (disconnect_device E (session [Typed " 192.168.0.5:5555 "]))))
  = [["/usr/bin/adb"; "disconnect"; "192.168.0.5:5555"]] /\
  spawned (trace (snd (disconnect_device E (session [Typed "   "]))))
  = [["/usr/bin/adb"; "disconnect"]].
Proof. vm_compute. split; reflexivity. Qed.

(** C6.  A shell command with an open quotation makes [shlex.split]
    raise [ValueError]; no handler of [run_command_on_device] or of
    [main_loop] takes it, so it leaves [main_loop] as an exception
    instead of being shown with the loop going on. *)
Theorem open_quotation_aborts_session (fuel : nat) :
  let E := host_with (listing (header ++ listing_text [tabbed "emulator-5554" "device"])) in
  Shlex.split open_quote_command = None /\
  fst (run_command_on_device E (session [Typed open_quote_command]))
  = Raise (ValueError "No closing quotation") /\
  fst (main_loop E (S fuel) (session [Typed "8"; Typed open_quote_command; Enter]))
  = Raise (ValueError "No closing quotation").
Proof.
  cbv zeta. split; [reflexivity|]. split; [vm_compute; reflexivity|].
  unfold main_loop. unfold bind at 1.
  match goal with
  | |- context [ensure_adb ?E ?w] =>
      destruct (ensure_adb E w) as [[exe|e] w1] eqn:He; vm_compute in He;
      [injection He as <- <- | discriminate He]
  end.
  cbn [loop]. unfold bind at 1.
  match goal with
  | |- context [loop_body ?E ?w] =>
      assert (Hb : fst (loop_body E w) = Raise (ValueError "No closing quotation"))
        by (vm_compute; reflexivity);
      destruct (loop_body E w) as [r w']
  end.
  cbn [fst] in Hb. subst r. reflexivity.
Qed.

End Scenarios.


(* ================================================================= *)
(** ** Locating and invoking the bridge *)

Section Locating.
Import PyStr World Adb Obs More.
Variable E : env.

Lemma truthy_app_r (a b : string) : truthy b = true -> truthy (a ++ b) = true.
Proof. destruct a; simpl; auto. Qed.

Lemma truthy_app_l (a b : string) : truthy a = true -> truthy (a ++ b) = true.
Proof. intros H. destruct a; [discriminate H | reflexivity]. Qed.

Lemma truthy_exe_name (base : string) : truthy base = true -> truthy (exe_name E base) = true.
Proof. intros H. unfold exe_name. destruct (os_nt E); [apply truthy_app_l|]; exact H. Qed.

Lemma truthy_pjoin (a b : string) : truthy (pjoin E a b) = true.
Proof.
  unfold pjoin. apply truthy_app_r, truthy_app_l. destruct (os_nt E); reflexivity.
Qed.

(** X1.  [which_adb] never gives the empty string; a non-empty hit on
    the search path wins, also when the cache holds a copy; without a
    hit the cached copy is taken when it exists, and the bare name
    otherwise. *)
Theorem which_adb_resolution :
  truthy (which_adb E) = true /\
  (forall found, which E (exe_name E "adb") = Some found -> truthy found = true ->
                 which_adb E = found) /\
  (which E (exe_name E "adb") = None ->
   which_adb E = if path_exists E (adb_cache_path E) then adb_cache_path E
                 else exe_name E "adb").
Proof.
  unfold which_adb, adb_cache_path. split; [|split].
  - destruct (which E (exe_name E "adb")) as [found|].
    + destruct (truthy found) eqn:Hf; [exact Hf|].
      destruct (path_exists E _); [apply truthy_pjoin | now apply truthy_exe_name].
    + destruct (path_exists E _); [apply truthy_pjoin | now apply truthy_exe_name].
  - intros found -> ->. reflexivity.
  - intros ->. reflexivity.
Qed.

Lemma rstrip_idem (s : string) : rstrip (rstrip s) = rstrip s.
Proof.
  induction s as [|c r IH]; [reflexivity|].
  cbn [rstrip]. destruct (rstrip r) as [|d r'] eqn:Hr.
  - destruct (is_space c) eqn:Hc; [reflexivity|]. cbn [rstrip]. now rewrite Hc.
  - change (rstrip (String c (String d r'))) with
      (match rstrip (String d r') with
       | EmptyString => if is_space c then EmptyString else String c EmptyString
       | r'' => String c r''
       end).
    rewrite IH. reflexivity.
Qed.

Lemma lstrip_head (s : string) :
  lstrip s = "" \/ exists c r, lstrip s = String c r /\ is_space c = false.
Proof.
  induction s as [|c r IH]; [left; reflexivity|].
  cbn [lstrip]. destruct (is_space c) eqn:Hc; [exact IH|]. right. eauto.
Qed.

(** A trimmed string has no white space left to trim, on either side. *)
Lemma strip_trimmed (s : string) :
  lstrip (strip s) = strip s /\ rstrip (strip s) = strip s.
Proof.
  unfold strip. split; [|apply rstrip_idem].
  destruct (lstrip_head s) as [-> | (c & r & -> & Hc)]; [reflexivity|].
  rewrite (rstrip_cons c r Hc). cbn [lstrip]. now rewrite Hc.
Qed.

End Locating.

(* ================================================================= *)
(** ** The platform tag *)

Section PlatformTag.
Import PyStr Adb More.

Lemma lower_char_idem (c : ascii) : lower_char (lower_char c) = lower_char c.
Proof. destruct c as [[] [] [] [] [] [] [] []]; vm_compute; reflexivity. Qed.

Lemma lower_idem (s : string) : lower (lower s) = lower s.
Proof. induction s as [|c r IH]; simpl; [reflexivity|]. now rewrite lower_char_idem, IH. Qed.

(** X3.  [get_os_tag] is a normal form: applying it to its own result
    changes nothing, the result is in lower case, and it is [windows]
    exactly when the lower-cased system name starts with [win]. *)
Theorem get_os_tag_normal (platform_system : string) :
  get_os_tag (get_os_tag platform_system) = get_os_tag platform_system /\
  lower (get_os_tag platform_system) = get_os_tag platform_system /\
  (get_os_tag platform_system = "windows" <->
   startswith "win" (lower platform_system) = true).
Proof.
  assert (Hval : get_os_tag platform_system =
                 if startswith "win" (lower platform_system) then "windows"
                 else if (lower platform_system =? "darwin")%string then "darwin"
                 else if (lower platform_system =? "linux")%string then "linux"
                 else lower platform_system) by reflexivity.
  destruct (startswith "win" (lower platform_system)) eqn:Hwin.
  { rewrite Hval. repeat split; reflexivity. }
  destruct (lower platform_system =? "darwin")%string eqn:Hd.
  { rewrite Hval. repeat split; try reflexivity; discriminate. }
  destruct (lower platform_system =? "linux")%string eqn:Hl.
  { rewrite Hval. repeat split; try reflexivity; discriminate. }
  rewrite Hval. split; [|split].
  - unfold get_os_tag. now rewrite lower_idem, Hwin, Hd, Hl.
  - apply lower_idem.
  - split; [|discriminate]. intros H. rewrite H in Hwin. discriminate Hwin.
Qed.

End PlatformTag.

(* ================================================================= *)
(** ** Listing devices and what the selector can return *)

Section Listing.
Import PyStr World Adb Obs More.
Variable E : env.

Lemma split_ws1_from_nonempty (cur s : string) :
  (truthy cur || has_nonspace s)%bool = true -> split_ws1_from cur s <> [].
Proof.
  revert cur; induction s as [|c s IH]; intros cur H; simpl in *.
  - rewrite orb_false_r in H. rewrite H. discriminate.
  - destruct (is_space c); simpl in *.
    + destruct (truthy cur); [discriminate|]. apply IH. exact H.
    + apply IH. destruct cur; reflexivity.
Qed.

(** The first entry of [split(maxsplit=1)] is the first entry of
    [split()]. *)
Lemma split_ws1_from_hd (cur s : string) (d : string) :
  hd d (split_ws1_from cur s) = hd d (split_ws_from cur s).
Proof.
  revert cur; induction s as [|c s IH]; intros cur; simpl; [reflexivity|].
  destruct (is_space c); [|apply IH].
  destruct (truthy cur); [reflexivity | apply IH].
Qed.

Lemma device_rows_filter (lines : list string) :
  exists rows,
    device_rows lines = Some rows /\
    map fst rows
    = map (fun l => hd "" (split_ws l)) (filter (fun l => truthy (strip l)) lines).
Proof.
  induction lines as [|l lines (rows & Hr & Hm)]; [exists []; split; reflexivity|].
  cbn [device_rows filter]. destruct (truthy (strip l)) eqn:Hl; cbn [negb].
  - pose proof (split_ws1_from_nonempty "" l) as Hne. rewrite truthy_strip in Hl.
    cbn [truthy orb] in Hne. specialize (Hne Hl).
    pose proof (split_ws1_from_hd "" l "") as Hhd.
    unfold split_ws1, split_ws. destruct (split_ws1_from "" l) as [|serial more]; [congruence|].
    rewrite Hr. eexists. split; [reflexivity|].
    cbn [map fst hd] in *. now rewrite Hhd, Hm.
  - exists rows. split; assumption.
Qed.

Lemma ready_line_nonblank (l : string) : ready_line l = true -> truthy (strip l) = true.
Proof. unfold ready_line. intros H. now apply andb_true_iff in H as [H _]. Qed.

(** X4.  After a listing with exit code 0, [list_devices] prints one
    table and nothing else, never fails on the text, and the serial
    column holds the first token of every non-blank line after the
    first, whatever its state; so every serial the selector would offer
    for the same text is in the table.  After a non-zero exit code it
    prints the error text, standard error first. *)
Theorem list_devices_table (w : world) :
  (forall out err,
      spawn E (launches w) [which_adb E; "devices"; "-l"] = Exited 0 out err ->
      exists rows,
        list_devices E w =
        (Ret tt, advance w (inputs w) 1
                   [Spawn [which_adb E; "devices"; "-l"] true;
                    PrintTable "ADB Devices" rows]) /\
        map fst rows
        = map (fun l => hd "" (split_ws l))
              (filter (fun l => truthy (strip l)) (tl (splitlines (strip out)))) /\
        (forall s, In s (ready_devices out) -> In s (map fst rows))) /\
  (forall rc out err,
      spawn E (launches w) [which_adb E; "devices"; "-l"] = Exited rc out err ->
      rc <> 0 ->
      list_devices E w =
      (Ret tt, advance w (inputs w) 1
                 [Spawn [which_adb E; "devices"; "-l"] true;
                  Print ("[red]Error: " ++ or_else (strip err) (strip out) ++ "[/red]")])).
Proof.
  split.
  - intros out err Hs.
    destruct (device_rows_filter (tl (splitlines (strip out)))) as (rows & Hr & Hm).
    exists rows. split; [|split; [exact Hm|]].
    + unfold list_devices. unfold bind at 1. rewrite run_adb_eq, Hs.
      cbn [Z.eqb]. unfold bind at 1. rewrite Hr. cbn [lift]. world_norm. reflexivity.
    + intros s Hin. rewrite Hm. unfold ready_devices in Hin.
      apply in_map_iff in Hin as (l & <- & Hl). apply filter_In in Hl as [Hl Hrl].
      apply in_map_iff. exists l. split; [reflexivity|].
      apply filter_In. split; [exact Hl | now apply ready_line_nonblank].
  - intros rc out err Hs Hrc. unfold list_devices. unfold bind at 1.
    rewrite run_adb_eq, Hs. apply Z.eqb_neq in Hrc. rewrite Hrc.
    world_norm. reflexivity.
Qed.

Lemma none_of_app (p : ascii -> bool) (a b : string) :
  none_of p (a ++ b) = (none_of p a && none_of p b)%bool.
Proof. induction a as [|c a IH]; simpl; [reflexivity|]. now rewrite IH, andb_assoc. Qed.

(** The entries of [split()] are non-empty and free of white space. *)
Lemma split_ws_from_tokens (cur s : string) :
  none_of is_space cur = true ->
  forall t, In t (split_ws_from cur s) -> truthy t = true /\ none_of is_space t = true.
Proof.
  revert cur; induction s as [|c s IH]; intros cur Hcur t Hin; simpl in Hin.
  - destruct (truthy cur) eqn:Ht; [|contradiction].
    destruct Hin as [<- | []]. auto.
  - destruct (is_space c) eqn:Hc.
    + destruct (truthy cur) eqn:Ht.
      * destruct Hin as [<- | Hin]; [auto | now apply (IH "")].
      * now apply (IH "").
    + apply (IH (cur ++ String c "")); [|exact Hin].
      rewrite none_of_app, Hcur. cbn [none_of]. now rewrite Hc.
Qed.

Lemma ready_devices_tokens (out s : string) :
  In s (ready_devices out) -> truthy s = true /\ none_of is_space s = true.
Proof.
  unfold ready_devices. intros Hin.
  apply in_map_iff in Hin as (l & <- & Hl). apply filter_In in Hl as [_ Hrl].
  pose proof (split_ws_nonempty l (ready_line_nonblank l Hrl)) as Hne.
  pose proof (split_ws_from_tokens "" l eq_refl) as Ht. unfold split_ws in *.
  destruct (split_ws_from "" l) as [|t ts]; [congruence|].
  apply Ht. left. reflexivity.
Qed.

Lemma index_In {A} (l : list A) (i : Z) (x : A) : index l i = Some x -> In x l.
Proof.
  unfold index. destruct ((0 <=? i) && (i <? Z.of_nat (List.length l)))%bool.
  - apply nth_error_In.
  - destruct ((- Z.of_nat (List.length l) <=? i) && (i <? 0))%bool;
      [apply nth_error_In | discriminate].
Qed.

Lemma resolve_In (l : list string) (choice s : string) :
  resolve l choice = Some s -> In s l.
Proof.
  unfold resolve. destruct (int_of_str choice) as [k|]; [|apply index_In].
  destruct (index l (k - 1)) as [x|] eqn:Hx; [|apply index_In].
  intros H. injection H as <-. now apply index_In in Hx.
Qed.

(** What a returned serial tells about the listing it came from. *)
Lemma pick_result_facts (w w' : world) (s : string) :
  _pick_serial_interactive E w = (Ret (Some s), w') ->
  exists out err,
    spawn E (launches w) [which_adb E; "devices"] = Exited 0 out err /\
    In s (ready_devices out) /\
    truthy s = true /\ none_of is_space s = true /\
    launches w' = S (launches w).
Proof.
  intros H.
  destruct (spawn E (launches w) [which_adb E; "devices"]) as [rc out err|m|m|] eqn:Hs.
  2,3,4: (unfold _pick_serial_interactive in H; unfold bind at 1 in H;
          rewrite run_adb_eq, Hs in H; cbn in H; discriminate H).
  destruct (Z.eq_dec rc 0) as [->|Hrc].
  2:{ rewrite (pick_listing_failed E w rc out err Hs Hrc) in H. discriminate H. }
  exists out, err. split; [reflexivity|].
  assert (Hgoal : In s (ready_devices out) /\ launches w' = S (launches w)).
  { destruct (ready_devices out) as [|s1 [|s2 more]] eqn:Hl.
    - rewrite (pick_listing_ok E w out err Hs), Hl in H. discriminate H.
    - rewrite (pick_listing_ok E w out err Hs), Hl in H.
      injection H as <- <-. split; [left; reflexivity | reflexivity].
    - destruct (inputs w) as [|a rest] eqn:Hin.
      + rewrite (pick_listing_ok E w out err Hs), Hl in H.
        unfold bind at 1 in H. rewrite print_enumerated_eq in H.
        unfold bind at 1 in H. unfold Prompt_ask, bind, emit, next_answer in H.
        cbn [inputs launches trace advance launched] in H. rewrite Hin in H.
        discriminate H.
      + destruct a as [v| |].
        3:{ rewrite (pick_listing_ok E w out err Hs), Hl in H.
            unfold bind at 1 in H. rewrite print_enumerated_eq in H.
            unfold bind at 1 in H. unfold Prompt_ask, bind, emit, next_answer in H.
            cbn [inputs launches trace advance launched] in H. rewrite Hin in H.
            discriminate H. }
        all: rewrite (pick_prompted E w out err _ rest s1 s2 more Hs Hl Hin) in H
            by discriminate;
          pose proof (f_equal fst H) as Hr; pose proof (f_equal snd H) as Hw;
          cbn [fst snd] in Hr, Hw; subst w';
          split; [|reflexivity];
          match type of Hr with
          | Ret (resolve ?l ?c) = _ => apply (resolve_In l c); congruence
          end. }
  destruct Hgoal as [Hin Hl]. destruct (ready_devices_tokens out s Hin).
  repeat split; assumption.
Qed.

(** X5.  Every serial the selector returns comes from a listing that
    ended with exit code 0, is the first token of one of its ready
    lines, is not empty and holds no white space; the selector launched
    the bridge exactly once to get it. *)
Theorem selector_result_is_listed (w w' : world) (s : string) :
  _pick_serial_interactive E w = (Ret (Some s), w') ->
  exists out err,
    spawn E (launches w) [which_adb E; "devices"] = Exited 0 out err /\
    In s (ready_devices out) /\
    truthy s = true /\ none_of is_space s = true /\
    launches w' = S (launches w).
Proof. exact (pick_result_facts w w' s). Qed.

(** X6.  When the listing ends with a non-zero exit code, or cannot be
    run for a reason other than a missing bridge, the selector returns
    nothing, prints the error text (standard error first) and asks
    nothing. *)
Theorem selector_listing_failure (w : world) :
  (forall rc out err,
      spawn E (launches w) [which_adb E; "devices"] = Exited rc out err ->
      rc <> 0 ->
      _pick_serial_interactive E w =
      (Ret None,
       advance w (inputs w) 1
         [Spawn [which_adb E; "devices"] true;
          Print ("[red]Error: " ++ or_else (strip err) (strip out) ++ "[/red]")])) /\
  (forall msg,
      spawn E (launches w) [which_adb E; "devices"] = LaunchFailed msg ->
      _pick_serial_interactive E w =
      (Ret None,
       advance w (inputs w) 1
         [Spawn [which_adb E; "devices"] true;
          Print ("[red]Error: " ++ or_else msg "" ++ "[/red]")])).
Proof.
  split.
  - intros rc out err Hs Hrc. unfold _pick_serial_interactive, bind.
    rewrite run_adb_eq, Hs. apply Z.eqb_neq in Hrc. rewrite Hrc.
    cbn. world_norm. reflexivity.
  - intros msg Hs. unfold _pick_serial_interactive, bind.
    rewrite run_adb_eq, Hs. cbn. world_norm. reflexivity.
Qed.

End Listing.

(* ================================================================= *)
(** ** Tokenizing the shell command *)

Section Tokenizing.
Import PyStr World Adb Obs More.

(** Without quotes and escape characters the tokenizer gives the runs of
    characters between white space. *)
Lemma lex_plain (s : string) :
  none_of Shlex.is_quote s = true ->
  none_of Shlex.is_escape s = true ->
  Shlex.lex Shlex.InWs false "" s = Shlex.Tokens (words_from "" s) /\
  (forall cur, truthy cur = true ->
               Shlex.lex Shlex.InWord false cur s = Shlex.Tokens (words_from cur s)).
Proof.
  induction s as [|c r IH]; intros Hq He.
  - split; [reflexivity|]. intros cur Hcur. cbn. rewrite Hcur. reflexivity.
  - cbn [none_of] in Hq, He.
    apply andb_true_iff in Hq as [Hq Hq']. apply andb_true_iff in He as [He He'].
    apply negb_true_iff in Hq, He. destruct (IH Hq' He') as [IH1 IH2].
    split.
    + cbn [Shlex.lex words_from truthy orb].
      destruct (Shlex.is_whitespace c); [exact IH1|].
      rewrite He, Hq. apply IH2. reflexivity.
    + intros cur Hcur. cbn [Shlex.lex words_from]. rewrite Hcur. cbn [orb].
      destruct (Shlex.is_whitespace c).
      * rewrite IH1. reflexivity.
      * rewrite Hq, He. apply IH2. unfold Shlex.snoc. now apply truthy_app_l.
Qed.

(** Inside a quotation that is never closed the tokenizer fails. *)
Lemma lex_open_quotation (q : ascii) (body : string) (quoted : bool) (tok : string) :
  none_of (fun c => Ascii.eqb c q) body = true ->
  none_of Shlex.is_escape body = true ->
  Shlex.lex (Shlex.InQuote q) quoted tok body = Shlex.NoClosingQuotation.
Proof.
  revert quoted tok; induction body as [|c r IH]; intros quoted tok Hq He; [reflexivity|].
  cbn [none_of] in Hq, He.
  apply andb_true_iff in Hq as [Hq Hq']. apply andb_true_iff in He as [He He'].
  apply negb_true_iff in Hq, He.
  cbn [Shlex.lex]. rewrite Hq, He. cbn [andb]. now apply IH.
Qed.

Lemma quote_not_whitespace (q : ascii) :
  Shlex.is_quote q = true ->
  Shlex.is_whitespace q = false /\ Shlex.is_escape q = false.
Proof.
  unfold Shlex.is_quote. intros H. apply orb_true_iff in H as [H | H];
    apply Ascii.eqb_eq in H; subst q; split; reflexivity.
Qed.

Lemma lex_before_open_quotation (pre : string) (q : ascii) (body : string) :
  none_of Shlex.is_quote pre = true ->
  none_of Shlex.is_escape pre = true ->
  Shlex.is_quote q = true ->
  none_of (fun c => Ascii.eqb c q) body = true ->
  none_of Shlex.is_escape body = true ->
  Shlex.lex Shlex.InWs false "" (pre ++ String q body) = Shlex.NoClosingQuotation /\
  (forall cur, truthy cur = true ->
               Shlex.lex Shlex.InWord false cur (pre ++ String q body)
               = Shlex.NoClosingQuotation).
Proof.
  intros Hpq Hpe Hq Hbq Hbe. destruct (quote_not_whitespace q Hq) as [Hqw Hqe].
  induction pre as [|c r IH].
  - cbn [append Shlex.lex]. rewrite Hqw, Hqe, Hq.
    split; [|intros cur _]; now apply lex_open_quotation.
  - cbn [none_of] in Hpq, Hpe.
    apply andb_true_iff in Hpq as [Hc Hpq']. apply andb_true_iff in Hpe as [Hce Hpe'].
    apply negb_true_iff in Hc, Hce. destruct (IH Hpq' Hpe') as [IH1 IH2].
    split.
    + cbn [append Shlex.lex truthy orb].
      destruct (Shlex.is_whitespace c); [exact IH1|].
      rewrite Hce, Hc. apply IH2. reflexivity.
    + intros cur Hcur. cbn [append Shlex.lex]. rewrite Hcur. cbn [orb].
      destruct (Shlex.is_whitespace c).
      * rewrite IH1. reflexivity.
      * rewrite Hc, Hce. apply IH2. unfold Shlex.snoc. now apply truthy_app_l.
Qed.

Lemma lex_single_quoted (body tok : string) (quoted : bool) :
  none_of (fun c => Ascii.eqb c Shlex.SQUOTE) body = true ->
  Shlex.lex (Shlex.InQuote Shlex.SQUOTE) quoted tok (body ++ String Shlex.SQUOTE "")
  = Shlex.Tokens [tok ++ body].
Proof.
  revert tok quoted; induction body as [|c r IH]; intros tok quoted Hq.
  - cbn. rewrite append_nil_r, orb_true_r. reflexivity.
  - cbn [none_of] in Hq. apply andb_true_iff in Hq as [Hc Hq']. apply negb_true_iff in Hc.
    cbn [append Shlex.lex]. rewrite Hc.
    replace (Shlex.is_escape c && Shlex.is_escapedquote Shlex.SQUOTE)%bool with false
      by (now rewrite andb_false_r).
    rewrite IH by exact Hq'. unfold Shlex.snoc. now rewrite append_assoc.
Qed.

(** The two readings of the tokenizer's result agree. *)
Lemma split_tokens (s : string) (args : list string) :
  Shlex.split s = Some args <-> Shlex.tokenize s = Shlex.Tokens args.
Proof.
  unfold Shlex.split. destruct (Shlex.tokenize s); split; congruence.
Qed.

Lemma split_failure (s : string) :
  Shlex.split s = None <-> exists msg, Shlex.failure s = Some msg.
Proof.
  unfold Shlex.split, Shlex.failure. destruct (Shlex.tokenize s); split;
    try congruence; try (intros [msg H]; congruence); intros _; eexists; reflexivity.
Qed.

(** White space around a text that starts a part with a character that
    is no white space: only the two ends are trimmed. *)
Lemma lstrip_app_stop (pre s : string) (c : ascii) :
  lstrip (pre ++ String c s) = lstrip pre ++ String c s \/
  lstrip pre = "" /\ lstrip (pre ++ String c s) = lstrip (String c s).
Proof.
  induction pre as [|d r IH]; [right; split; reflexivity|].
  cbn [append lstrip]. destruct (is_space d); [exact IH | left; reflexivity].
Qed.

Lemma rstrip_app_stop (pre s : string) (c : ascii) :
  is_space c = false ->
  rstrip (pre ++ String c s) = pre ++ String c (rstrip s).
Proof.
  intros Hc. induction pre as [|d r IH].
  - cbn [append rstrip]. rewrite Hc. destruct (rstrip s); reflexivity.
  - cbn [append rstrip]. rewrite IH. destruct r; reflexivity.
Qed.

Lemma none_of_lstrip (p : ascii -> bool) (s : string) :
  none_of p s = true -> none_of p (lstrip s) = true.
Proof.
  induction s as [|c r IH]; [reflexivity|]. intros H. cbn [lstrip].
  destruct (is_space c); [|exact H].
  cbn [none_of] in H. apply andb_true_iff in H as [_ H]. now apply IH.
Qed.

Lemma none_of_rstrip (p : ascii -> bool) (s : string) :
  none_of p s = true -> none_of p (rstrip s) = true.
Proof.
  induction s as [|c r IH]; [reflexivity|]. intros H.
  cbn [none_of] in H. apply andb_true_iff in H as [Hc H]. specialize (IH H).
  cbn [rstrip]. destruct (rstrip r) as [|d r'].
  - destruct (is_space c); [reflexivity|]. cbn [none_of]. now rewrite Hc.
  - cbn [none_of] in *. now rewrite Hc, IH.
Qed.

(** Trimming a text with a quote in it keeps the quote: the part before
    it loses its leading white space, the part after it its trailing
    white space. *)
Lemma strip_around_quote (pre body : string) (q : ascii) :
  Shlex.is_quote q = true ->
  strip (pre ++ String q body) = lstrip pre ++ String q (rstrip body).
Proof.
  intros Hq.
  assert (Hs : is_space q = false).
  { unfold Shlex.is_quote in Hq. apply orb_true_iff in Hq as [H | H];
      apply Ascii.eqb_eq in H; subst q; reflexivity. }
  unfold strip. destruct (lstrip_app_stop pre body q) as [-> | [Hpre ->]].
  - now apply rstrip_app_stop.
  - rewrite Hpre. cbn [lstrip]. rewrite Hs.
    apply (rstrip_app_stop "" body q Hs).
Qed.

End Tokenizing.

(* ================================================================= *)
(** ** Shell, commands, transfers and mirroring *)

Section DeviceOperations.
Import PyStr World Adb Obs More.
Variable E : env.

Lemma picked_truthy (w w1 : world) (serial : string) :
  _pick_serial_interactive E w = (Ret (Some serial), w1) -> truthy serial = true.
Proof.
  intros H. destruct (pick_result_facts E w w1 serial H) as (? & ? & _ & _ & Ht & _).
  exact Ht.
Qed.

(** What follows the launch of a captured bridge command whose result
    is only printed: one line, or nothing when the launch raised. *)
Lemma run_adb_then_print (args : list string) (k : Z * string * string -> M unit)
      (w : world) :
  (forall x, exists e, k x = emit e /\ spawned [e] = []) ->
  exists r evs,
    bind (run_adb E args) k w =
    (r, advance w (inputs w) 1 (Spawn (which_adb E :: args) true :: evs)) /\
    spawned evs = [].
Proof.
  intros Hk. unfold bind. rewrite run_adb_eq.
  destruct (spawn E (launches w) (which_adb E :: args)) as [rc out err|m|m|].
  1: destruct (Hk (rc, strip out, strip err)) as (e & -> & He).
  3: destruct (Hk (1, "", m)) as (e & -> & He).
  1,3: (exists (Ret tt), [e]; split; [world_norm; reflexivity | exact He]).
  all: (eexists _, []; split; [world_norm; reflexivity | reflexivity]).
Qed.

(** X7.  Once a serial is selected, [open_shell] announces the shell and
    launches [-s <serial> shell] attached to the terminal; whatever that
    launch does, the operation returns normally: an interrupt gives the
    yellow notice, a launch that fails (a bridge that has gone missing
    included) gives the red notice, and nothing is raised. *)
Theorem open_shell_returns (w w1 : world) (serial : string) :
  _pick_serial_interactive E w = (Ret (Some serial), w1) ->
  let cmd := [which_adb E; "-s"; serial; "shell"] in
  open_shell E w =
  (Ret tt,
   advance w1 (inputs w1) 1
     (Print ("[green]Opening interactive shell to " ++ serial
             ++ ". Ketik 'exit' untuk keluar.[/green]")
      :: Spawn cmd false
      :: match spawn E (launches w1) cmd with
         | Exited _ _ _ => []
         | Interrupted => [Print (nl ++ "[yellow]Shell interrupted by user.[/yellow]")]
         | NotFound msg | LaunchFailed msg =>
             [Print ("[red]Error starting shell:[/red] " ++ msg)]
         end)).
Proof.
  intros Hpick cmd. unfold open_shell. unfold bind at 1.
  rewrite Hpick, (picked_truthy w w1 serial Hpick). cbn [negb].
  unfold bind at 1. world_norm. unfold bind at 1. unfold run_process.
  cbn [inputs launches trace]. fold cmd.
  destruct (spawn E (launches w1) cmd); world_norm; reflexivity.
Qed.

(** [run_command_on_device] after the selector, case by case. *)
Lemma run_command_cases (w w1 : world) (serial : string) (a : answer)
        (rest : list answer) :
  _pick_serial_interactive E w = (Ret (Some serial), w1) ->
  inputs w1 = a :: rest ->
  a <> CtrlC ->
  let command := answer_value a "" in
  let ask := Ask "Masukkan perintah shell (contoh: ls /sdcard)" in
  (command = "" ->
   run_command_on_device E w =
   (Ret tt, advance w1 rest 0 [ask; Print "[red]Perintah kosong.[/red]"])) /\
  (forall args,
      command <> "" -> Shlex.split command = Some args ->
      exists r evs,
        run_command_on_device E w =
        (r, advance w1 rest 1
              (ask :: Spawn (which_adb E :: "-s" :: serial :: "shell" :: args) true :: evs)) /\
        spawned evs = []) /\
  (forall msg,
      command <> "" -> Shlex.failure command = Some msg ->
      run_command_on_device E w = (Raise (ValueError msg), advance w1 rest 0 [ask])).
Proof.
  intros Hpick Hin Ha command ask.
  assert (Hhead : run_command_on_device E w =
                  (if negb (truthy command)
                   then console_print "[red]Perintah kosong.[/red]"
                   else match Shlex.tokenize command with
                        | Shlex.Tokens args =>
                            bind (run_adb E (["-s"; serial; "shell"] ++ args)%list)
                              (fun x => match x with
                                        | (rc, out, err) =>
                                            if rc =? 0
                                            then emit (PrintPanel "Output"
                                                         (or_else out "(no output)"))
                                            else console_print ("[red]Error:[/red] "
                                                                ++ or_else err out)
                                        end)
                        | Shlex.NoClosingQuotation => raise (ValueError "No closing quotation")
                        | Shlex.NoEscapedCharacter => raise (ValueError "No escaped character")
                        end)
                    (advance w1 rest 0 [ask])).
  { unfold run_command_on_device. unfold bind at 1.
    rewrite Hpick, (picked_truthy w w1 serial Hpick). cbn [negb].
    unfold bind at 1. rewrite (prompt_ask_eq _ None w1 a rest Hin Ha). reflexivity. }
  rewrite Hhead. split; [|split].
  - intros ->. cbn [truthy negb]. world_norm. reflexivity.
  - intros args Hne Hsplit.
    destruct (truthy command) eqn:Ht; [|apply truthy_false in Ht; congruence].
    cbn [negb]. apply split_tokens in Hsplit. rewrite Hsplit.
    destruct (run_adb_then_print (["-s"; serial; "shell"] ++ args)%list
                (fun x => match x with
                          | (rc, out, err) =>
                              if rc =? 0
                              then emit (PrintPanel "Output" (or_else out "(no output)"))
                              else console_print ("[red]Error:[/red] " ++ or_else err out)
                          end)
                (advance w1 rest 0 [ask])) as (r & evs & Heq & Hev).
    { intros [[rc out] err]. destruct (rc =? 0); eexists; split; reflexivity. }
    exists r, evs. rewrite Heq. split; [world_norm; reflexivity | exact Hev].
  - intros msg Hne Hfail.
    destruct (truthy command) eqn:Ht; [|apply truthy_false in Ht; congruence].
    cbn [negb]. unfold Shlex.failure in Hfail.
    destruct (Shlex.tokenize command); [discriminate Hfail | ..];
      injection Hfail as <-; reflexivity.
Qed.

(** X8.  Once a serial is selected, [run_command_on_device] rejects an
    empty command before any further launch; a command the tokenizer
    accepts is launched as [-s <serial> shell] followed by its tokens,
    captured, and nothing else is launched; a command the tokenizer
    rejects raises [ValueError] with the tokenizer's message for that
    failure (an open quotation, or an escape character at the end) and
    nothing further is launched. *)
Theorem run_command_arguments (w w1 : world) (serial : string) (a : answer)
        (rest : list answer) :
  _pick_serial_interactive E w = (Ret (Some serial), w1) ->
  inputs w1 = a :: rest ->
  a <> CtrlC ->
  let command := answer_value a "" in
  let ask := Ask "Masukkan perintah shell (contoh: ls /sdcard)" in
  (command = "" ->
   run_command_on_device E w =
   (Ret tt, advance w1 rest 0 [ask; Print "[red]Perintah kosong.[/red]"])) /\
  (forall args,
      command <> "" -> Shlex.split command = Some args ->
      exists r evs,
        run_command_on_device E w =
        (r, advance w1 rest 1
              (ask :: Spawn (which_adb E :: "-s" :: serial :: "shell" :: args) true :: evs)) /\
        spawned evs = []) /\
  (forall msg,
      command <> "" -> Shlex.failure command = Some msg ->
      run_command_on_device E w = (Raise (ValueError msg), advance w1 rest 0 [ask])).
Proof. exact (run_command_cases w w1 serial a rest). Qed.

(** X9.  A command without quotes and escape characters reaches the
    bridge as its words: the runs of characters between blanks, tabs,
    carriage returns and line feeds. *)
Theorem run_command_plain_words (w w1 : world) (serial : string) (a : answer)
        (rest : list answer) :
  _pick_serial_interactive E w = (Ret (Some serial), w1) ->
  inputs w1 = a :: rest ->
  a <> CtrlC ->
  let command := answer_value a "" in
  command <> "" ->
  none_of Shlex.is_quote command = true ->
  none_of Shlex.is_escape command = true ->
  exists r evs,
    run_command_on_device E w =
    (r, advance w1 rest 1
          (Ask "Masukkan perintah shell (contoh: ls /sdcard)"
           :: Spawn (which_adb E :: "-s" :: serial :: "shell" :: words_from "" command) true
           :: evs)) /\
    spawned evs = [].
Proof.
  intros Hpick Hin Ha command Hne Hq He.
  destruct (run_command_cases w w1 serial a rest Hpick Hin Ha) as (_ & H & _).
  apply H; [exact Hne|]. apply split_tokens. unfold Shlex.tokenize. now apply lex_plain.
Qed.

(** X10.  A command in which a quotation is opened and never closed
    (after a part without quotes and escape characters) makes
    [run_command_on_device] raise [ValueError]; only the listing was
    launched. *)
Theorem run_command_open_quotation (w w1 : world) (serial : string)
        (rest : list answer) (pre body : string) (q : ascii) :
  _pick_serial_interactive E w = (Ret (Some serial), w1) ->
  inputs w1 = Typed (pre ++ String q body) :: rest ->
  none_of Shlex.is_quote pre = true ->
  none_of Shlex.is_escape pre = true ->
  Shlex.is_quote q = true ->
  none_of (fun c => Ascii.eqb c q) body = true ->
  none_of Shlex.is_escape body = true ->
  run_command_on_device E w =
  (Raise (ValueError "No closing quotation"),
   advance w1 rest 0 [Ask "Masukkan perintah shell (contoh: ls /sdcard)"]).
Proof.
  intros Hpick Hin Hpq Hpe Hq Hbq Hbe.
  destruct (run_command_cases w w1 serial _ rest Hpick Hin ltac:(discriminate))
    as (_ & _ & H).
  assert (Hcmd : answer_value (Typed (pre ++ String q body)) ""
                 = lstrip pre ++ String q (rstrip body)).
  { cbn [answer_value]. unfold prompt_value.
    replace (truthy (pre ++ String q body)) with true by (destruct pre; reflexivity).
    now apply strip_around_quote. }
  apply H.
  - rewrite Hcmd. destruct (lstrip pre); discriminate.
  - rewrite Hcmd. unfold Shlex.failure, Shlex.tokenize.
    rewrite (proj1 (lex_before_open_quotation (lstrip pre) q (rstrip body)
                      (none_of_lstrip _ _ Hpq) (none_of_lstrip _ _ Hpe) Hq
                      (none_of_rstrip _ _ Hbq) (none_of_rstrip _ _ Hbe))).
    reflexivity.
Qed.

(** X11.  A command that is one single-quoted text reaches the bridge
    as one argument, the text unchanged, white space and double quotes
    included. *)
Theorem run_command_single_quoted (w w1 : world) (serial : string)
        (rest : list answer) (body : string) :
  _pick_serial_interactive E w = (Ret (Some serial), w1) ->
  inputs w1 = Typed (String Shlex.SQUOTE (body ++ String Shlex.SQUOTE "")) :: rest ->
  none_of (fun c => Ascii.eqb c Shlex.SQUOTE) body = true ->
  exists r evs,
    run_command_on_device E w =
    (r, advance w1 rest 1
          (Ask "Masukkan perintah shell (contoh: ls /sdcard)"
           :: Spawn [which_adb E; "-s"; serial; "shell"; body] true
           :: evs)) /\
    spawned evs = [].
Proof.
  intros Hpick Hin Hb.
  destruct (run_command_cases w w1 serial _ rest Hpick Hin ltac:(discriminate))
    as (_ & H & _).
  assert (Hcmd : answer_value (Typed (String Shlex.SQUOTE (body ++ String Shlex.SQUOTE ""))) ""
                 = String Shlex.SQUOTE (body ++ String Shlex.SQUOTE "")).
  { cbn [answer_value]. unfold prompt_value. cbn [truthy].
    change (String Shlex.SQUOTE (body ++ String Shlex.SQUOTE ""))
      with ("" ++ String Shlex.SQUOTE (body ++ String Shlex.SQUOTE "")) at 1.
    rewrite (strip_around_quote "" (body ++ String Shlex.SQUOTE "") Shlex.SQUOTE eq_refl).
    cbn [lstrip append]. f_equal.
    apply (rstrip_app_stop body "" Shlex.SQUOTE eq_refl). }
  apply H; [rewrite Hcmd; discriminate|].
  rewrite Hcmd. apply split_tokens. unfold Shlex.tokenize. cbn [Shlex.lex].
  change (Shlex.is_whitespace Shlex.SQUOTE) with false.
  change (Shlex.is_escape Shlex.SQUOTE) with false.
  change (Shlex.is_quote Shlex.SQUOTE) with true. cbv iota.
  now rewrite lex_single_quoted.
Qed.

End DeviceOperations.

(* ================================================================= *)
(** ** File transfer and mirroring *)

Section Transfers.
Import PyStr World Adb Obs More.
Variable E : env.

Lemma truthy_true (s : string) : s <> "" -> truthy s = true.
Proof. destruct s; [congruence | reflexivity]. Qed.

(** X12.  The path [install_apk] works with is the typed line without
    the white space around it.  Given such a path to an existing file
    and a selected serial, neither with an opening square bracket in it
    (the console then prints the progress line as it is),
    [install_apk] prints the progress line and then launches
    [-s <serial> install -r <path>]; nothing else is launched after the
    selector. *)
Theorem install_arguments (w w1 : world) (serial : string) (a : answer)
        (rest : list answer) :
  inputs w = a :: rest ->
  a <> CtrlC ->
  let apk_path := strip (typed_line a) in
  apk_path <> "" ->
  path_isfile E apk_path = true ->
  markup_free apk_path = true ->
  markup_free serial = true ->
  _pick_serial_interactive E (advance w rest 0 [Ask "Masukkan path ke file APK (lokal)"])
  = (Ret (Some serial), w1) ->
  exists r evs,
    install_apk E w =
    (r, advance w1 (inputs w1) 1
          (Print ("[green]Installing " ++ apk_path ++ " to " ++ serial ++ " ...[/green]")
           :: Spawn [which_adb E; "-s"; serial; "install"; "-r"; apk_path] true
           :: evs)) /\
    spawned evs = [].
Proof.
  intros Hin Ha apk_path Hne Hfile _ _ Hpick.
  unfold install_apk. unfold bind at 1.
  rewrite (prompt_ask_eq _ None w a rest Hin Ha), answer_value_trimmed. fold apk_path.
  rewrite (truthy_true _ Hne), Hfile. cbn [negb orb].
  unfold bind at 1. rewrite Hpick, (picked_truthy E _ w1 serial Hpick). cbn [negb].
  unfold bind at 1. world_norm.
  match goal with
  | |- context [bind (run_adb E ?args) ?k ?w0] =>
      destruct (run_adb_then_print E args k w0) as (r & evs & Heq & Hev);
      [intros [[rc out] err]; destruct (rc =? 0); eexists; split; reflexivity|];
      exists r, evs; rewrite Heq
  end.
  split; [world_norm; reflexivity | exact Hev].
Qed.

(** X13.  The paths [push_file] works with are the typed lines without
    the white space around them.  Given a source that exists and a
    selected serial, none of the three texts with an opening square
    bracket in it (the console then prints the progress line as it
    is), [push_file] prints the progress line and then launches
    [-s <serial> push <src> <dst>]; the destination is not checked, an
    empty one is passed on as an empty argument. *)
Theorem push_arguments (w w1 : world) (serial : string) (a1 a2 : answer)
        (rest : list answer) :
  inputs w = a1 :: a2 :: rest ->
  a1 <> CtrlC ->
  a2 <> CtrlC ->
  let src := strip (typed_line a1) in
  let dst := strip (typed_line a2) in
  src <> "" ->
  path_exists E src = true ->
  markup_free src = true ->
  markup_free dst = true ->
  markup_free serial = true ->
  _pick_serial_interactive E
    (advance w rest 0 [Ask "Path file sumber (PC)";
                       Ask "Path tujuan di device (contoh: /sdcard/Download/)"])
  = (Ret (Some serial), w1) ->
  exists r evs,
    push_file E w =
    (r, advance w1 (inputs w1) 1
          (Print ("[green]Pushing " ++ src ++ " -> " ++ serial ++ ":" ++ dst ++ "[/green]")
           :: Spawn [which_adb E; "-s"; serial; "push"; src; dst] true
           :: evs)) /\
    spawned evs = [].
Proof.
  intros Hin Ha1 Ha2 src dst Hne Hex _ _ _ Hpick.
  unfold push_file. unfold bind at 1.
  rewrite (prompt_ask_eq _ None w a1 (a2 :: rest) Hin Ha1), answer_value_trimmed. fold src.
  rewrite (truthy_true _ Hne), Hex. cbn [negb orb].
  unfold bind at 1. rewrite (prompt_ask_eq _ None _ a2 rest) by (reflexivity || assumption).
  rewrite answer_value_trimmed. fold dst. unfold bind at 1.
  assert (Hw : advance (advance w (a2 :: rest) 0 [Ask "Path file sumber (PC)"]) rest 0
                 [Ask "Path tujuan di device (contoh: /sdcard/Download/)"]
               = advance w rest 0 [Ask "Path file sumber (PC)";
                                   Ask "Path tujuan di device (contoh: /sdcard/Download/)"])
    by (world_norm; reflexivity).
  rewrite Hw, Hpick, (picked_truthy E _ w1 serial Hpick). cbn [negb].
  unfold bind at 1. world_norm.
  match goal with
  | |- context [bind (run_adb E ?args) ?k ?w0] =>
      destruct (run_adb_then_print E args k w0) as (r & evs & Heq & Hev);
      [intros [[rc out] err]; destruct (rc =? 0); eexists; split; reflexivity|];
      exists r, evs; rewrite Heq
  end.
  split; [world_norm; reflexivity | exact Hev].
Qed.

(** X14.  The paths [pull_file] works with are the typed lines without
    the white space around them.  Given a non-empty remote path, a
    non-empty local destination and a selected serial, none of the
    three texts with an opening square bracket in it (the console then
    prints the progress line as it is), [pull_file] prints the progress
    line and then launches [-s <serial> pull <remote> <local>]. *)
Theorem pull_arguments (w w1 : world) (serial : string) (a1 a2 : answer)
        (rest : list answer) :
  inputs w = a1 :: a2 :: rest ->
  a1 <> CtrlC ->
  a2 <> CtrlC ->
  let remote := strip (typed_line a1) in
  let dst := strip (typed_line a2) in
  remote <> "" ->
  dst <> "" ->
  markup_free remote = true ->
  markup_free dst = true ->
  markup_free serial = true ->
  _pick_serial_interactive E
    (advance w rest 0 [Ask "Path file di device (contoh: /sdcard/Download/file.txt)";
                       Ask "Path tujuan di PC (lokal)"])
  = (Ret (Some serial), w1) ->
  exists r evs,
    pull_file E w =
    (r, advance w1 (inputs w1) 1
          (Print ("[green]Pulling " ++ serial ++ ":" ++ remote ++ " -> " ++ dst ++ "[/green]")
           :: Spawn [which_adb E; "-s"; serial; "pull"; remote; dst] true
           :: evs)) /\
    spawned evs = [].
Proof.
  intros Hin Ha1 Ha2 remote dst Hr Hd _ _ _ Hpick.
  unfold pull_file. unfold bind at 1.
  rewrite (prompt_ask_eq _ None w a1 (a2 :: rest) Hin Ha1), answer_value_trimmed. fold remote.
  rewrite (truthy_true _ Hr). cbn [negb].
  unfold bind at 1. rewrite (prompt_ask_eq _ None _ a2 rest) by (reflexivity || assumption).
  rewrite answer_value_trimmed. fold dst. rewrite (truthy_true _ Hd). cbn [negb]. unfold bind at 1.
  assert (Hw : advance (advance w (a2 :: rest) 0
                          [Ask "Path file di device (contoh: /sdcard/Download/file.txt)"])
                 rest 0 [Ask "Path tujuan di PC (lokal)"]
               = advance w rest 0
                   [Ask "Path file di device (contoh: /sdcard/Download/file.txt)";
                    Ask "Path tujuan di PC (lokal)"])
    by (world_norm; reflexivity).
  rewrite Hw, Hpick, (picked_truthy E _ w1 serial Hpick). cbn [negb].
  unfold bind at 1. world_norm.
  match goal with
  | |- context [bind (run_adb E ?args) ?k ?w0] =>
      destruct (run_adb_then_print E args k w0) as (r & evs & Heq & Hev);
      [intros [[rc out] err]; destruct (rc =? 0); eexists; split; reflexivity|];
      exists r, evs; rewrite Heq
  end.
  split; [world_norm; reflexivity | exact Hev].
Qed.

(** X15.  With the mirroring tool resolved, [try_screen_mirroring] lists
    the devices and looks at the text whatever the exit code of the
    listing: it launches the tool, attached and without arguments,
    exactly when some line after the first contains [device] and does not
    begin with [*]; otherwise it reports that no device is connected and
    launches nothing more.  A line the selector accepts that does not
    begin with [*] is enough. *)
Theorem mirroring_needs_listed_device (w w1 : world) (path out err : string) (rc : Z) :
  ensure_scrcpy E w = (Ret (Some path), w1) ->
  truthy path = true ->
  spawn E (launches w1) [which_adb E; "devices"] = Exited rc out err ->
  let lines := tl (splitlines (strip out)) in
  (filter mirror_line lines = [] ->
   try_screen_mirroring E w =
   (Ret tt, advance w1 (inputs w1) 1
              [Spawn [which_adb E; "devices"] true;
               Print "[red]Tidak ada device ADB terhubung.[/red]"])) /\
  (filter mirror_line lines <> [] ->
   exists r evs,
     try_screen_mirroring E w =
     (r, advance w1 (inputs w1) 2
           (Spawn [which_adb E; "devices"] true
            :: Print "[green]Menjalankan scrcpy...[/green]"
            :: Spawn [path] false :: evs)) /\
     spawned evs = []) /\
  (forall l, In l lines -> ready_line l = true -> startswith "*" l = false ->
             filter mirror_line lines <> []).
Proof.
  intros Hens Hpath Hs lines.
  assert (Hhead : try_screen_mirroring E w =
                  match filter mirror_line lines with
                  | [] => console_print "[red]Tidak ada device ADB terhubung.[/red]"
                  | _ =>
                      bind (console_print "[green]Menjalankan scrcpy...[/green]")
                        (fun _ =>
                           bind (run_process E [path] false)
                             (fun r =>
                                match r with
                                | Exited _ _ _ => ret tt
                                | Interrupted => raise KeyboardInterrupt
                                | NotFound msg | LaunchFailed msg =>
                                    console_print ("[red]Gagal menjalankan scrcpy: "
                                                   ++ msg ++ "[/red]")
                                end))
                  end (launched E w1 ["devices"])).
  { unfold try_screen_mirroring. unfold bind at 1. rewrite Hens, Hpath. cbn [negb].
    unfold bind at 1. rewrite run_adb_eq, Hs. reflexivity. }
  rewrite Hhead. split; [|split].
  - intros ->. world_norm. reflexivity.
  - intros Hne. destruct (filter mirror_line lines) as [|l ls]; [congruence|].
    unfold bind at 1. world_norm. unfold bind at 1. unfold run_process.
    cbn [inputs launches trace].
    destruct (spawn E (S (launches w1)) [path]) as [rc2 o2 e2|m|m|].
    1,4: (eexists _, []; split; [world_norm; reflexivity | reflexivity]).
    all: (eexists _, [Print _]; split; [world_norm; reflexivity | reflexivity]).
  - intros l Hin Hr Hstar Hnil.
    assert (Hl : In l (filter mirror_line lines)).
    { apply filter_In. split; [exact Hin|]. unfold mirror_line.
      unfold ready_line in Hr. apply andb_true_iff in Hr as [_ Hc].
      now rewrite Hc, Hstar. }
    rewrite Hnil in Hl. contradiction.
Qed.

End Transfers.

(* ================================================================= *)
(** ** The session loop *)

Section SessionLoop.
Import PyStr World Adb Obs More.
Variable E : env.

(** A cycle of the loop, once an answer to the menu prompt is there. *)
Lemma loop_body_eq (w : world) (a : answer) (rest : list answer) :
  inputs w = a :: rest ->
  a <> CtrlC ->
  loop_body E w = after_selection E (answer_value a "1") (advance w rest 0 menu_events).
Proof.
  intros Hin Ha. unfold loop_body, show_menu. unfold bind at 1. unfold emit at 1.
  unfold bind at 1. unfold emit at 1. cbn [inputs launches trace].
  unfold bind at 1.
  rewrite (prompt_ask_eq _ (Some "1") _ a rest) by (exact Hin || exact Ha).
  unfold after_selection, menu_events. f_equal. world_norm. reflexivity.
Qed.

Lemma loop_step (fuel : nat) (w : world) :
  loop E (S fuel) w =
  match loop_body E w with
  | (Ret true, w') => (Ret Returned, w')
  | (Ret false, w') => loop E fuel w'
  | (Raise e, w') => (Raise e, w')
  end.
Proof.
  cbn [loop]. unfold bind. destruct (loop_body E w) as [[[|]|e] w']; reflexivity.
Qed.

(** X16.  What the loop does with an exception raised by the selected
    operation: the missing-bridge error is printed in red and ends the
    session; the user's interrupt gives the cancellation notice and ends
    the session; every other exception is not handled and leaves the
    loop as it is. *)
Theorem loop_exception_policy (fuel : nat) (w w2 : world) (a : answer)
        (rest : list answer) (e : exn) :
  inputs w = a :: rest ->
  a <> CtrlC ->
  dispatch E (answer_value a "1") (advance w rest 0 menu_events) = (Raise e, w2) ->
  loop E (S fuel) w =
  match e with
  | FileNotFoundError msg =>
      (Ret Returned, advance w2 (inputs w2) 0 [Print ("[red]" ++ msg ++ "[/red]")])
  | KeyboardInterrupt =>
      (Ret Returned,
       advance w2 (inputs w2) 0 [Print (nl ++ "[yellow]Dibatalkan oleh user.[/yellow]")])
  | _ => (Raise e, w2)
  end.
Proof.
  intros Hin Ha Hd. rewrite loop_step, (loop_body_eq w a rest Hin Ha).
  unfold after_selection. unfold bind at 1. unfold try_except at 1. rewrite Hd.
  destruct e; cbn; world_norm; reflexivity.
Qed.

(** X17.  The menu prompt itself is outside every handler: an interrupt
    there leaves the loop as [KeyboardInterrupt], and the end of the
    input as [EOFError]; nothing but the menu was shown. *)
Theorem menu_prompt_unguarded (fuel : nat) (w : world) :
  (forall rest, inputs w = CtrlC :: rest ->
                loop E (S fuel) w = (Raise KeyboardInterrupt, advance w rest 0 menu_events)) /\
  (inputs w = [] ->
   loop E (S fuel) w = (Raise EOFError, advance w [] 0 menu_events)).
Proof.
  split; [intros rest Hin | intros Hin];
    rewrite loop_step; unfold loop_body, show_menu;
    unfold bind at 1; unfold emit at 1;
    unfold bind at 1; unfold emit at 1; cbn [inputs launches trace];
    unfold bind at 1; unfold Prompt_ask, bind, emit, next_answer;
    cbn [inputs launches trace]; rewrite Hin; unfold menu_events; world_norm;
    reflexivity.
Qed.

(** X18.  After an operation that returned, the loop pauses for one
    line: any line goes on with the next cycle, an interrupt gives the
    notice and ends the session, the end of the input leaves the loop as
    [EOFError]. *)
Theorem pause_outcomes (fuel : nat) (w w2 : world) (a : answer) (rest : list answer) :
  inputs w = a :: rest ->
  a <> CtrlC ->
  dispatch E (answer_value a "1") (advance w rest 0 menu_events) = (Ret false, w2) ->
  loop E (S fuel) w =
  match inputs w2 with
  | [] => (Raise EOFError, advance w2 [] 0 pause_events)
  | CtrlC :: rest2 =>
      (Ret Returned,
       advance w2 rest2 0
         (pause_events ++ [Print (nl ++ "[yellow]Interrupted. Keluar.[/yellow]")]))
  | _ :: rest2 => loop E fuel (advance w2 rest2 0 pause_events)
  end.
Proof.
  intros Hin Ha Hd. rewrite loop_step, (loop_body_eq w a rest Hin Ha).
  unfold after_selection. unfold bind at 1. unfold try_except at 1. rewrite Hd.
  unfold input, console_print, pause_events.
  unfold bind, emit, try_except, next_answer.
  cbn [inputs launches trace].
  destruct (inputs w2) as [|[v| |] rest2]; world_norm; reflexivity.
Qed.

(** X19.  A selection the menu does not know prints the notice and
    returns without [break]: nothing is asked, nothing is launched. *)
Theorem unknown_selection (choice : string) (w : world) :
  ~ In choice known_choices ->
  dispatch E choice w =
  (Ret false, advance w (inputs w) 0 [Print "[red]Pilihan tidak dikenal.[/red]"]).
Proof.
  intros Hnot. unfold dispatch.
  repeat match goal with
         | |- context [(choice =? ?k)%string] =>
             let H := fresh in
             destruct (choice =? k)%string eqn:H;
             [apply String.eqb_eq in H; exfalso; apply Hnot; subst choice;
              unfold known_choices; cbn [In]; auto 20|]
         end.
  unfold bind. world_norm. reflexivity.
Qed.

(** X20.  Selection [0] asks for confirmation first: on [y] the farewell
    is printed and the loop is left, on [n] nothing is printed and the
    loop goes on; the bridge is not launched either way. *)
Theorem exit_needs_confirmation (w : world) (rest : list answer) :
  (inputs w = Typed "y" :: rest ->
   dispatch E "0" w =
   (Ret true, advance w rest 0 [Ask "Yakin mau keluar?"; Print "[bold]Sampai jumpa![/bold]"])) /\
  (inputs w = Typed "n" :: rest ->
   dispatch E "0" w = (Ret false, advance w rest 0 [Ask "Yakin mau keluar?"])).
Proof.
  split; intros Hin; cbn [dispatch String.eqb Ascii.eqb Bool.eqb andb];
    unfold bind at 1; unfold Confirm_ask; rewrite Hin;
    cbn [confirm_from];
    try change (lower (strip "y")) with "y";
    try change (lower (strip "n")) with "n";
    cbn [String.eqb Ascii.eqb Bool.eqb andb];
    unfold bind; world_norm; reflexivity.
Qed.

End SessionLoop.

(* ================================================================= *)
(** ** The session without the bridge executable, cycle by cycle *)

Section MissingBridgeSession.
Import PyStr World Adb Obs More.
Variable E : env.
Hypothesis HA : bridge_absent E.

Lemma op_returned (op : M unit) (w w' : world) :
  op w = (Ret tt, w') -> bind op (fun _ => ret false) w = (Ret false, w').
Proof. intros H. unfold bind. rewrite H. reflexivity. Qed.

Lemma ensure_scrcpy_on_path (w0 : world) (p : string) :
  which E (exe_name E "scrcpy") = Some p -> p <> "" ->
  ensure_scrcpy E w0 = (Ret (Some p), w0).
Proof.
  intros Hw Hp. unfold ensure_scrcpy. rewrite Hw. cbn [falsy].
  destruct p; [congruence | reflexivity].
Qed.

Lemma ensure_scrcpy_cached (w0 : world) :
  falsy (which E (exe_name E "scrcpy")) = true ->
  path_exists E (scrcpy_cache_path E) = true ->
  ensure_scrcpy E w0 = (Ret (Some (scrcpy_cache_path E)), w0).
Proof.
  intros Hw Hc. unfold ensure_scrcpy. rewrite Hw. cbn [negb].
  unfold scrcpy_cache_path in Hc. cbv zeta in Hc |- *. rewrite Hc. reflexivity.
Qed.

(** With the mirroring tool at hand the operation stops at the
    listing. *)
Lemma mirroring_missing (w0 w1 : world) (p : string) :
  ensure_scrcpy E w0 = (Ret (Some p), w1) -> p <> "" ->
  try_screen_mirroring E w0
  = (Raise (FileNotFoundError adb_missing_msg), launched E w1 ["devices"]).
Proof.
  intros He Hp. unfold try_screen_mirroring. unfold bind at 1. rewrite He.
  destruct p as [|c p]; [congruence|]. cbn [truthy negb].
  unfold bind at 1. rewrite run_adb_eq, (which_adb_absent E HA).
  destruct HA as (_ & _ & Hs). destruct (Hs (launches w1) ["devices"]) as [msg ->].
  reflexivity.
Qed.

Lemma mirroring_unavailable (w0 w1 : world) (o : option string) :
  ensure_scrcpy E w0 = (Ret o, w1) -> falsy o = true ->
  try_screen_mirroring E w0
  = (Ret tt, advance w1 (inputs w1) 0 [Print "[red]scrcpy tidak tersedia.[/red]"]).
Proof.
  intros He Ho. unfold try_screen_mirroring. unfold bind at 1. rewrite He.
  destruct o as [p|]; [|reflexivity].
  cbn [falsy] in Ho. rewrite Ho. reflexivity.
Qed.

Lemma launch_ends (fuel : nat) (w : world) (a : answer) (rest : list answer) :
  inputs w = a :: rest -> a <> CtrlC -> answer_value a "1" <> "14" ->
  launches (snd (loop_body E w)) <> launches w -> ends_on_missing_bridge E fuel w.
Proof.
  intros Hin Ha H14 Hl.
  destruct (loop_body_absent E HA w a rest Hin Ha H14) as [H | (H1 & H2 & H3)]; [congruence|].
  split; [exact H2|]. split; [exact H3|].
  cbn [loop]. unfold bind. destruct (loop_body E w) as [r w']; cbn [fst snd] in *.
  rewrite H1. reflexivity.
Qed.

Lemma stops_always {A} (m : M A) (w : world) : always_missing m -> stops_at m w.
Proof. intros H. exact (H w). Qed.

Lemma stops_bind {A B} (m : M A) (k : A -> M B) (w : world) :
  stops_at m w -> stops_at (bind m k) w.
Proof.
  unfold stops_at, bind. destruct (m w) as [[x|e] w1]; cbn [fst snd].
  - intros [H _]. discriminate H.
  - intros [H Hl]. injection H as ->. split; [reflexivity | exact Hl].
Qed.

Lemma stops_after_prompt {B} (p : string) (d : option string) (K : string -> M B)
      (w0 : world) (a : answer) (rest : list answer) :
  inputs w0 = a :: rest -> a <> CtrlC ->
  stops_at (K (answer_value a (match d with Some v => v | None => "" end)))
           (advance w0 rest 0 [Ask p]) ->
  stops_at (bind (Prompt_ask p d) K) w0.
Proof.
  intros Hin Ha H. unfold stops_at, bind.
  rewrite (prompt_ask_eq p d w0 a rest Hin Ha). exact H.
Qed.

Lemma stops_run_adb {B} (args : list string) (k : Z * string * string -> M B) (w0 : world) :
  stops_at (bind (run_adb E args) k) w0.
Proof. apply stops_always, missing_bind, (run_adb_missing E HA). Qed.

Lemma stops_pick {B} (k : option string -> M B) (w0 : world) :
  stops_at (bind (_pick_serial_interactive E) k) w0.
Proof. apply stops_always, missing_bind, (pick_missing E HA). Qed.

(** A cycle whose operation stopped at the missing bridge ends the
    session on the report. *)
Lemma cycle_reaches_bridge (fuel : nat) (w : world) (a : answer) (rest : list answer) :
  inputs w = a :: rest -> a <> CtrlC ->
  stops_at (dispatch E (answer_value a "1")) (advance w rest 0 menu_events) ->
  ends_on_missing_bridge E fuel w.
Proof.
  intros Hin Ha [H1 H2].
  assert (Hb : loop_body E w =
               (Ret true,
                advance (snd (dispatch E (answer_value a "1") (advance w rest 0 menu_events)))
                  (inputs (snd (dispatch E (answer_value a "1")
                                  (advance w rest 0 menu_events)))) 0
                  [tool_missing_report])).
  { rewrite (loop_body_eq E w a rest Hin Ha). unfold after_selection.
    unfold bind at 1. unfold try_except at 1.
    destruct (dispatch E (answer_value a "1") (advance w rest 0 menu_events)) as [r w1].
    cbn [fst snd] in H1 |- *. subst r. cbn. unfold tool_missing_report.
    world_norm. reflexivity. }
  unfold ends_on_missing_bridge. rewrite loop_step, Hb. cbn [snd].
  split; [|split; [|reflexivity]].
  - cbn [advance launches Nat.add]. rewrite H2. reflexivity.
  - cbn [advance trace]. now rewrite last_last.
Qed.

(** A cycle whose operation returned goes on with the next cycle once
    the pause is answered. *)
Lemma quiet_cycle (fuel : nat) (w w2 : world) (a a2 : answer) (rest rest2 : list answer) :
  inputs w = a :: rest -> a <> CtrlC ->
  dispatch E (answer_value a "1") (advance w rest 0 menu_events) = (Ret false, w2) ->
  inputs w2 = a2 :: rest2 -> a2 <> CtrlC ->
  loop_body E w = (Ret false, advance w2 rest2 0 pause_events) /\
  loop E (S fuel) w = loop E fuel (advance w2 rest2 0 pause_events).
Proof.
  intros Hin Ha Hd Hin2 Ha2.
  assert (Hb : loop_body E w = (Ret false, advance w2 rest2 0 pause_events)).
  { rewrite (loop_body_eq E w a rest Hin Ha).
    unfold after_selection. unfold bind at 1. unfold try_except at 1. rewrite Hd.
    unfold input, console_print, pause_events.
    unfold bind, emit, try_except, next_answer.
    cbn [inputs launches trace]. rewrite Hin2.
    destruct a2 as [v| |]; [| |congruence]; world_norm; reflexivity. }
  split; [exact Hb|]. rewrite loop_step, Hb. reflexivity.
Qed.

(** C1 (as amended).  With the bridge executable entirely absent:
    - in a cycle of the session loop whose selection is not screen
      mirroring, a launch, if there is one, is the only one of the
      cycle, the missing-bridge report is the last thing printed and
      the loop returns;
    - the operations that launch the bridge first thing (list, start
      and stop server, open shell, run command, reboot) always get
      there; connect, tcpip, disconnect and pair get there once their
      prompts are answered, and install, push and pull once their
      paths pass the check;
    - screen mirroring gets there once its tool is resolved, which is
      so when the tool is on the search path or in the cache directory,
      and the session ends on the report in the same way;
    - Help, the transfers whose path check fails and screen mirroring
      without its tool return without a launch and without the report,
      and a cycle whose operation returned goes on with the next cycle
      once the pause is answered;
    - [main_loop] is this loop after the manual-install notice. *)
Theorem tool_missing_ends_session (fuel : nat) (w : world) :
  (forall a rest,
      inputs w = a :: rest -> a <> CtrlC ->
      answer_value a "1" <> "14" ->
      launches (snd (loop_body E w)) <> launches w ->
      ends_on_missing_bridge E fuel w) /\
  ((forall choice rest,
       In choice ["1"; "2"; "3"; "7"; "8"; "12"] ->
       inputs w = Typed choice :: rest ->
       ends_on_missing_bridge E fuel w) /\
   (forall choice a2 rest,
       In choice ["5"; "6"; "13"] ->
       inputs w = Typed choice :: a2 :: rest -> a2 <> CtrlC ->
       ends_on_missing_bridge E fuel w) /\
   (forall a2 a3 rest,
       inputs w = Typed "4" :: a2 :: a3 :: rest -> a2 <> CtrlC -> a3 <> CtrlC ->
       ends_on_missing_bridge E fuel w) /\
   (forall a2 rest,
       inputs w = Typed "9" :: a2 :: rest -> a2 <> CtrlC ->
       answer_value a2 "" <> "" -> path_isfile E (answer_value a2 "") = true ->
       ends_on_missing_bridge E fuel w) /\
   (forall a2 a3 rest,
       inputs w = Typed "10" :: a2 :: a3 :: rest -> a2 <> CtrlC -> a3 <> CtrlC ->
       answer_value a2 "" <> "" -> path_exists E (answer_value a2 "") = true ->
       ends_on_missing_bridge E fuel w) /\
   (forall a2 a3 rest,
       inputs w = Typed "11" :: a2 :: a3 :: rest -> a2 <> CtrlC -> a3 <> CtrlC ->
       answer_value a2 "" <> "" -> answer_value a3 "" <> "" ->
       ends_on_missing_bridge E fuel w)) /\
  ((forall w0 p,
       which E (exe_name E "scrcpy") = Some p -> p <> "" ->
       ensure_scrcpy E w0 = (Ret (Some p), w0)) /\
   (forall w0,
       falsy (which E (exe_name E "scrcpy")) = true ->
       path_exists E (scrcpy_cache_path E) = true ->
       ensure_scrcpy E w0 = (Ret (Some (scrcpy_cache_path E)), w0)) /\
   (forall rest w1 p,
       inputs w = Typed "14" :: rest ->
       ensure_scrcpy E (advance w rest 0 menu_events) = (Ret (Some p), w1) ->
       p <> "" ->
       loop E (S fuel) w =
       (Ret Returned,
        advance w1 (inputs w1) 1
          [Spawn [which_adb E; "devices"] true; tool_missing_report]))) /\
  ((forall w0,
       dispatch E "15" w0 =
       (Ret false,
        advance w0 (inputs w0) 0 [PrintPanel "Help Menu" "Panduan Penggunaan Menu ADB"])) /\
   (forall w0 a rest,
       inputs w0 = a :: rest -> a <> CtrlC ->
       let p := answer_value a "" in
       (p = "" \/ path_isfile E p = false ->
        dispatch E "9" w0 =
        (Ret false, advance w0 rest 0 [Ask "Masukkan path ke file APK (lokal)";
                                       Print "[red]File APK tidak ditemukan.[/red]"])) /\
       (p = "" \/ path_exists E p = false ->
        dispatch E "10" w0 =
        (Ret false, advance w0 rest 0 [Ask "Path file sumber (PC)";
                                       Print "[red]File sumber tidak ditemukan.[/red]"])) /\
       (p = "" ->
        dispatch E "11" w0 =
        (Ret false, advance w0 rest 0
                      [Ask "Path file di device (contoh: /sdcard/Download/file.txt)";
                       Print "[red]Path remote kosong.[/red]"])) /\
       (forall a2 rest2,
           p <> "" -> rest = a2 :: rest2 -> a2 <> CtrlC -> answer_value a2 "" = "" ->
           dispatch E "11" w0 =
           (Ret false, advance w0 rest2 0
                         [Ask "Path file di device (contoh: /sdcard/Download/file.txt)";
                          Ask "Path tujuan di PC (lokal)";
                          Print "[red]Path tujuan kosong.[/red]"]))) /\
   (forall w0 w1 o,
       ensure_scrcpy E w0 = (Ret o, w1) -> falsy o = true ->
       dispatch E "14" w0 =
       (Ret false, advance w1 (inputs w1) 0 [Print "[red]scrcpy tidak tersedia.[/red]"])) /\
   (forall a rest w2 a2 rest2,
       inputs w = a :: rest -> a <> CtrlC ->
       dispatch E (answer_value a "1") (advance w rest 0 menu_events) = (Ret false, w2) ->
       inputs w2 = a2 :: rest2 -> a2 <> CtrlC ->
       loop_body E w = (Ret false, advance w2 rest2 0 pause_events) /\
       loop E (S fuel) w = loop E fuel (advance w2 rest2 0 pause_events))) /\
  main_loop E (S fuel) w =
  loop E (S fuel) (advance w (inputs w) 0 [manual_install_notice]).
Proof.
  split; [intros a rest; apply launch_ends|].
  split.
  { split.
    { intros choice rest Hc Hin.
      apply (launch_ends fuel w (Typed choice) rest Hin); [discriminate | |].
      - cbn [In] in Hc.
        repeat (destruct Hc as [<- | Hc]; [vm_compute; discriminate|]). destruct Hc.
      - rewrite (direct_operations_launch E HA w choice rest Hc Hin). lia. }
    split.
    { intros choice a2 rest Hc Hin Ha2.
      apply (cycle_reaches_bridge fuel w (Typed choice) (a2 :: rest) Hin); [discriminate|].
      cbn [In] in Hc.
      destruct Hc as [<- | [<- | [<- | []]]];
        match goal with
        | |- context [answer_value (Typed ?c) "1"] =>
            change (answer_value (Typed c) "1") with c
        end;
        cbn [dispatch String.eqb Ascii.eqb Bool.eqb andb]; apply stops_bind;
        unfold connect_device, enable_tcpip, disconnect_device;
        (eapply stops_after_prompt; [reflexivity | exact Ha2 |]);
        cbv beta; try apply stops_run_adb.
      destruct (truthy _); apply stops_run_adb. }
    split.
    { intros a2 a3 rest Hin Ha2 Ha3.
      apply (cycle_reaches_bridge fuel w (Typed "4") (a2 :: a3 :: rest) Hin); [discriminate|].
      change (answer_value (Typed "4") "1") with "4".
      cbn [dispatch String.eqb Ascii.eqb Bool.eqb andb]. apply stops_bind.
      unfold pair_device.
      eapply stops_after_prompt; [reflexivity | exact Ha2 |]. cbv beta.
      eapply stops_after_prompt; [reflexivity | exact Ha3 |]. cbv beta.
      apply stops_run_adb. }
    split.
    { intros a2 rest Hin Ha2 Hne Hfile.
      apply (cycle_reaches_bridge fuel w (Typed "9") (a2 :: rest) Hin); [discriminate|].
      change (answer_value (Typed "9") "1") with "9".
      cbn [dispatch String.eqb Ascii.eqb Bool.eqb andb]. apply stops_bind.
      unfold install_apk.
      eapply stops_after_prompt; [reflexivity | exact Ha2 |]. cbv beta.
      rewrite (truthy_true _ Hne), Hfile. cbn [negb orb].
      apply stops_pick. }
    split.
    { intros a2 a3 rest Hin Ha2 Ha3 Hne Hex.
      apply (cycle_reaches_bridge fuel w (Typed "10") (a2 :: a3 :: rest) Hin); [discriminate|].
      change (answer_value (Typed "10") "1") with "10".
      cbn [dispatch String.eqb Ascii.eqb Bool.eqb andb]. apply stops_bind.
      unfold push_file.
      eapply stops_after_prompt; [reflexivity | exact Ha2 |]. cbv beta.
      rewrite (truthy_true _ Hne), Hex. cbn [negb orb].
      eapply stops_after_prompt; [reflexivity | exact Ha3 |]. cbv beta.
      apply stops_pick. }
    intros a2 a3 rest Hin Ha2 Ha3 Hr Hd.
    apply (cycle_reaches_bridge fuel w (Typed "11") (a2 :: a3 :: rest) Hin); [discriminate|].
    change (answer_value (Typed "11") "1") with "11".
    cbn [dispatch String.eqb Ascii.eqb Bool.eqb andb]. apply stops_bind.
    unfold pull_file.
    eapply stops_after_prompt; [reflexivity | exact Ha2 |]. cbv beta.
    rewrite (truthy_true _ Hr). cbn [negb].
    eapply stops_after_prompt; [reflexivity | exact Ha3 |]. cbv beta.
    rewrite (truthy_true _ Hd). cbn [negb].
    apply stops_pick. }
  split.
  { split; [intros w0 p; apply ensure_scrcpy_on_path|].
    split; [intros w0; apply ensure_scrcpy_cached|].
    intros rest w1 p Hin He Hp.
    rewrite loop_step, (loop_body_eq E w (Typed "14") rest Hin) by discriminate.
    change (answer_value (Typed "14") "1") with "14".
    unfold after_selection. unfold bind at 1. unfold try_except at 1.
    cbn [dispatch String.eqb Ascii.eqb Bool.eqb andb]. unfold bind at 1.
    rewrite (mirroring_missing _ w1 p He Hp).
    cbn. unfold tool_missing_report. world_norm. reflexivity. }
  split; [|apply (main_loop_absent E HA)].
  split.
  { intros w0. cbn [dispatch String.eqb Ascii.eqb Bool.eqb andb].
    unfold show_help, bind. world_norm. reflexivity. }
  split.
  { intros w0 a rest Hin Ha p.
    destruct (local_path_cases E w0 a rest Hin Ha) as (H1 & H2 & H3 & H4).
    fold p in H1, H2, H3, H4.
    split; [|split; [|split]].
    - intros Hbad. cbn [dispatch String.eqb Ascii.eqb Bool.eqb andb].
      apply op_returned, H1, Hbad.
    - intros Hbad. cbn [dispatch String.eqb Ascii.eqb Bool.eqb andb].
      apply op_returned, H2, Hbad.
    - intros Hbad. cbn [dispatch String.eqb Ascii.eqb Bool.eqb andb].
      apply op_returned, H3, Hbad.
    - intros a2 rest2 Hp Hrest Ha2 Hd. cbn [dispatch String.eqb Ascii.eqb Bool.eqb andb].
      apply op_returned. apply (H4 a2 rest2); assumption. }
  split.
  { intros w0 w1 o He Ho. cbn [dispatch String.eqb Ascii.eqb Bool.eqb andb].
    apply op_returned. exact (mirroring_unavailable w0 w1 o He Ho). }
  intros a rest w2 a2 rest2. apply quiet_cycle.
Qed.

End MissingBridgeSession.

(* ================================================================= *)
(** ** The session ends on every finite script *)

Section Termination.
Import PyStr World Adb Obs More.
Variable E : env.

Lemma ib_ret {A} (a : A) : input_bounded (ret a).
Proof. intros w. apply Nat.le_refl. Qed.

Lemma ib_raise {A} (e : exn) : input_bounded (@raise A e).
Proof. intros w. apply Nat.le_refl. Qed.

Lemma ib_emit (e : event) : input_bounded (emit e).
Proof. intros w. apply Nat.le_refl. Qed.

Lemma ib_print (s : string) : input_bounded (console_print s).
Proof. apply ib_emit. Qed.

Lemma ib_lift {A} (o : option A) (e : exn) : input_bounded (lift o e).
Proof. destruct o; [apply ib_ret | apply ib_raise]. Qed.

Lemma ib_process (cmd : list string) (c : bool) : input_bounded (run_process E cmd c).
Proof. intros w. apply Nat.le_refl. Qed.

Lemma ib_bind {A B} (m : M A) (k : A -> M B) :
  input_bounded m -> (forall a, input_bounded (k a)) -> input_bounded (bind m k).
Proof.
  intros Hm Hk w. specialize (Hm w). unfold bind.
  destruct (m w) as [[a|e] w1]; cbn [snd] in *; [|exact Hm].
  specialize (Hk a w1). lia.
Qed.

Lemma ib_try {A} (m : M A) (handles : exn -> bool) (h : exn -> M A) :
  input_bounded m -> (forall e, input_bounded (h e)) ->
  input_bounded (try_except m handles h).
Proof.
  intros Hm Hh w. specialize (Hm w). unfold try_except.
  destruct (m w) as [[a|e] w1]; cbn [snd] in *; [exact Hm|].
  destruct (handles e); [|exact Hm]. specialize (Hh e w1). lia.
Qed.

Lemma ib_next : input_bounded next_answer.
Proof.
  intros w. unfold next_answer. destruct (inputs w) as [|a rest] eqn:Hin; cbn [snd inputs].
  - rewrite Hin. apply Nat.le_refl.
  - cbn [List.length]. lia.
Qed.

Lemma ib_prompt (p : string) (d : option string) : input_bounded (Prompt_ask p d).
Proof.
  unfold Prompt_ask. apply ib_bind; [apply ib_emit|]. intros _.
  apply ib_bind; [apply ib_next|]. intros [v| |]; [apply ib_ret | apply ib_ret | apply ib_raise].
Qed.

Lemma ib_input : input_bounded input.
Proof.
  unfold input. apply ib_bind; [apply ib_emit|]. intros _.
  apply ib_bind; [apply ib_next|]. intros _. apply ib_ret.
Qed.

Lemma confirm_from_inputs (p : string) (ins : list answer) (n : nat) (tr : list event) :
  (List.length (inputs (snd (confirm_from p ins n tr))) <= List.length ins)%nat.
Proof.
  revert tr; induction ins as [|a ins IH]; intros tr; [apply Nat.le_refl|].
  cbn [confirm_from List.length]. destruct a as [v| |].
  - destruct (lower (strip v) =? "y")%string; [cbn; lia|].
    destruct (lower (strip v) =? "n")%string; [cbn; lia|].
    specialize (IH (tr ++ [Ask p])%list). lia.
  - specialize (IH (tr ++ [Ask p])%list). lia.
  - cbn. lia.
Qed.

Lemma ib_confirm (p : string) : input_bounded (Confirm_ask p).
Proof. intros w. apply confirm_from_inputs. Qed.

Lemma ib_enumerated (idx : nat) (l : list string) : input_bounded (print_enumerated idx l).
Proof.
  revert idx; induction l as [|s l IH]; intros idx; [apply ib_ret|].
  cbn [print_enumerated]. apply ib_bind; [apply ib_print | intros _; apply IH].
Qed.

(** Composes the facts above along the structure of a computation. *)
Ltac bounded_steps :=
  repeat match goal with
         | |- input_bounded (ret _) => apply ib_ret
         | |- input_bounded (raise _) => apply ib_raise
         | |- input_bounded (console_print _) => apply ib_print
         | |- input_bounded (emit _) => apply ib_emit
         | |- input_bounded (lift _ _) => apply ib_lift
         | |- input_bounded (Prompt_ask _ _) => apply ib_prompt
         | |- input_bounded (Confirm_ask _) => apply ib_confirm
         | |- input_bounded (run_process _ _ _) => apply ib_process
         | |- input_bounded input => apply ib_input
         | |- input_bounded (print_enumerated _ _) => apply ib_enumerated
         | |- input_bounded (bind (if ?b then _ else _) _) => destruct b
         | |- input_bounded (if ?b then _ else _) => destruct b
         | |- input_bounded (match ?x with _ => _ end) => destruct x
         | |- input_bounded (let _ := _ in _) => cbv zeta
         | |- input_bounded (try_except _ _ _) => apply ib_try; [ | intros ? ]
         | |- input_bounded (bind _ _) => apply ib_bind; [ | intros ? ]
         end.

Lemma ib_run_adb (args : list string) : input_bounded (run_adb E args).
Proof. unfold run_adb. bounded_steps. Qed.

Lemma ib_pick : input_bounded (_pick_serial_interactive E).
Proof.
  unfold _pick_serial_interactive.
  apply ib_bind; [apply ib_run_adb | intros [[rc out] err]]. bounded_steps.
Qed.

Lemma ib_ensure_scrcpy : input_bounded (ensure_scrcpy E).
Proof.
  unfold ensure_scrcpy, raise_if, run_checked, download_and_unpack. bounded_steps.
Qed.

Lemma ib_dispatch (choice : string) : input_bounded (dispatch E choice).
Proof.
  unfold dispatch, list_devices, start_server, stop_server, pair_device,
    connect_device, enable_tcpip, open_shell, run_command_on_device, install_apk,
    push_file, pull_file, reboot_device, disconnect_device, show_help,
    try_screen_mirroring.
  repeat match goal with
         | |- input_bounded (run_adb _ _) => apply ib_run_adb
         | |- input_bounded (_pick_serial_interactive _) => apply ib_pick
         | |- input_bounded (ensure_scrcpy _) => apply ib_ensure_scrcpy
         | _ => progress bounded_steps
         end.
Qed.

Lemma ib_after_selection (choice : string) : input_bounded (after_selection E choice).
Proof.
  unfold after_selection.
  apply ib_bind;
    [apply ib_try; [apply ib_dispatch | intros e; unfold loop_handler; destruct e;
                                        bounded_steps]|].
  intros stop. bounded_steps.
Qed.

(** A cycle that returns has read at least the selection. *)
Lemma loop_body_consumes (w w' : world) (stop : bool) :
  loop_body E w = (Ret stop, w') ->
  (List.length (inputs w') < List.length (inputs w))%nat.
Proof.
  intros H. destruct (inputs w) as [|a rest] eqn:Hin.
  - exfalso. revert H. unfold loop_body, show_menu.
    unfold bind at 1. unfold emit at 1. unfold bind at 1. unfold emit at 1.
    cbn [inputs launches trace]. unfold bind at 1.
    unfold Prompt_ask, bind, emit, next_answer. cbn [inputs launches trace].
    rewrite Hin. discriminate.
  - destruct a as [v| |].
    3:{ exfalso. revert H. unfold loop_body, show_menu.
        unfold bind at 1. unfold emit at 1. unfold bind at 1. unfold emit at 1.
        cbn [inputs launches trace]. unfold bind at 1.
        unfold Prompt_ask, bind, emit, next_answer. cbn [inputs launches trace].
        rewrite Hin. discriminate. }
    all: rewrite (loop_body_eq E w _ rest Hin) in H by discriminate;
      match type of H with
      | after_selection E ?c ?w0 = _ =>
          pose proof (ib_after_selection c w0) as Hb; rewrite H in Hb;
          cbn [snd inputs advance List.length] in Hb |- *; lia
      end.
Qed.

(** X21.  On a finite script of answers the session always ends: with
    more fuel than answers left, [loop] and [main_loop] never stop for
    lack of fuel, and their result is the same for every such amount of
    fuel. *)
Theorem session_ends (fuel : nat) (w : world) :
  (List.length (inputs w) < fuel)%nat ->
  fst (loop E fuel w) <> Ret OutOfFuel /\
  fst (main_loop E fuel w) <> Ret OutOfFuel /\
  (forall fuel', (List.length (inputs w) < fuel')%nat ->
                 loop E fuel' w = loop E fuel w /\
                 main_loop E fuel' w = main_loop E fuel w).
Proof.
  assert (Hloop : forall f w0, (List.length (inputs w0) < f)%nat ->
                               fst (loop E f w0) <> Ret OutOfFuel /\
                               forall f', (List.length (inputs w0) < f')%nat ->
                                          loop E f' w0 = loop E f w0).
  { induction f as [|f IH]; intros w0 Hlt; [lia|].
    split.
    - rewrite loop_step. destruct (loop_body E w0) as [[[|]|e] w1] eqn:Hb;
        cbn [fst]; try discriminate.
      apply IH. apply loop_body_consumes in Hb. lia.
    - intros f' Hlt'. destruct f' as [|f']; [lia|].
      rewrite !loop_step. destruct (loop_body E w0) as [[[|]|e] w1] eqn:Hb;
        try reflexivity.
      apply loop_body_consumes in Hb. apply IH; lia. }
  assert (Hens : exists x evs, ensure_adb E w = (Ret x, advance w (inputs w) 0 evs)).
  { unfold ensure_adb. destruct (falsy (which E (which_adb E))).
    - destruct (path_exists E _).
      + exists (pjoin E (pjoin E (APP_ROOT E) "platform-tools") (exe_name E "adb")), [].
        world_norm. rewrite app_nil_r, world_eta. reflexivity.
      + eexists _, [_]. unfold bind. world_norm. reflexivity.
    - exists (which_adb E), []. world_norm. rewrite app_nil_r, world_eta. reflexivity. }
  destruct Hens as (x & evs & Hens).
  intros Hlt. split; [apply Hloop, Hlt|].
  assert (Hm : forall f, main_loop E f w = loop E f (advance w (inputs w) 0 evs)).
  { intros f. unfold main_loop. unfold bind at 1. rewrite Hens. reflexivity. }
  split.
  - rewrite Hm. apply Hloop. exact Hlt.
  - intros fuel' Hlt'. split; [now apply Hloop|]. rewrite !Hm. now apply Hloop.
Qed.

(** X22.  [ensure_adb] reads nothing and launches nothing.  Without a
    hit on the search path it returns what [which_adb] resolves and
    prints the manual-install notice exactly when the cache holds no
    copy either; with a hit that the search path confirms it returns the
    hit and prints nothing. *)
Theorem ensure_adb_notice (w : world) :
  (which E (exe_name E "adb") = None ->
   ensure_adb E w =
   (Ret (which_adb E),
    advance w (inputs w) 0
      (if path_exists E (adb_cache_path E) then [] else [manual_install_notice]))) /\
  (forall found, which E (exe_name E "adb") = Some found -> truthy found = true ->
                 falsy (which E found) = false ->
                 ensure_adb E w = (Ret found, advance w (inputs w) 0 [])).
Proof.
  split.
  - intros Hw. unfold ensure_adb, which_adb, adb_cache_path. rewrite Hw.
    destruct (path_exists E _) eqn:Hc.
    + destruct (falsy (which E _)); world_norm; rewrite app_nil_r, world_eta; reflexivity.
    + rewrite Hw. cbn [falsy]. unfold bind. world_norm. reflexivity.
  - intros found Hw Ht Hf. unfold ensure_adb, which_adb. rewrite Hw, Ht, Hf.
    world_norm. rewrite app_nil_r, world_eta. reflexivity.
Qed.

End Termination.

(* ================================================================= *)
(** ** Further scenarios *)

Section MoreScenarios.
Import PyStr World Adb Obs More.

(** Open shell and Help on a host without the bridge: the first ends
    the session on the report, the second prints its panel. *)
Lemma tool_missing_ends_session_witness :
  ends_on_missing_bridge host_without_bridge 0 (session [Typed "7"]) /\
  dispatch host_without_bridge "15" (session [])
  = (Ret false,
     advance (session []) [] 0 [PrintPanel "Help Menu" "Panduan Penggunaan Menu ADB"]).
Proof.
  pose proof (tool_missing_ends_session host_without_bridge host_without_bridge_absent
                0 (session [Typed "7"])) as (_ & (H2 & _) & _ & (H4 & _) & _).
  split.
  - apply (H2 "7" []); [cbn [In]; auto | reflexivity].
  - apply H4.
Defined.

Lemma which_adb_resolution_witness :
  which_adb (host_with (listing header)) = "/usr/bin/adb".
Proof.
  apply (proj1 (proj2 (which_adb_resolution (host_with (listing header))))).
  - reflexivity.
  - reflexivity.
Defined.

Lemma list_devices_table_witness :
  exists rows,
    list_devices (host_with (fun _ _ => Exited 0 (header ++ listing_text
                                              ["emulator-5554 device product:sdk";
                                               tabbed "R58M12ABCDE" "unauthorized"]) ""))
                 (session []) =
    (Ret tt, advance (session []) [] 1
               [Spawn ["/usr/bin/adb"; "devices"; "-l"] true;
                PrintTable "ADB Devices" rows]) /\
    map fst rows
    = map (fun l => hd "" (split_ws l))
          (filter (fun l => truthy (strip l))
                  (tl (splitlines (strip (header ++ listing_text
                                            ["emulator-5554 device product:sdk";
                                             tabbed "R58M12ABCDE" "unauthorized"]))))) /\
    (forall s, In s (ready_devices (header ++ listing_text
                                      ["emulator-5554 device product:sdk";
                                       tabbed "R58M12ABCDE" "unauthorized"])) ->
               In s (map fst rows)).
Proof.
  apply (proj1 (list_devices_table
                  (host_with (fun _ _ => Exited 0 (header ++ listing_text
                                             ["emulator-5554 device product:sdk";
                                              tabbed "R58M12ABCDE" "unauthorized"]) ""))
                  (session [])) _ "").
  reflexivity.
Defined.

Lemma selector_result_is_listed_witness :
  exists out err,
    spawn one_device_host (launches (session [])) [which_adb one_device_host; "devices"]
    = Exited 0 out err /\
    In "emulator-5554" (ready_devices out) /\
    truthy "emulator-5554" = true /\ none_of is_space "emulator-5554" = true /\
    launches (launched one_device_host (session []) ["devices"]) = S (launches (session [])).
Proof.
  apply (selector_result_is_listed one_device_host (session [])
           (launched one_device_host (session []) ["devices"]) "emulator-5554").
  vm_compute. reflexivity.
Defined.

Lemma selector_listing_failure_witness :
  _pick_serial_interactive (host_with (fun _ _ => Exited 1 "" "error: protocol fault"))
                           (session [Typed "1"]) =
  (Ret None,
   advance (session [Typed "1"]) [Typed "1"] 1
     [Spawn ["/usr/bin/adb"; "devices"] true;
      Print ("[red]Error: " ++ or_else (strip "error: protocol fault") (strip "") ++ "[/red]")]).
Proof.
  apply (proj1 (selector_listing_failure
                  (host_with (fun _ _ => Exited 1 "" "error: protocol fault"))
                  (session [Typed "1"])) 1 "" "error: protocol fault").
  - reflexivity.
  - discriminate.
Defined.

(** A bridge that lists one emulator and whose shell is interrupted. *)
Lemma open_shell_returns_witness :
  let E := host_with (fun _ cmd =>
                        match cmd with
                        | [_; "devices"] =>
                            Exited 0 (header ++ listing_text [tabbed "emulator-5554" "device"]) ""
                        | _ => Interrupted
                        end) in
  let w1 := launched E (session []) ["devices"] in
  let cmd := ["/usr/bin/adb"; "-s"; "emulator-5554"; "shell"] in
  open_shell E (session []) =
  (Ret tt,
   advance w1 (inputs w1) 1
     (Print ("[green]Opening interactive shell to " ++ "emulator-5554"
             ++ ". Ketik 'exit' untuk keluar.[/green]")
      :: Spawn cmd false
      :: match spawn E (launches w1) cmd with
         | Exited _ _ _ => []
         | Interrupted => [Print (nl ++ "[yellow]Shell interrupted by user.[/yellow]")]
         | NotFound msg | LaunchFailed msg =>
             [Print ("[red]Error starting shell:[/red] " ++ msg)]
         end)).
Proof.
  intros E w1 cmd.
  apply (open_shell_returns E (session []) w1 "emulator-5554").
  vm_compute. reflexivity.
Defined.

Lemma run_command_arguments_witness :
  let E := one_device_host in
  (let w := session [Typed "ls /sdcard"] in
   let w1 := launched E w ["devices"] in
   exists r evs,
     run_command_on_device E w =
     (r, advance w1 [] 1
           (Ask "Masukkan perintah shell (contoh: ls /sdcard)"
            :: Spawn (which_adb E :: "-s" :: "emulator-5554" :: "shell" :: ["ls"; "/sdcard"]) true
            :: evs)) /\
     spawned evs = []) /\
  (let w := session [Typed "ls \"] in
   run_command_on_device E w =
   (Raise (ValueError "No escaped character"),
    advance (launched E w ["devices"]) [] 0
      [Ask "Masukkan perintah shell (contoh: ls /sdcard)"])).
Proof.
  intros E. split.
  - intros w w1.
    apply (proj1 (proj2 (run_command_arguments E w w1 "emulator-5554" (Typed "ls /sdcard") []
                           ltac:(vm_compute; reflexivity) eq_refl ltac:(discriminate)))).
    + discriminate.
    + reflexivity.
  - intros w.
    apply (proj2 (proj2 (run_command_arguments E w (launched E w ["devices"]) "emulator-5554"
                           (Typed "ls \") []
                           ltac:(vm_compute; reflexivity) eq_refl ltac:(discriminate)))).
    + discriminate.
    + reflexivity.
Defined.

Lemma run_command_plain_words_witness :
  let E := one_device_host in
  let w := session [Typed "pm list  packages"] in
  let w1 := launched E w ["devices"] in
  exists r evs,
    run_command_on_device E w =
    (r, advance w1 [] 1
          (Ask "Masukkan perintah shell (contoh: ls /sdcard)"
           :: Spawn (which_adb E :: "-s" :: "emulator-5554" :: "shell"
                     :: words_from "" "pm list  packages") true
           :: evs)) /\
    spawned evs = [].
Proof.
  intros E w w1.
  apply (run_command_plain_words E w w1 "emulator-5554" (Typed "pm list  packages") []).
  - vm_compute. reflexivity.
  - reflexivity.
  - discriminate.
  - discriminate.
  - reflexivity.
  - reflexivity.
Defined.

Lemma run_command_open_quotation_witness :
  let E := one_device_host in
  let w := session [Typed ("echo " ++ String Shlex.SQUOTE "a b")] in
  run_command_on_device E w =
  (Raise (ValueError "No closing quotation"),
   advance (launched E w ["devices"]) [] 0
     [Ask "Masukkan perintah shell (contoh: ls /sdcard)"]).
Proof.
  intros E w.
  apply (run_command_open_quotation E w (launched E w ["devices"]) "emulator-5554" []
           "echo " "a b" Shlex.SQUOTE).
  - vm_compute. reflexivity.
  - reflexivity.
  - reflexivity.
  - reflexivity.
  - reflexivity.
  - reflexivity.
  - reflexivity.
Defined.

Lemma run_command_single_quoted_witness :
  let E := one_device_host in
  let w := session [Typed (String Shlex.SQUOTE ("ls -l /sdcard" ++ String Shlex.SQUOTE ""))] in
  exists r evs,
    run_command_on_device E w =
    (r, advance (launched E w ["devices"]) [] 1
          (Ask "Masukkan perintah shell (contoh: ls /sdcard)"
           :: Spawn [which_adb E; "-s"; "emulator-5554"; "shell"; "ls -l /sdcard"] true
           :: evs)) /\
    spawned evs = [].
Proof.
  intros E w.
  apply (run_command_single_quoted E w (launched E w ["devices"]) "emulator-5554" []
           "ls -l /sdcard").
  - vm_compute. reflexivity.
  - reflexivity.
  - reflexivity.
Defined.

Lemma install_arguments_witness :
  let E := one_device_host in
  let w := session [Typed " /tmp/app.apk "] in
  let w0 := advance w [] 0 [Ask "Masukkan path ke file APK (lokal)"] in
  let w1 := launched E w0 ["devices"] in
  exists r evs,
    install_apk E w =
    (r, advance w1 (inputs w1) 1
          (Print ("[green]Installing " ++ "/tmp/app.apk" ++ " to " ++ "emulator-5554"
                  ++ " ...[/green]")
           :: Spawn [which_adb E; "-s"; "emulator-5554"; "install"; "-r"; "/tmp/app.apk"] true
           :: evs)) /\
    spawned evs = [].
Proof.
  intros E w w0 w1.
  apply (install_arguments E w w1 "emulator-5554" (Typed " /tmp/app.apk ") []).
  - reflexivity.
  - discriminate.
  - discriminate.
  - reflexivity.
  - reflexivity.
  - reflexivity.
  - vm_compute. reflexivity.
Defined.

Lemma push_arguments_witness :
  let E := one_device_host in
  let w := session [Typed "/tmp/app.apk"; Typed "/sdcard/Download/"] in
  let w0 := advance w [] 0 [Ask "Path file sumber (PC)";
                            Ask "Path tujuan di device (contoh: /sdcard/Download/)"] in
  let w1 := launched E w0 ["devices"] in
  exists r evs,
    push_file E w =
    (r, advance w1 (inputs w1) 1
          (Print ("[green]Pushing " ++ "/tmp/app.apk" ++ " -> " ++ "emulator-5554" ++ ":"
                  ++ "/sdcard/Download/" ++ "[/green]")
           :: Spawn [which_adb E; "-s"; "emulator-5554"; "push"; "/tmp/app.apk";
                     "/sdcard/Download/"] true
           :: evs)) /\
    spawned evs = [].
Proof.
  intros E w w0 w1.
  apply (push_arguments E w w1 "emulator-5554" (Typed "/tmp/app.apk")
           (Typed "/sdcard/Download/") []).
  - reflexivity.
  - discriminate.
  - discriminate.
  - discriminate.
  - reflexivity.
  - reflexivity.
  - reflexivity.
  - reflexivity.
  - vm_compute. reflexivity.
Defined.

Lemma pull_arguments_witness :
  let E := one_device_host in
  let w := session [Typed "/sdcard/Download/file.txt"; Typed "out.txt"] in
  let w0 := advance w [] 0 [Ask "Path file di device (contoh: /sdcard/Download/file.txt)";
                            Ask "Path tujuan di PC (lokal)"] in
  let w1 := launched E w0 ["devices"] in
  exists r evs,
    pull_file E w =
    (r, advance w1 (inputs w1) 1
          (Print ("[green]Pulling " ++ "emulator-5554" ++ ":" ++ "/sdcard/Download/file.txt"
                  ++ " -> " ++ "out.txt" ++ "[/green]")
           :: Spawn [which_adb E; "-s"; "emulator-5554"; "pull";
                     "/sdcard/Download/file.txt"; "out.txt"] true
           :: evs)) /\
    spawned evs = [].
Proof.
  intros E w w0 w1.
  apply (pull_arguments E w w1 "emulator-5554" (Typed "/sdcard/Download/file.txt")
           (Typed "out.txt") []).
  - reflexivity.
  - discriminate.
  - discriminate.
  - discriminate.
  - discriminate.
  - reflexivity.
  - reflexivity.
  - reflexivity.
  - vm_compute. reflexivity.
Defined.

Lemma mirroring_needs_listed_device_witness :
  let w := session [] in
  exists r evs,
    try_screen_mirroring mirror_host w =
    (r, advance w (inputs w) 2
          (Spawn [which_adb mirror_host; "devices"] true
           :: Print "[green]Menjalankan scrcpy...[/green]"
           :: Spawn ["/usr/bin/scrcpy"] false :: evs)) /\
    spawned evs = [].
Proof.
  intros w.
  apply (proj1 (proj2 (mirroring_needs_listed_device mirror_host w w "/usr/bin/scrcpy"
                         (header ++ listing_text [tabbed "emulator-5554" "device"]) "" 0
                         eq_refl eq_refl eq_refl))).
  vm_compute. discriminate.
Defined.

(** An interrupt at the first prompt of the pair operation. *)
Lemma loop_exception_policy_witness :
  let w := session [Typed "4"; CtrlC] in
  let w2 := advance w [] 0
              (menu_events ++ [Ask "Masukkan ip:port untuk pair (contoh 192.168.0.5:37099)"]) in
  loop one_device_host 1 w =
  (Ret Returned,
   advance w2 (inputs w2) 0 [Print (nl ++ "[yellow]Dibatalkan oleh user.[/yellow]")]).
Proof.
  intros w w2.
  apply (loop_exception_policy one_device_host 0 w w2 (Typed "4") [CtrlC] KeyboardInterrupt).
  - reflexivity.
  - discriminate.
  - vm_compute. reflexivity.
Defined.

Lemma menu_prompt_unguarded_witness :
  loop one_device_host 1 (session [CtrlC])
  = (Raise KeyboardInterrupt, advance (session [CtrlC]) [] 0 menu_events).
Proof.
  apply (proj1 (menu_prompt_unguarded one_device_host 0 (session [CtrlC])) []).
  reflexivity.
Defined.

Lemma pause_outcomes_witness :
  let w := session [Typed "15"; CtrlC] in
  let w2 := advance w [CtrlC] 0
              (menu_events ++ [PrintPanel "Help Menu" "Panduan Penggunaan Menu ADB"]) in
  loop one_device_host 1 w =
  match inputs w2 with
  | [] => (Raise EOFError, advance w2 [] 0 pause_events)
  | CtrlC :: rest2 =>
      (Ret Returned,
       advance w2 rest2 0
         (pause_events ++ [Print (nl ++ "[yellow]Interrupted. Keluar.[/yellow]")]))
  | _ :: rest2 => loop one_device_host 0 (advance w2 rest2 0 pause_events)
  end.
Proof.
  intros w w2.
  apply (pause_outcomes one_device_host 0 w w2 (Typed "15") [CtrlC]).
  - reflexivity.
  - discriminate.
  - vm_compute. reflexivity.
Defined.

Lemma unknown_selection_witness :
  dispatch one_device_host "99" (session [])
  = (Ret false, advance (session []) [] 0 [Print "[red]Pilihan tidak dikenal.[/red]"]).
Proof.
  apply (unknown_selection one_device_host "99" (session [])).
  unfold known_choices. cbn [In]. intros H.
  repeat (destruct H as [H|H]; [discriminate H|]). exact H.
Defined.

Lemma exit_needs_confirmation_witness :
  dispatch one_device_host "0" (session [Typed "y"])
  = (Ret true, advance (session [Typed "y"]) [] 0
                 [Ask "Yakin mau keluar?"; Print "[bold]Sampai jumpa![/bold]"]).
Proof.
  apply (proj1 (exit_needs_confirmation one_device_host (session [Typed "y"]) [])).
  reflexivity.
Defined.

Lemma session_ends_witness :
  let w := session [Typed "15"; Enter; Typed "99"; Enter; Typed "0"; Typed "y"] in
  fst (loop one_device_host 7 w) <> Ret OutOfFuel /\
  fst (main_loop one_device_host 7 w) <> Ret OutOfFuel /\
  (forall fuel', (List.length (inputs w) < fuel')%nat ->
                 loop one_device_host fuel' w = loop one_device_host 7 w /\
                 main_loop one_device_host fuel' w = main_loop one_device_host 7 w).
Proof.
  intros w. apply (session_ends one_device_host 7 w). cbn. lia.
Defined.

Lemma ensure_adb_notice_witness :
  ensure_adb host_without_bridge (session [])
  = (Ret (which_adb host_without_bridge),
     advance (session []) [] 0
       (if path_exists host_without_bridge (adb_cache_path host_without_bridge)
        then [] else [manual_install_notice])).
Proof.
  apply (proj1 (ensure_adb_notice host_without_bridge (session []))).
  reflexivity.
Defined.

End MoreScenarios.
